(** * Fly scans of the SRX profile collection

    A shallow embedding of [startup/62-flyscans.py]: the plan
    [scan_and_fly_base] with its per-row routine [fly_each_step], the
    document callbacks [at_scan] and [finalize_scan], and the bluesky plan
    stubs and wrappers it is built from ([mv], [abs_set], [kickoff],
    [stage_decorator], [subs_decorator], [run_decorator], ...); the nine
    entry points ([scan_and_fly], [nano_scan_and_fly], ...); and the classes
    [RowBasedLiveGrid] and [ArrayCounterLiveGrid].  Not embedded are
    [timer_wrapper], [tic] and [toc], which read the clock, and
    [LiveZebraPlot], which reads the databroker.

    Conventions of the model.
    - Python floats are exact rationals ([Q]); rounding is not modelled.
      Python ints are [Z].
    - An ophyd device is identified with its name; a signal is a device name
      with an attribute path.
    - A plan is a function of the surroundings ([Env]: the globals of the
      profile, the readings of the fast axis and the exceptions the
      RunEngine throws into the plan) and of the control-system state; it
      yields an outcome, the new state and the trace of what it did.
    - The [while] loop of [fly_each_step] has no bound of its own.  It is
      unrolled [patience] times; a run that is still in the loop after that
      has the outcome [Spin]. *)

From Stdlib Require Import QArith Qabs Qminmax ZArith List String Bool.
From Stdlib Require Import Lia Lqa DecimalString.
Import ListNotations.

Local Open Scope string_scope.
Local Open Scope list_scope.
Local Open Scope Q_scope.

(** ** Devices, signals and values *)

Definition Device := string.

Record Motor := {
  motor_name : Device;
  egu : string;
  velocity_high_limit : Q
}.

(** An [SRXFlyer1Axis]: the zebra with the encoder and the scaler it reads. *)
Record Flyer := {
  flyer_name : Device;
  encoder : Device;
  sclr : Device
}.

Inductive Signal := Sig (dev : Device) (attr : string).

Inductive Value :=
| VNum (q : Q)
| VInt (z : Z)
| VBool (b : bool)
| VStr (s : string).

Definition positioner (m : Motor) : Signal := Sig (motor_name m) "".
Definition velocity (m : Motor) : Signal := Sig (motor_name m) "velocity".
Definition RETRY_DEADBAND_X : Signal := Sig "hf_stage" "RETRY_DEADBAND_X".
Definition RETRY_DEADBAND_Y : Signal := Sig "hf_stage" "RETRY_DEADBAND_Y".
Definition BACKLASH_SPEED_X : Signal := Sig "hf_stage" "BACKLASH_SPEED_X".
Definition BACKLASH_SPEED_Y : Signal := Sig "hf_stage" "BACKLASH_SPEED_Y".
Definition shut_b : Signal := Sig "shut_b" "".
Definition scanrecord (attr : string) : Signal := Sig "scanrecord" attr.
Definition temp_nanoKB : Device := "temp_nanoKB".

Definition Signal_eqb (a b : Signal) : bool :=
  match a, b with
  | Sig d1 a1, Sig d2 a2 => String.eqb d1 d2 && String.eqb a1 a2
  end.

(** Python's [is] and [==] on devices: a device is its name. *)
Definition same_motor (a b : Motor) : bool :=
  String.eqb (motor_name a) (motor_name b).

(** [m in (a, b)] *)
Definition motor_in (m a b : Motor) : bool := same_motor m a || same_motor m b.

(** [sub in s] on strings *)
Definition contains (sub s : string) : bool :=
  match index 0 sub s with Some _ => true | None => false end.

(** [name in dets_by_name] *)
Definition has_key (name : string) (d : list Device) : bool :=
  existsb (String.eqb name) d.

(** ** Messages, callbacks and the trace *)

(** The group of a status: none, a name given by the plan (['row']), or an
    identifier made up for the call ([uuid4], [_short_uid]), written with the
    stub that made it up. *)
Inductive Group := GNone | GName (s : string) | GFresh (stub : string).

Inductive DocName := doc_all | doc_start | doc_stop.

Inductive ExitStatus := success | abort | fail.

Record Metadata := {
  plan_name : string;
  md_detectors : list Device;
  md_dwell : Q;
  md_shape : Z * Z;
  scaninfo_type : string;
  scaninfo_raster : bool;
  scaninfo_fast_axis : string;
  scan_params : Q * Q * Z * Q * Q * Z * Q;
  md_delta : Q;
  beamline_energy : Q;
  user_md : list (string * string)
}.

(** The functions subscribed to the documents of the run, each with the
    variables of [scan_and_fly_base] it refers to. *)
Inductive Callback :=
| LivePlot (y x : string)
| LiveGrid (raster_shape : Z * Z) (I : string) (extent : Q * Q * Q * Q)
| at_scan (md : Metadata) (dwell : Q) (xnum : Z)
| finalize_scan (xmotor ymotor : Motor) (OLD_RDBD_X OLD_RDBD_Y : option Value).

Inductive Msg :=
| Mset (obj : Signal) (val : Value) (group : Group)
| Mwait (group : Group)
| Mtrigger (obj : Device) (group : Group)
| Msleep (t : Q)
| Mkickoff (obj : Device) (xstart xstop : Q) (xnum : Z) (dwell : Q) (group : Group)
| Mcomplete (obj : Device)
| Mcollect (obj : Device)
| Mstage (obj : Device)
| Munstage (obj : Device)
| Mopen_run (md : Metadata)
| Mclose_run (exit_status : ExitStatus)
| Msubscribe (name : DocName) (func : Callback)
| Munsubscribe (token : nat)
| Mmonitor (obj : Signal)
| Munmonitor (obj : Signal)
| Mcheckpoint
| Mcreate
| Mread (obj : Device)
| Msave
| Mpeakup_fine (shutter : bool).

Inductive Event :=
| EMsg (m : Msg)
| EPut (s : Signal) (v : Value)
| EStageSig (dev : Device) (key : string) (v : Value)
| ESetDetectors (flyer : Device) (dets : list Device)
| EPrint (text : string)
| ECall (routine : string).

Inductive Exn :=
| ZeroDivisionError
| ValueError
| IndexError
| FailedStatus
| RequestAbort.

Inductive Outcome (A : Type) :=
| Ret (a : A)
| Raise (e : Exn)
| Spin.

Arguments Ret {A} a.
Arguments Raise {A} e.
Arguments Spin {A}.

(** ** The surroundings and the state *)

Definition Store := Signal -> Value.

Definition upd (s : Signal) (v : Value) (pv : Store) : Store :=
  fun s' => if Signal_eqb s s' then v else pv s'.

Record Env := {
  hf_stage_x : Motor;
  hf_stage_y : Motor;
  (** the value of the k-th [xmotor.user_readback.get()] of the run *)
  user_readback : nat -> Q;
  (** the exception, if any, that the RunEngine throws into the plan in
      place of processing the k-th message of the run *)
  fault : nat -> Msg -> option Exn;
  (** how often the start-position loop is unrolled *)
  patience : nat;
  (** whether the zebra knows all of the detectors assigned to it *)
  knows_detectors : list Device -> bool;
  fast_axis_value : string;
  energy_value : Q;
  run_uid : string;
  scan_id : Z;
  (** [hf_stage.reset_stage_defaults()], defined elsewhere in the profile *)
  reset_stage_defaults : Store -> Store
}.

Record State := {
  pv : Store;
  subs : list (nat * DocName * Callback);
  next_token : nat;
  reads : nat;
  nmsgs : nat
}.

Definition with_pv (f : Store -> Store) (st : State) : State :=
  {| pv := f (pv st); subs := subs st; next_token := next_token st;
     reads := reads st; nmsgs := nmsgs st |}.

Definition with_subs (l : list (nat * DocName * Callback)) (t : nat)
    (st : State) : State :=
  {| pv := pv st; subs := l; next_token := t;
     reads := reads st; nmsgs := nmsgs st |}.

Definition count_read (st : State) : State :=
  {| pv := pv st; subs := subs st; next_token := next_token st;
     reads := S (reads st); nmsgs := nmsgs st |}.

Definition count_msg (st : State) : State :=
  {| pv := pv st; subs := subs st; next_token := next_token st;
     reads := reads st; nmsgs := S (nmsgs st) |}.

(** The monitored signals are those of the enclosing
    [monitor_during_decorator]s. *)
Record Ctx := {
  env : Env;
  monitored : list Signal
}.

Definition Plan (A : Type) : Type := Ctx -> State -> Outcome A * State * list Event.

Definition ret {A} (a : A) : Plan A := fun _ st => (Ret a, st, []).

Definition raise {A} (e : Exn) : Plan A := fun _ st => (Raise e, st, []).

Definition spin {A} : Plan A := fun _ st => (Spin, st, []).

Definition bind {A B} (p : Plan A) (k : A -> Plan B) : Plan B :=
  fun c st =>
    match p c st with
    | (Ret a, st1, t1) =>
        match k a c st1 with
        | (o, st2, t2) => (o, st2, t1 ++ t2)
        end
    | (Raise e, st1, t1) => (Raise e, st1, t1)
    | (Spin, st1, t1) => (Spin, st1, t1)
    end.

Declare Scope plan_scope.
Delimit Scope plan_scope with plan.
Notation "x <- p ;; k" := (bind p (fun x => k))
  (at level 100, p at next level, right associativity) : plan_scope.
Notation "p ;; k" := (bind p (fun _ => k))
  (at level 100, right associativity) : plan_scope.
Local Open Scope plan_scope.

Definition ask : Plan Env := fun c st => (Ret (env c), st, []).

Definition emit (e : Event) : Plan unit := fun _ st => (Ret tt, st, [e]).

Definition print (text : string) : Plan unit := emit (EPrint text).

(** [for x in l: body(x)] *)
Fixpoint for_ {X} (l : list X) (body : X -> Plan unit) : Plan unit :=
  match l with
  | [] => ret tt
  | x :: l' => body x ;; for_ l' body
  end.

(** A [for] loop that updates a variable. *)
Fixpoint for_acc {X T} (l : list X) (a : T) (body : T -> X -> Plan T) : Plan T :=
  match l with
  | [] => ret a
  | x :: l' => a' <- body a x ;; for_acc l' a' body
  end.

(** [sig.get()] and [sig.put(v)], done by the plan or a callback itself. *)
Definition get (s : Signal) : Plan Value := fun _ st => (Ret (pv st s), st, []).

Definition do_put (s : Signal) (v : Value) (st : State) : State * list Event :=
  (with_pv (upd s v) st, [EPut s v]).

Definition put (s : Signal) (v : Value) : Plan unit :=
  fun _ st => let (st', t) := do_put s v st in (Ret tt, st', t).

(** [xmotor.user_readback.get()] *)
Definition readback : Plan Q :=
  fun c st => (Ret (user_readback (env c) (reads st)), count_read st, []).

(** ** The RunEngine *)

(** [at_scan(name, doc)] and [finalize_scan(name, doc)] of
    [scan_and_fly_base], and the live plots, which touch no signal. *)
Definition run_callback (e : Env) (cb : Callback) (st : State) : State * list Event :=
  match cb with
  | LivePlot _ _ => (st, [])
  | LiveGrid _ _ _ => (st, [])
  | at_scan md dwell xnum =>
      let (st1, t1) := do_put (scanrecord "current_scan")
                         (VStr (substring 0 6 (run_uid e))) st in
      let (st2, t2) := do_put (scanrecord "current_scan_id")
                         (VStr (NilZero.string_of_int (Z.to_int (scan_id e)))) st1 in
      let (st3, t3) := do_put (scanrecord "current_type")
                         (VStr (scaninfo_type md)) st2 in
      let (st4, t4) := do_put (scanrecord "scanning") (VBool true) st3 in
      let (st5, t5) := do_put (scanrecord "time_remaining")
                         (VNum ((dwell * inject_Z xnum + 3.8) / 3600)) st4 in
      (st5, t1 ++ t2 ++ t3 ++ t4 ++ t5)
  | finalize_scan xmotor ymotor OLD_RDBD_X OLD_RDBD_Y =>
      let t0 := [ECall "logscan_detailed"] in
      let (st1, t1) := do_put (scanrecord "scanning") (VBool false) st in
      let (st2, t2) := do_put (scanrecord "time_remaining") (VInt 0) st1 in
      let (st3, t3) :=
        match motor_in (hf_stage_x e) xmotor ymotor, OLD_RDBD_X with
        | true, Some old => do_put RETRY_DEADBAND_X old st2
        | _, _ => (st2, [])
        end in
      let (st4, t4) :=
        match motor_in (hf_stage_y e) xmotor ymotor, OLD_RDBD_Y with
        | true, Some old => do_put RETRY_DEADBAND_Y old st3
        | _, _ => (st3, [])
        end in
      (st4, t0 ++ t1 ++ t2 ++ t3 ++ t4)
  end.

Definition listens (doc name : DocName) : bool :=
  match name, doc with
  | doc_all, _ => true
  | doc_start, doc_start => true
  | doc_stop, doc_stop => true
  | _, _ => false
  end.

(** A document goes to the functions subscribed to it, in the order of
    their subscription. *)
Fixpoint dispatch (e : Env) (doc : DocName) (l : list (nat * DocName * Callback))
    (st : State) : State * list Event :=
  match l with
  | [] => (st, [])
  | (_, name, cb) :: l' =>
      if listens doc name then
        let (st1, t1) := run_callback e cb st in
        let (st2, t2) := dispatch e doc l' st1 in
        (st2, t1 ++ t2)
      else dispatch e doc l' st
  end.

Definition token_is (t : nat) (s : nat * DocName * Callback) : bool :=
  Nat.eqb (fst (fst s)) t.

(** What the RunEngine does with a message.  Devices answer on their own;
    of their state only the values set are kept. *)
Definition process (e : Env) (m : Msg) (st : State) : State * list Event :=
  match m with
  | Mset obj val _ => (with_pv (upd obj val) st, [])
  | Msubscribe name func =>
      (with_subs (subs st ++ [(next_token st, name, func)]) (S (next_token st)) st, [])
  | Munsubscribe token =>
      (with_subs (filter (fun s => negb (token_is token s)) (subs st)) (next_token st) st, [])
  | Mopen_run _ => dispatch e doc_start (subs st) st
  | Mclose_run _ => dispatch e doc_stop (subs st) st
  | _ => (st, [])
  end.

(** [yield msg]: the message is handed to the RunEngine, which processes it
    or throws an exception into the plan. *)
Definition yield_ (m : Msg) : Plan unit :=
  fun c st =>
    let st0 := count_msg st in
    match fault (env c) (nmsgs st) m with
    | Some e => (Raise e, st0, [EMsg m])
    | None => let (st1, t) := process (env c) m st0 in (Ret tt, st1, EMsg m :: t)
    end.

(** ** Plan stubs and wrappers of bluesky *)

Definition abs_set (obj : Signal) (val : Value) (group : Group) : Plan unit :=
  yield_ (Mset obj val group).

(** [abs_set(obj, val, wait=True)] *)
Definition abs_set_wait (obj : Signal) (val : Value) : Plan unit :=
  yield_ (Mset obj val (GFresh "abs_set")) ;;
  yield_ (Mwait (GFresh "abs_set")).

(** [mv(obj1, val1, obj2, val2, ...)]: set all, then wait for all. *)
Definition mv (l : list (Signal * Value)) : Plan unit :=
  for_ l (fun sv => yield_ (Mset (fst sv) (snd sv) (GFresh "mv"))) ;;
  yield_ (Mwait (GFresh "mv")).

Definition wait (group : Group) : Plan unit := yield_ (Mwait group).

Definition sleep (t : Q) : Plan unit := yield_ (Msleep t).

Definition trigger (obj : Device) (group : Group) : Plan unit :=
  yield_ (Mtrigger obj group).

(** [kickoff(obj, wait=True, **kwargs)] *)
Definition kickoff_wait (obj : Device) (xstart xstop : Q) (xnum : Z) (dwell : Q)
  : Plan unit :=
  yield_ (Mkickoff obj xstart xstop xnum dwell (GFresh "kickoff")) ;;
  yield_ (Mwait (GFresh "kickoff")).

Definition complete (obj : Device) : Plan unit := yield_ (Mcomplete obj).

Definition collect (obj : Device) : Plan unit := yield_ (Mcollect obj).

Definition trigger_and_read (devices : list Device) : Plan unit :=
  for_ devices (fun d => trigger d (GFresh "trigger")) ;;
  wait (GFresh "trigger") ;;
  yield_ Mcreate ;;
  for_ devices (fun d => yield_ (Mread d)) ;;
  yield_ Msave.

Definition one_1d_step (detectors : list Device) (motor : Motor) (step : Q)
  : Plan unit :=
  yield_ Mcheckpoint ;;
  yield_ (Mset (positioner motor) (VNum step) (GFresh "set")) ;;
  yield_ (Mwait (GFresh "set")) ;;
  trigger_and_read (detectors ++ [motor_name motor]).

(** [try: plan finally: final_plan], as a plan. *)
Definition finalize_wrapper {A} (plan : Plan A) (final_plan : Plan unit) : Plan A :=
  fun c st =>
    match plan c st with
    | (Ret a, st1, t1) =>
        match final_plan c st1 with
        | (Ret _, st2, t2) => (Ret a, st2, t1 ++ t2)
        | (Raise e, st2, t2) => (Raise e, st2, t1 ++ t2)
        | (Spin, st2, t2) => (Spin, st2, t1 ++ t2)
        end
    | (Raise e, st1, t1) =>
        match final_plan c st1 with
        | (Ret _, st2, t2) => (Raise e, st2, t1 ++ t2)
        | (Raise e', st2, t2) => (Raise e', st2, t1 ++ t2)
        | (Spin, st2, t2) => (Spin, st2, t1 ++ t2)
        end
    | (Spin, st1, t1) => (Spin, st1, t1)
    end.

(** [try: plan except e: except_plan(e); raise else: else_plan] *)
Definition contingency_wrapper {A} (plan : Plan A) (except_plan : Exn -> Plan unit)
    (else_plan : Plan unit) : Plan A :=
  fun c st =>
    match plan c st with
    | (Ret a, st1, t1) =>
        match else_plan c st1 with
        | (Ret _, st2, t2) => (Ret a, st2, t1 ++ t2)
        | (Raise e, st2, t2) => (Raise e, st2, t1 ++ t2)
        | (Spin, st2, t2) => (Spin, st2, t1 ++ t2)
        end
    | (Raise e, st1, t1) =>
        match except_plan e c st1 with
        | (Ret _, st2, t2) => (Raise e, st2, t1 ++ t2)
        | (Raise e', st2, t2) => (Raise e', st2, t1 ++ t2)
        | (Spin, st2, t2) => (Spin, st2, t1 ++ t2)
        end
    | (Spin, st1, t1) => (Spin, st1, t1)
    end.

Definition stage_wrapper {A} (plan : Plan A) (devices : list Device) : Plan A :=
  finalize_wrapper
    (for_ devices (fun d => yield_ (Mstage d)) ;; plan)
    (for_ (rev devices) (fun d => yield_ (Munstage d))).

Definition subscribe (name : DocName) (func : Callback) : Plan nat :=
  fun c st =>
    match yield_ (Msubscribe name func) c st with
    | (Ret _, st1, t) => (Ret (next_token st), st1, t)
    | (Raise e, st1, t) => (Raise e, st1, t)
    | (Spin, st1, t) => (Spin, st1, t)
    end.

(** [subs_wrapper(plan, {name: [func]})]: the tokens are a variable of the
    wrapper, filled as the subscriptions are made. *)
Definition subs_wrapper {A} (plan : Plan A) (name : DocName) (func : Callback)
  : Plan A :=
  fun c st =>
    match subscribe name func c st with
    | (Ret token, st1, t1) =>
        match finalize_wrapper plan (yield_ (Munsubscribe token)) c st1 with
        | (o, st2, t2) => (o, st2, t1 ++ t2)
        end
    | (Raise e, st1, t1) => (Raise e, st1, t1)
    | (Spin, st1, t1) => (Spin, st1, t1)
    end.

(** [monitor_during_wrapper(plan, signals)]: the signals are monitored from
    after each [open_run] of the plan to before its [close_run]. *)
Definition monitor_during_wrapper {A} (plan : Plan A) (signals : list Signal) : Plan A :=
  fun c st => plan {| env := env c; monitored := signals ++ monitored c |} st.

Definition open_run (md : Metadata) : Plan string :=
  yield_ (Mopen_run md) ;;
  (fun c st => for_ (monitored c) (fun s => yield_ (Mmonitor s)) c st) ;;
  e <- ask ;;
  ret (run_uid e).

Definition close_run (exit_status : ExitStatus) : Plan unit :=
  (fun c st => for_ (monitored c) (fun s => yield_ (Munmonitor s)) c st) ;;
  yield_ (Mclose_run exit_status).

(** The exit status a run is closed with after an exception. *)
Definition exit_status_of (e : Exn) : ExitStatus :=
  match e with
  | RequestAbort => abort
  | _ => fail
  end.

Definition run_wrapper {A} (plan : Plan A) (md : Metadata) : Plan string :=
  rs_uid <- open_run md ;;
  contingency_wrapper plan (fun e => close_run (exit_status_of e)) (close_run success) ;;
  ret rs_uid.

(** ** numpy *)

(** [np.linspace(start, stop, num)] for [num >= 0]: [num] samples over the
    interval, the last one being [stop] itself when there are two or more. *)
Definition np_linspace (start stop : Q) (num : Z) : list Q :=
  match Z.to_nat num with
  | O => []
  | S O => [start]
  | S div =>
      let step := (stop - start) / inject_Z (Z.of_nat div) in
      map (fun i => inject_Z (Z.of_nat i) * step + start) (seq 0 div) ++ [stop]
  end.

(** [a / b] on Python numbers *)
Definition py_div (a b : Q) : Plan Q :=
  if Qeq_bool b 0 then raise ZeroDivisionError else ret (a / b).

(** ** The scan: [scan_and_fly_base] *)

Record Request := {
  detectors : list Device;
  xstart : Q;
  xstop : Q;
  xnum : Z;
  ystart : Q;
  ystop : Q;
  ynum : Z;
  dwell : Q;
  flying_zebra : Flyer;
  xmotor : Motor;
  ymotor : Motor;
  delta : option Q;
  shutter : bool;
  align : bool;
  md : option (list (string * string))
}.

Definition NEW_RDBD_X : Q := 2e-4.
Definition NEW_RDBD_Y : Q := 2e-4.
Definition MIN_DELTA : Q := 0.002.

(** Lines 127-135: change the retry deadband for [hf_stage.x] and
    [hf_stage.y]; the old values are kept where one was changed. *)
Definition change_retry_deadband (r : Request) : Plan (option Value * option Value) :=
  e <- ask ;;
  OLD_RDBD_X <-
    (if motor_in (hf_stage_x e) (xmotor r) (ymotor r) then
       old <- get RETRY_DEADBAND_X ;;
       put RETRY_DEADBAND_X (VNum NEW_RDBD_X) ;;
       ret (Some old)
     else ret None) ;;
  OLD_RDBD_Y <-
    (if motor_in (hf_stage_y e) (xmotor r) (ymotor r) then
       old <- get RETRY_DEADBAND_Y ;;
       put RETRY_DEADBAND_Y (VNum NEW_RDBD_Y) ;;
       ret (Some old)
     else ret None) ;;
  ret (OLD_RDBD_X, OLD_RDBD_Y).

(** Line 138: [flying_zebra.detectors = detectors], which may fail. *)
Definition assign_detectors (r : Request) : Plan unit :=
  e <- ask ;;
  if knows_detectors e (detectors r) then
    emit (ESetDetectors (flyer_name (flying_zebra r)) (detectors r))
  else raise ValueError.

(** Lines 140-143: the keys of [dets_by_name]. *)
Definition dets_by_name (r : Request) : list Device :=
  encoder (flying_zebra r) :: sclr (flying_zebra r) :: detectors r.

(** Lines 145-163: set up the merlin; the result is the value of [dwell]
    after it. *)
Definition setup_merlin (r : Request) : Plan Q :=
  if has_key "merlin" (dets_by_name r) then
    dwell <-
      (if negb (Qle_bool 0.0066392 (dwell r)) then
         print "The Merlin should not operate faster than 7 ms." ;;
         print "Changing the scan dwell time to 7 ms." ;;
         ret 0.007
       else ret (dwell r)) ;;
    emit (EStageSig "merlin" "cam.acquire_time" (VNum (0.25 * dwell - 0.0016392))) ;;
    emit (EStageSig "merlin" "cam.acquire_period" (VNum (0.5 * dwell))) ;;
    emit (EStageSig "merlin" "cam.num_images" (VInt 1)) ;;
    emit (EStageSig "merlin" "total_points" (VInt (xnum r))) ;;
    emit (EStageSig "merlin" "hdf5.num_capture" (VInt (xnum r))) ;;
    ret dwell
  else ret (dwell r).

(** Lines 165-170: set up the dexela. *)
Definition setup_dexela (r : Request) (dwell : Q) : Plan unit :=
  if has_key "dexela" (dets_by_name r) then
    emit (EStageSig "dexela" "cam.acquire_time" (VNum (0.50 * dwell - 0.050))) ;;
    emit (EStageSig "dexela" "cam.acquire_period" (VNum (0.50 * dwell - 0.020)))
  else ret tt.

(** Lines 175 and 244: [((xstop - xstart) / (xnum-1)) / dwell], the "stage
    speed". *)
Definition stage_speed (r : Request) (dwell : Q) : Plan Q :=
  q <- py_div (xstop r - xstart r) (inject_Z (xnum r - 1)) ;;
  py_div q dwell.

(** Lines 172-178: if [delta] is [None], set it from the time for
    acceleration. *)
Definition derive_delta (r : Request) (dwell : Q) : Plan Q :=
  match delta r with
  | None =>
      v <- stage_speed r dwell ;;
      let t_acc := 1.0 in
      let delta := t_acc * v in
      ret (Qmax delta MIN_DELTA)
  | Some delta => ret delta
  end.

(** Lines 188-206: the metadata of the run. *)
Definition scan_md (r : Request) (e : Env) (dwell delta : Q) : Metadata :=
  {| plan_name := "scan_and_fly";
     md_detectors := dets_by_name r;
     md_dwell := dwell;
     md_shape := (xnum r, ynum r);
     scaninfo_type :=
       if has_key "xs2" (dets_by_name r) then "XRF_E_tomo_fly" else "XRF_fly";
     scaninfo_raster := false;
     scaninfo_fast_axis := fast_axis_value e;
     scan_params := (xstart r, xstop r, xnum r, ystart r, ystop r, ynum r, dwell);
     md_delta := delta;
     beamline_energy := energy_value e;
     user_md := match md r with None => [] | Some m => m end |}.

(** Lines 210-214. *)
Definition move_to_start_fly (r : Request) (delta : Q) (motor : Motor) (step : Q)
  : Plan unit :=
  abs_set (positioner (xmotor r)) (VNum (xstart r - delta)) (GName "row") ;;
  one_1d_step [temp_nanoKB] motor step ;;
  wait (GName "row").

(** Lines 227-230. *)
Definition DEADBAND (r : Request) : Q :=
  if String.eqb (egu (xmotor r)) "mm" then 0.0005 else 0.1.

(** Lines 231-238: [while (np.abs(x_set - x_dial) > DEADBAND)], unrolled [n]
    times; the result is the value of [i] after the loop. *)
Fixpoint wait_for_start (n : nat) (r : Request) (delta x_set x_dial : Q) (i : nat)
  : Plan nat :=
  if Qle_bool (Qabs (x_set - x_dial)) (DEADBAND r) then ret i
  else
    match n with
    | O => spin
    | S n' =>
        (if Nat.eqb i 0 then print "Waiting for motor to reach starting position..."
         else ret tt) ;;
        mv [(positioner (xmotor r), VNum (xstart r - delta))] ;;
        sleep 0.1 ;;
        x_dial <- readback ;;
        wait_for_start n' r delta x_set x_dial (S i)
    end.

(** Lines 284-287, 313-314 and 321-322. *)
Definition zebra_kickoff (r : Request) (dwell : Q) : Plan unit :=
  kickoff_wait (flyer_name (flying_zebra r)) (xstart r) (xstop r) (xnum r) dwell.

Definition zebra_complete (r : Request) : Plan unit :=
  complete (flyer_name (flying_zebra r)).

Definition zebra_collect (r : Request) : Plan unit :=
  collect (flyer_name (flying_zebra r)).

(** Lines 208-335: one row.  [dwell] and [delta] are the variables of
    [scan_and_fly_base] as they are when the rows run. *)
Definition fly_each_step (r : Request) (dwell delta : Q) (motor : Motor) (step : Q)
  : Plan unit :=
  stage_wrapper
    (move_to_start_fly r delta motor step ;;
     let x_set := xstart r - delta in
     x_dial <- readback ;;
     e <- ask ;;
     i <- wait_for_start (patience e) r delta x_set x_dial 0 ;;
     (if negb (Nat.eqb i 0) then print "done" else ret tt) ;;
     (* set the scan speed *)
     v <- stage_speed r dwell ;;
     mv [(velocity (xmotor r), VNum v)] ;;
     (if same_motor (hf_stage_x e) (xmotor r) then mv [(BACKLASH_SPEED_X, VNum v)]
      else ret tt) ;;
     (if same_motor (hf_stage_y e) (xmotor r) then mv [(BACKLASH_SPEED_Y, VNum v)]
      else ret tt) ;;
     (* set up all of the detectors *)
     (if has_key "xs" (dets_by_name r) then
        mv [(Sig "xs" "hdf5.num_capture", VInt (xnum r));
            (Sig "xs" "settings.num_images", VInt (xnum r))]
      else ret tt) ;;
     (if has_key "xs2" (dets_by_name r) then
        mv [(Sig "xs2" "hdf5.num_capture", VInt (xnum r));
            (Sig "xs2" "settings.num_images", VInt (xnum r))]
      else ret tt) ;;
     (if has_key "merlin" (dets_by_name r) then
        abs_set_wait (Sig "merlin" "hdf5.num_capture") (VInt (xnum r)) ;;
        abs_set_wait (Sig "merlin" "cam.num_images") (VInt (xnum r))
      else ret tt) ;;
     (if has_key "dexela" (dets_by_name r) then
        abs_set_wait (Sig "dexela" "hdf5.num_capture") (VInt (xnum r)) ;;
        abs_set_wait (Sig "dexela" "cam.num_images") (VInt (xnum r))
      else ret tt) ;;
     let ion := sclr (flying_zebra r) in
     abs_set (Sig ion "nuse_all") (VInt (xnum r)) GNone ;;
     (* arm the zebra *)
     zebra_kickoff r dwell ;;
     (* arm the scaler *)
     abs_set (Sig ion "erase_start") (VInt 1) GNone ;;
     (* trigger all of the detectors *)
     for_ (detectors r) (fun d =>
       trigger d (GName "row") ;;
       if String.eqb d "dexela" then sleep 1 else ret tt) ;;
     sleep 1.5 ;;
     (* start the fly, and wait for the motor and the detectors *)
     abs_set (positioner (xmotor r)) (VNum (xstop r + 1 * delta)) (GName "row") ;;
     wait (GName "row") ;;
     abs_set (Sig ion "stop_all") (VInt 1) GNone ;;
     zebra_complete r ;;
     zebra_collect r ;;
     (if contains "e_tomo" (motor_name (xmotor r)) then
        let v_return := Qmin 4 (velocity_high_limit (xmotor r)) in
        mv [(velocity (xmotor r), VNum v_return)]
      else ret tt) ;;
     (if contains "nano_stage" (motor_name (xmotor r)) then
        mv [(velocity (xmotor r), VNum 30)]
      else
        mv [(velocity (xmotor r), VNum 1.0)]))
    (detectors r).

(** Lines 363-371: the live plot of the scan. *)
Definition livepopup (r : Request) (xs : Device) : Callback :=
  let roi := (xs ++ "_channel1_rois_roi01_value")%string in
  if Z.eqb (ynum r) 1 then LivePlot roi (motor_name (xmotor r))
  else LiveGrid (ynum r, (xnum r + 1)%Z) roi (xstart r, xstop r, ystart r, ystop r).

(** Lines 387-410: the body of [plan], inside its decorators. *)
Definition plan_body (r : Request) (dwell delta : Q) (xs : Device) : Plan unit :=
  for_ (detectors r) (fun d => mv [(Sig d "total_points", VInt (xnum r))]) ;;
  mv [(Sig xs "external_trig", VBool true)] ;;
  let ystep := 0%Z in
  for_acc (np_linspace (ystart r) (ystop r) (ynum r)) ystep (fun ystep step =>
    abs_set (scanrecord "time_remaining")
      (VNum (inject_Z (ynum r - ystep) * (dwell * inject_Z (xnum r) + 3.8) / 3600))
      GNone ;;
    let ystep := (ystep + 1)%Z in
    for_ (detectors r) (fun d => mv [(Sig d "fly_next", VBool true)]) ;;
    fly_each_step r dwell delta (ymotor r) step ;;
    ret ystep) ;;
  let ion := sclr (flying_zebra r) in
  mv [(Sig xs "external_trig", VBool false); (Sig ion "count_mode", VInt 1)].

(** Lines 379-387: [plan] with its decorators, the outermost applied last. *)
Definition plan (r : Request) (dwell delta : Q) (xs : Device) (md : Metadata)
    (OLD_RDBD_X OLD_RDBD_Y : option Value) : Plan string :=
  subs_wrapper
    (subs_wrapper
       (subs_wrapper
          (monitor_during_wrapper
             (stage_wrapper
                (run_wrapper (plan_body r dwell delta xs) md)
                [flyer_name (flying_zebra r)])
             [Sig xs "channel1.rois.roi01.value"; Sig xs "array_counter"])
          doc_stop (finalize_scan (xmotor r) (ymotor r) OLD_RDBD_X OLD_RDBD_Y))
       doc_start (at_scan md dwell (xnum r)))
    doc_all (livepopup r xs).

(** [hf_stage.reset_stage_defaults()] *)
Definition call_reset_stage_defaults : Plan unit :=
  fun c st =>
    (Ret tt, with_pv (reset_stage_defaults (env c)) st,
     [ECall "hf_stage.reset_stage_defaults"]).

(** Lines 77-439.  The result is the uid of the run, or [None] where the
    function returns without one. *)
Definition scan_and_fly_base (r : Request) : Plan (option string) :=
  (* check for negative number of points *)
  if Z.ltb (xnum r) 1 || Z.ltb (ynum r) 1 then
    print "Error: Number of points is negative." ;;
    ret None
  else
    old <- change_retry_deadband r ;;
    let (OLD_RDBD_X, OLD_RDBD_Y) := old in
    assign_detectors r ;;
    dwell <- setup_merlin r ;;
    setup_dexela r dwell ;;
    delta <- derive_delta r dwell ;;
    (* move to start scanning location *)
    mv [(positioner (xmotor r), VNum (xstart r - delta));
        (positioner (ymotor r), VNum (ystart r))] ;;
    (if align r then yield_ (Mpeakup_fine (shutter r)) else ret tt) ;;
    e <- ask ;;
    let md := scan_md r e dwell delta in
    xs <- match detectors r with
          | [] => raise IndexError
          | d :: _ => ret d
          end ;;
    mv [(Sig xs "erase", VInt 0)] ;;
    let final_plan :=
      if shutter r then
        finalize_wrapper (plan r dwell delta xs md OLD_RDBD_X OLD_RDBD_Y)
          (mv [(shut_b, VStr "Close")])
      else plan r dwell delta xs md OLD_RDBD_X OLD_RDBD_Y in
    (if shutter r then mv [(shut_b, VStr "Open")] else ret tt) ;;
    uid <- final_plan ;;
    (if contains "hf_stage" (motor_name (xmotor r)) then call_reset_stage_defaults
     else ret tt) ;;
    ret (Some uid).

(** A run of the plan from the start: nothing subscribed, nothing monitored. *)
Definition start_state (pv0 : Store) : State :=
  {| pv := pv0; subs := []; next_token := 0; reads := 0; nmsgs := 0 |}.

Definition run {A} (p : Plan A) (e : Env) (st : State) : Outcome A * State * list Event :=
  p {| env := e; monitored := [] |} st.

Definition outcome {A} (x : Outcome A * State * list Event) : Outcome A := fst (fst x).
Definition final_state {A} (x : Outcome A * State * list Event) : State := snd (fst x).
Definition trace {A} (x : Outcome A * State * list Event) : list Event := snd x.

(** ** Runs without exceptions: what they leave in the trace *)

(** The RunEngine processes every message. *)
Definition calm (e : Env) : Prop := forall k m, fault e k m = None.

(** The readback is within the deadband of the start position. *)
Definition within (r : Request) (delta x_dial : Q) : bool :=
  Qle_bool (Qabs (xstart r - delta - x_dial)) (DEADBAND r).

(** Counted from the [n]-th reading, the [k]-th later one is the first
    within the deadband. *)
Definition settles (e : Env) (r : Request) (delta : Q) (n k : nat) : Prop :=
  within r delta (user_readback e (n + k)) = true /\
  forall j, (j < k)%nat -> within r delta (user_readback e (n + j)) = false.

(** From any reading on, the fast axis gets to the start position before
    the loop is given up. *)
Definition reaches_start (e : Env) (r : Request) (delta : Q) : Prop :=
  forall n, exists k, (k <= patience e)%nat /\ settles e r delta n k.

Definition mv_trace (l : list (Signal * Value)) : list Event :=
  map (fun sv => EMsg (Mset (fst sv) (snd sv) (GFresh "mv"))) l
  ++ [EMsg (Mwait (GFresh "mv"))].

Definition abs_set_wait_trace (obj : Signal) (val : Value) : list Event :=
  [EMsg (Mset obj val (GFresh "abs_set")); EMsg (Mwait (GFresh "abs_set"))].

Definition move_to_start_trace (r : Request) (delta : Q) (motor : Motor) (step : Q)
  : list Event :=
  [EMsg (Mset (positioner (xmotor r)) (VNum (xstart r - delta)) (GName "row"));
   EMsg Mcheckpoint;
   EMsg (Mset (positioner motor) (VNum step) (GFresh "set"));
   EMsg (Mwait (GFresh "set"));
   EMsg (Mtrigger temp_nanoKB (GFresh "trigger"));
   EMsg (Mtrigger (motor_name motor) (GFresh "trigger"));
   EMsg (Mwait (GFresh "trigger"));
   EMsg Mcreate;
   EMsg (Mread temp_nanoKB);
   EMsg (Mread (motor_name motor));
   EMsg Msave;
   EMsg (Mwait (GName "row"))].

(** One turn of the start-position loop, and [k] of them. *)
Definition poll_trace (r : Request) (delta : Q) : list Event :=
  mv_trace [(positioner (xmotor r), VNum (xstart r - delta))] ++ [EMsg (Msleep 0.1)].

Fixpoint polls_trace (r : Request) (delta : Q) (k : nat) : list Event :=
  match k with
  | O => []
  | S k' => poll_trace r delta ++ polls_trace r delta k'
  end.

Definition retry_trace (r : Request) (delta : Q) (k : nat) : list Event :=
  match k with
  | O => []
  | S _ =>
      EPrint "Waiting for motor to reach starting position..."
      :: polls_trace r delta k ++ [EPrint "done"]
  end.

Definition speed_trace (r : Request) (e : Env) (v : Q) : list Event :=
  mv_trace [(velocity (xmotor r), VNum v)]
  ++ (if same_motor (hf_stage_x e) (xmotor r) then mv_trace [(BACKLASH_SPEED_X, VNum v)]
      else [])
  ++ (if same_motor (hf_stage_y e) (xmotor r) then mv_trace [(BACKLASH_SPEED_Y, VNum v)]
      else []).

(** The frame and capture counts of the detectors. *)
Definition arm_trace (r : Request) : list Event :=
  (if has_key "xs" (dets_by_name r) then
     mv_trace [(Sig "xs" "hdf5.num_capture", VInt (xnum r));
               (Sig "xs" "settings.num_images", VInt (xnum r))]
   else [])
  ++ (if has_key "xs2" (dets_by_name r) then
        mv_trace [(Sig "xs2" "hdf5.num_capture", VInt (xnum r));
                  (Sig "xs2" "settings.num_images", VInt (xnum r))]
      else [])
  ++ (if has_key "merlin" (dets_by_name r) then
        abs_set_wait_trace (Sig "merlin" "hdf5.num_capture") (VInt (xnum r))
        ++ abs_set_wait_trace (Sig "merlin" "cam.num_images") (VInt (xnum r))
      else [])
  ++ (if has_key "dexela" (dets_by_name r) then
        abs_set_wait_trace (Sig "dexela" "hdf5.num_capture") (VInt (xnum r))
        ++ abs_set_wait_trace (Sig "dexela" "cam.num_images") (VInt (xnum r))
      else []).

Definition kickoff_trace (r : Request) (dwell : Q) : list Event :=
  [EMsg (Mkickoff (flyer_name (flying_zebra r)) (xstart r) (xstop r) (xnum r) dwell
           (GFresh "kickoff"));
   EMsg (Mwait (GFresh "kickoff"))].

Definition trigger_trace (r : Request) : list Event :=
  flat_map (fun d =>
    EMsg (Mtrigger d (GName "row"))
    :: (if String.eqb d "dexela" then [EMsg (Msleep 1)] else [])) (detectors r).

(** The fly itself, to the read-out of the zebra. *)
Definition fly_trace (r : Request) (delta : Q) : list Event :=
  [EMsg (Mset (positioner (xmotor r)) (VNum (xstop r + 1 * delta)) (GName "row"));
   EMsg (Mwait (GName "row"));
   EMsg (Mset (Sig (sclr (flying_zebra r)) "stop_all") (VInt 1) GNone);
   EMsg (Mcomplete (flyer_name (flying_zebra r)));
   EMsg (Mcollect (flyer_name (flying_zebra r)))].

Definition reset_trace (r : Request) : list Event :=
  (if contains "e_tomo" (motor_name (xmotor r)) then
     mv_trace [(velocity (xmotor r), VNum (Qmin 4 (velocity_high_limit (xmotor r))))]
   else [])
  ++ (if contains "nano_stage" (motor_name (xmotor r)) then
        mv_trace [(velocity (xmotor r), VNum 30)]
      else mv_trace [(velocity (xmotor r), VNum 1.0)]).

(** What comes before the zebra is armed, between that and the fly, and
    after the read-out of the zebra, in a row that takes [k] turns of the
    start-position loop and flies at the speed [v]. *)
Definition before_kickoff (r : Request) (e : Env) (delta v : Q) (motor : Motor)
    (step : Q) (k : nat) : list Event :=
  map (fun d => EMsg (Mstage d)) (detectors r)
  ++ move_to_start_trace r delta motor step
  ++ retry_trace r delta k
  ++ speed_trace r e v
  ++ arm_trace r
  ++ [EMsg (Mset (Sig (sclr (flying_zebra r)) "nuse_all") (VInt (xnum r)) GNone)].

Definition before_fly (r : Request) : list Event :=
  [EMsg (Mset (Sig (sclr (flying_zebra r)) "erase_start") (VInt 1) GNone)]
  ++ trigger_trace r
  ++ [EMsg (Msleep 1.5)].

Definition after_collect (r : Request) : list Event :=
  reset_trace r ++ map (fun d => EMsg (Munstage d)) (rev (detectors r)).

Definition row_trace (r : Request) (e : Env) (dwell delta v : Q) (motor : Motor)
    (step : Q) (k : nat) : list Event :=
  before_kickoff r e delta v motor step k
  ++ kickoff_trace r dwell
  ++ before_fly r
  ++ fly_trace r delta
  ++ after_collect r.

(** The rows of the scan: the steps of the slow axis, each with the number
    of turns its start-position loop takes. *)
Fixpoint rows_trace (r : Request) (e : Env) (dwell delta v : Q) (ystep : Z)
    (steps : list Q) (ks : list nat) : list Event :=
  match steps, ks with
  | step :: steps', k :: ks' =>
      [EMsg (Mset (scanrecord "time_remaining")
               (VNum (inject_Z (ynum r - ystep) * (dwell * inject_Z (xnum r) + 3.8) / 3600))
               GNone)]
      ++ flat_map (fun d => mv_trace [(Sig d "fly_next", VBool true)]) (detectors r)
      ++ row_trace r e dwell delta v (ymotor r) step k
      ++ rows_trace r e dwell delta v (ystep + 1) steps' ks'
  | _, _ => []
  end.

Definition body_trace (r : Request) (e : Env) (dwell delta v : Q) (xs : Device)
    (ks : list nat) : list Event :=
  flat_map (fun d => mv_trace [(Sig d "total_points", VInt (xnum r))]) (detectors r)
  ++ mv_trace [(Sig xs "external_trig", VBool true)]
  ++ rows_trace r e dwell delta v 0 (np_linspace (ystart r) (ystop r) (ynum r)) ks
  ++ mv_trace [(Sig xs "external_trig", VBool false);
               (Sig (sclr (flying_zebra r)) "count_mode", VInt 1)].

(** What a callback puts, whatever the state. *)
Definition callback_events (e : Env) (cb : Callback) : list Event :=
  match cb with
  | LivePlot _ _ => []
  | LiveGrid _ _ _ => []
  | at_scan md dwell xnum =>
      [EPut (scanrecord "current_scan") (VStr (substring 0 6 (run_uid e)));
       EPut (scanrecord "current_scan_id")
         (VStr (NilZero.string_of_int (Z.to_int (scan_id e))));
       EPut (scanrecord "current_type") (VStr (scaninfo_type md));
       EPut (scanrecord "scanning") (VBool true);
       EPut (scanrecord "time_remaining") (VNum ((dwell * inject_Z xnum + 3.8) / 3600))]
  | finalize_scan xmotor ymotor OLD_RDBD_X OLD_RDBD_Y =>
      [ECall "logscan_detailed";
       EPut (scanrecord "scanning") (VBool false);
       EPut (scanrecord "time_remaining") (VInt 0)]
      ++ match motor_in (hf_stage_x e) xmotor ymotor, OLD_RDBD_X with
         | true, Some old => [EPut RETRY_DEADBAND_X old]
         | _, _ => []
         end
      ++ match motor_in (hf_stage_y e) xmotor ymotor, OLD_RDBD_Y with
         | true, Some old => [EPut RETRY_DEADBAND_Y old]
         | _, _ => []
         end
  end.

Fixpoint dispatch_events (e : Env) (doc : DocName) (l : list (nat * DocName * Callback))
  : list Event :=
  match l with
  | [] => []
  | (_, name, cb) :: l' =>
      if listens doc name then callback_events e cb ++ dispatch_events e doc l'
      else dispatch_events e doc l'
  end.

(** The value of [dwell] after the detectors are set up. *)
Definition scan_dwell (r : Request) : Q :=
  if has_key "merlin" (dets_by_name r) && negb (Qle_bool 0.0066392 (dwell r))
  then 0.007 else dwell r.

(** [((xstop - xstart) / (xnum-1)) / dwell] as a number. *)
Definition speed (r : Request) (dwell : Q) : Q :=
  (xstop r - xstart r) / inject_Z (xnum r - 1) / dwell.

(** [delta] after lines 172-178, where the speed is a number. *)
Definition scan_delta (r : Request) (dwell : Q) : Q :=
  match delta r with
  | None => Qmax (1.0 * speed r dwell) MIN_DELTA
  | Some d => d
  end.

Definition deadband_trace (r : Request) (e : Env) : list Event :=
  (if motor_in (hf_stage_x e) (xmotor r) (ymotor r)
   then [EPut RETRY_DEADBAND_X (VNum NEW_RDBD_X)] else [])
  ++ (if motor_in (hf_stage_y e) (xmotor r) (ymotor r)
      then [EPut RETRY_DEADBAND_Y (VNum NEW_RDBD_Y)] else []).

Definition merlin_trace (r : Request) : list Event :=
  if has_key "merlin" (dets_by_name r) then
    (if negb (Qle_bool 0.0066392 (dwell r)) then
       [EPrint "The Merlin should not operate faster than 7 ms.";
        EPrint "Changing the scan dwell time to 7 ms."]
     else [])
    ++ [EStageSig "merlin" "cam.acquire_time" (VNum (0.25 * scan_dwell r - 0.0016392));
        EStageSig "merlin" "cam.acquire_period" (VNum (0.5 * scan_dwell r));
        EStageSig "merlin" "cam.num_images" (VInt 1);
        EStageSig "merlin" "total_points" (VInt (xnum r));
        EStageSig "merlin" "hdf5.num_capture" (VInt (xnum r))]
  else [].

Definition dexela_trace (r : Request) : list Event :=
  if has_key "dexela" (dets_by_name r) then
    [EStageSig "dexela" "cam.acquire_time" (VNum (0.50 * scan_dwell r - 0.050));
     EStageSig "dexela" "cam.acquire_period" (VNum (0.50 * scan_dwell r - 0.020))]
  else [].

(** The old deadbands, as [scan_and_fly_base] keeps them. *)
Definition old_deadband (e : Env) (r : Request) (hf : Motor) (s : Signal) (pv0 : Store)
  : option Value :=
  if motor_in hf (xmotor r) (ymotor r) then Some (pv0 s) else None.

(** The trace of [plan] with its decorators, the subscriptions getting the
    tokens from [token] on and each row taking the turns [ks] of its
    start-position loop. *)
Definition plan_trace (r : Request) (e : Env) (dwell delta : Q) (xs : Device)
    (md : Metadata) (OLD_RDBD_X OLD_RDBD_Y : option Value) (token : nat)
    (ks : list nat) : list Event :=
  let subscribed :=
    [(token, doc_all, livepopup r xs);
     (S token, doc_start, at_scan md dwell (xnum r));
     (S (S token), doc_stop,
      finalize_scan (xmotor r) (ymotor r) OLD_RDBD_X OLD_RDBD_Y)] in
  let signals := [Sig xs "channel1.rois.roi01.value"; Sig xs "array_counter"] in
  map (fun s => EMsg (Msubscribe (snd (fst s)) (snd s))) subscribed
  ++ [EMsg (Mstage (flyer_name (flying_zebra r)))]
  ++ [EMsg (Mopen_run md)]
  ++ dispatch_events e doc_start subscribed
  ++ map (fun s => EMsg (Mmonitor s)) signals
  ++ body_trace r e dwell delta (speed r dwell) xs ks
  ++ map (fun s => EMsg (Munmonitor s)) signals
  ++ [EMsg (Mclose_run success)]
  ++ dispatch_events e doc_stop subscribed
  ++ [EMsg (Munstage (flyer_name (flying_zebra r)))]
  ++ [EMsg (Munsubscribe (S (S token))); EMsg (Munsubscribe (S token));
      EMsg (Munsubscribe token)].

(** The trace of a whole scan from a state with the values [pv0], the first
    detector being [xs]. *)
Definition scan_trace (r : Request) (e : Env) (pv0 : Store) (token : nat) (xs : Device)
    (ks : list nat) : list Event :=
  let dwell := scan_dwell r in
  let delta := scan_delta r dwell in
  deadband_trace r e
  ++ [ESetDetectors (flyer_name (flying_zebra r)) (detectors r)]
  ++ merlin_trace r
  ++ dexela_trace r
  ++ mv_trace [(positioner (xmotor r), VNum (xstart r - delta));
               (positioner (ymotor r), VNum (ystart r))]
  ++ (if align r then [EMsg (Mpeakup_fine (shutter r))] else [])
  ++ mv_trace [(Sig xs "erase", VInt 0)]
  ++ (if shutter r then mv_trace [(shut_b, VStr "Open")] else [])
  ++ plan_trace r e dwell delta xs (scan_md r e dwell delta)
       (old_deadband e r (hf_stage_x e) RETRY_DEADBAND_X pv0)
       (old_deadband e r (hf_stage_y e) RETRY_DEADBAND_Y pv0) token ks
  ++ (if shutter r then mv_trace [(shut_b, VStr "Close")] else [])
  ++ (if contains "hf_stage" (motor_name (xmotor r))
      then [ECall "hf_stage.reset_stage_defaults"] else []).

(** ** Reasoning about runs *)

(** Messages that change neither the subscriptions nor the documents. *)
Definition plain (m : Msg) : bool :=
  match m with
  | Mopen_run _ | Mclose_run _ | Msubscribe _ _ | Munsubscribe _ => false
  | _ => true
  end.

(** From [st] the plan returns [a], leaves the trace [t] and takes [n]
    readings, the subscriptions staying as they are. *)
Definition does {A} (p : Plan A) (c : Ctx) (st : State) (a : A) (t : list Event)
    (n : nat) : Prop :=
  exists st', p c st = (Ret a, st', t) /\
    subs st' = subs st /\ next_token st' = next_token st /\
    reads st' = (n + reads st)%nat.

(** The message of the loop printed in its first turn. *)
Definition waiting (i k : nat) : list Event :=
  if Nat.eqb i 0 && negb (Nat.eqb k 0)
  then [EPrint "Waiting for motor to reach starting position..."] else [].

(** From [st] the plan returns [a] and leaves the trace [t]. *)
Definition yields {A} (p : Plan A) (c : Ctx) (st : State) (a : A) (t : list Event)
  : Prop :=
  exists st', p c st = (Ret a, st', t).

(** A state differs from another in the values of the signals at most. *)
Definition same_books (st st' : State) : Prop :=
  subs st' = subs st /\ next_token st' = next_token st /\
  reads st' = reads st /\ nmsgs st' = nmsgs st.

(** ** What is read off a trace *)

(** The events of a trace that [f] picks, in order. *)
Definition pick {X} (f : Event -> option X) (t : list Event) : list X :=
  flat_map (fun ev => match f ev with Some x => [x] | None => [] end) t.

(** A velocity is set, or a flyer is kicked off. *)
Inductive FlyStep :=
| SetSpeed (dev : Device) (v : Value)
| Kickoff (dev : Device) (dwell : Q).

Definition fly_step (ev : Event) : option FlyStep :=
  match ev with
  | EMsg (Mset (Sig d a) v _) =>
      if String.eqb a "velocity" then Some (SetSpeed d v) else None
  | EMsg (Mkickoff z _ _ _ dwell _) => Some (Kickoff z dwell)
  | _ => None
  end.

(** The velocity last set when a flyer is kicked off, for each kickoff. *)
Fixpoint speeds_at_kickoff (cur : option Value) (l : list FlyStep)
  : list (option Value) :=
  match l with
  | [] => []
  | SetSpeed _ v :: l' => speeds_at_kickoff (Some v) l'
  | Kickoff _ _ :: l' => cur :: speeds_at_kickoff cur l'
  end.

(** The velocity of the fast axis in each row of a trace: the one in force
    when the zebra is armed for the row. *)
Definition fly_speeds (t : list Event) : list (option Value) :=
  speeds_at_kickoff None (pick fly_step t).


(** The moves of [one_1d_step], which steps the slow axis. *)
Definition slow_step (ev : Event) : option (Signal * Value) :=
  match ev with
  | EMsg (Mset s v (GFresh stub)) =>
      if String.eqb stub "set" then Some (s, v) else None
  | _ => None
  end.

(** The [delta] in the metadata of a run that is opened. *)
Definition open_delta (ev : Event) : option Q :=
  match ev with
  | EMsg (Mopen_run md) => Some (md_delta md)
  | _ => None
  end.

(** What the merlin is staged with. *)
Definition merlin_sig (ev : Event) : option (string * Value) :=
  match ev with
  | EStageSig dev key v => if String.eqb dev "merlin" then Some (key, v) else None
  | _ => None
  end.

(** The messages of the zebra's cycle. *)
Inductive ZebraStep := ZKickoff | ZComplete | ZCollect.

Definition zebra_step (ev : Event) : option ZebraStep :=
  match ev with
  | EMsg (Mkickoff _ _ _ _ _ _) => Some ZKickoff
  | EMsg (Mcomplete _) => Some ZComplete
  | EMsg (Mcollect _) => Some ZCollect
  | _ => None
  end.

(** A frame or capture count of a detector is set. *)
Definition is_count (attr : string) : bool :=
  String.eqb attr "hdf5.num_capture" || String.eqb attr "settings.num_images"
  || String.eqb attr "cam.num_images".

Definition count_set (ev : Event) : option (Signal * Value) :=
  match ev with
  | EMsg (Mset (Sig d a) v _) => if is_count a then Some (Sig d a, v) else None
  | _ => None
  end.

Definition Group_eqb (a b : Group) : bool :=
  match a, b with
  | GNone, GNone => true
  | GName s1, GName s2 => String.eqb s1 s2
  | GFresh s1, GFresh s2 => String.eqb s1 s2
  | _, _ => false
  end.

(** The groups of the counts set in a trace and not waited for by its end,
    [pending] being those of before. *)
Fixpoint unwaited (pending : list Group) (t : list Event) : list Group :=
  match t with
  | [] => pending
  | EMsg (Mset (Sig d a) v g) :: t' =>
      if is_count a then unwaited (g :: pending) t' else unwaited pending t'
  | EMsg (Mwait g) :: t' =>
      unwaited (filter (fun g' => negb (Group_eqb g g')) pending) t'
  | _ :: t' => unwaited pending t'
  end.

(** The counts of the detectors of a request, as a row sets them. *)
Definition counts (r : Request) : list (Signal * Value) :=
  (if has_key "xs" (dets_by_name r) then
     [(Sig "xs" "hdf5.num_capture", VInt (xnum r));
      (Sig "xs" "settings.num_images", VInt (xnum r))] else [])
  ++ (if has_key "xs2" (dets_by_name r) then
        [(Sig "xs2" "hdf5.num_capture", VInt (xnum r));
         (Sig "xs2" "settings.num_images", VInt (xnum r))] else [])
  ++ (if has_key "merlin" (dets_by_name r) then
        [(Sig "merlin" "hdf5.num_capture", VInt (xnum r));
         (Sig "merlin" "cam.num_images", VInt (xnum r))] else [])
  ++ (if has_key "dexela" (dets_by_name r) then
        [(Sig "dexela" "hdf5.num_capture", VInt (xnum r));
         (Sig "dexela" "cam.num_images", VInt (xnum r))] else []).

(** The velocities a row sets after the fly. *)
Definition reset_speeds (r : Request) : list FlyStep :=
  (if contains "e_tomo" (motor_name (xmotor r)) then
     [SetSpeed (motor_name (xmotor r))
        (VNum (Qmin 4 (velocity_high_limit (xmotor r))))] else [])
  ++ [SetSpeed (motor_name (xmotor r))
        (VNum (if contains "nano_stage" (motor_name (xmotor r)) then 30 else 1.0))].

(** From [st] the plan ends with the exception [e], leaving the trace [t]. *)
Definition raises {A} (p : Plan A) (c : Ctx) (st : State) (e : Exn) (t : list Event)
  : Prop :=
  exists st', p c st = (Raise e, st', t).

(** A velocity that is set is the number [q]. *)
Definition speed_is (q : Q) (o : option Value) : bool :=
  match o with
  | Some (VNum v) => Qeq_bool v q
  | _ => false
  end.

(** ** A beamline for examples *)

Definition hf_x : Motor :=
  {| motor_name := "hf_stage_x"; egu := "mm"; velocity_high_limit := 10 |}.

Definition hf_y : Motor :=
  {| motor_name := "hf_stage_y"; egu := "mm"; velocity_high_limit := 10 |}.

Definition e_tomo_x : Motor :=
  {| motor_name := "e_tomo_x"; egu := "mm"; velocity_high_limit := 10 |}.

Definition zebra : Flyer :=
  {| flyer_name := "flying_zebra"; encoder := "zebra_encoder"; sclr := "sclr1" |}.

(** A beamline whose fast axis always reads [x] and whose RunEngine throws
    what [faults] says. *)
Definition beamline (x : Q) (faults : nat -> Msg -> option Exn) : Env :=
  {| hf_stage_x := hf_x;
     hf_stage_y := hf_y;
     user_readback := fun _ => x;
     fault := faults;
     patience := 3;
     knows_detectors := fun _ => true;
     fast_axis_value := "HOR";
     energy_value := 12;
     run_uid := "3f2a9c1e-77aa";
     scan_id := 101;
     reset_stage_defaults := fun pv => pv |}.

Definition no_faults : nat -> Msg -> option Exn := fun _ _ => None.

(** Every deadband is 0.001 and every other value 0 at the start. *)
Definition pv_start : Store :=
  fun s =>
    if Signal_eqb s RETRY_DEADBAND_X || Signal_eqb s RETRY_DEADBAND_Y
    then VNum 0.001 else VNum 0.

(** A scan of [hf_stage.x] against [hf_stage.y]. *)
Definition request (dets : list Device) (x0 x1 : Q) (nx : Z) (y0 y1 : Q) (ny : Z)
    (d : Q) : Request :=
  {| detectors := dets;
     xstart := x0; xstop := x1; xnum := nx;
     ystart := y0; ystop := y1; ynum := ny;
     dwell := d;
     flying_zebra := zebra;
     xmotor := hf_x; ymotor := hf_y;
     delta := None; shutter := true; align := false; md := None |}.

(** A scan in which nothing fails: the RunEngine processes every message,
    the zebra knows the detectors, there is a first detector, the points are
    two or more by one or more, the dwell in use is not zero and the fast
    axis gets to its start position. *)
Definition smooth (e : Env) (r : Request) : Prop :=
  calm e /\ (2 <= xnum r)%Z /\ (1 <= ynum r)%Z /\ ~ scan_dwell r == 0 /\
  knows_detectors e (detectors r) = true /\ detectors r <> [] /\
  reaches_start e r (scan_delta r (scan_dwell r)).

(** From [st] the plan is still in its loop when the unrolling ends, the
    trace being [t] by then. *)
Definition spins {A} (p : Plan A) (c : Ctx) (st : State) (t : list Event) : Prop :=
  exists st', p c st = (Spin, st', t).

(** A positioner is moved. *)
Definition move_step (ev : Event) : option (Device * Value) :=
  match ev with
  | EMsg (Mset (Sig d a) v _) => if String.eqb a "" then Some (d, v) else None
  | _ => None
  end.

(** ** Runs in which anything may fail *)

(** The messages the RunEngine handles by itself, with no device in it. *)
Definition bookkeeping (m : Msg) : bool :=
  match m with
  | Mopen_run _ | Mclose_run _ | Msubscribe _ _ | Munsubscribe _
  | Mmonitor _ | Munmonitor _ => true
  | _ => false
  end.

(** Exceptions come from devices and from the user, at the messages that
    have a device in them or take time; the RunEngine's own messages are
    processed. *)
Definition sound (e : Env) : Prop :=
  forall k m, bookkeeping m = true -> fault e k m = None.

(** A retry deadband of the stage is written, by a put or by a message. *)
Definition deadband_write (ev : Event) : option (Signal * Value) :=
  match ev with
  | EPut (Sig d a) v | EMsg (Mset (Sig d a) v _) =>
      if (String.eqb a "RETRY_DEADBAND_X" || String.eqb a "RETRY_DEADBAND_Y")
         && String.eqb d "hf_stage"
      then Some (Sig d a, v) else None
  | _ => None
  end.

(** A backlash speed of the stage is written. *)
Definition backlash_write (ev : Event) : option (Signal * Value) :=
  match ev with
  | EPut (Sig d a) v | EMsg (Mset (Sig d a) v _) =>
      if (String.eqb a "BACKLASH_SPEED_X" || String.eqb a "BACKLASH_SPEED_Y")
         && String.eqb d "hf_stage"
      then Some (Sig d a, v) else None
  | _ => None
  end.

(** A run is opened. *)
Definition opened (ev : Event) : option Metadata :=
  match ev with
  | EMsg (Mopen_run md) => Some md
  | _ => None
  end.

(** If the event writes a backlash speed, it writes [v]. *)
Definition backlash_ok (v : Q) (ev : Event) : Prop :=
  forall w, backlash_write ev = Some w -> snd w = VNum v.

(** An event of the rows: no deadband is written, no run opened. *)
Definition tame (v : Q) (ev : Event) : Prop :=
  deadband_write ev = None /\ opened ev = None /\ backlash_ok v ev.

(** All that a plan leaves in a trace is [P], however it ends. *)
Definition Tame {A} (P : Event -> Prop) (p : Plan A) : Prop :=
  forall c st o st' t, p c st = (o, st', t) -> Forall P t.

(** The same, the subscriptions staying as they are. *)
Definition Quiet {A} (P : Event -> Prop) (p : Plan A) : Prop :=
  forall c st o st' t, p c st = (o, st', t) -> Forall P t /\ subs st' = subs st.

(** What a trace has of runs opened and deadbands written. *)
Definition sums (O : list Metadata) (W : list (Signal * Value)) (v : Q)
    (t : list Event) : Prop :=
  pick opened t = O /\ pick deadband_write t = W /\ Forall (backlash_ok v) t.

(** A part of the scan ends in its loop, or without a run opened and a
    deadband written, or with one run opened and the deadbands [W] written. *)
Definition good {A} (W : list (Signal * Value)) (v : Q) (o : Outcome A)
    (t : list Event) : Prop :=
  o = Spin \/ sums [] [] v t \/ exists md, sums [md] W v t.

(** The deadbands [scan_and_fly_base] writes at its start, and those
    [finalize_scan] writes back. *)
Definition installs (e : Env) (r : Request) : list (Signal * Value) :=
  (if motor_in (hf_stage_x e) (xmotor r) (ymotor r)
   then [(RETRY_DEADBAND_X, VNum NEW_RDBD_X)] else [])
  ++ (if motor_in (hf_stage_y e) (xmotor r) (ymotor r)
      then [(RETRY_DEADBAND_Y, VNum NEW_RDBD_Y)] else []).

Definition restores (e : Env) (r : Request) (pv0 : Store) : list (Signal * Value) :=
  (if motor_in (hf_stage_x e) (xmotor r) (ymotor r)
   then [(RETRY_DEADBAND_X, pv0 RETRY_DEADBAND_X)] else [])
  ++ (if motor_in (hf_stage_y e) (xmotor r) (ymotor r)
      then [(RETRY_DEADBAND_Y, pv0 RETRY_DEADBAND_Y)] else []).

(** The zebra fails to complete, and the user aborts during a sleep of 1.5. *)
Definition complete_fails : nat -> Msg -> option Exn :=
  fun _ m => match m with Mcomplete _ => Some FailedStatus | _ => None end.

Definition abort_before_fly : nat -> Msg -> option Exn :=
  fun _ m =>
    match m with
    | Msleep t => if Qeq_bool t 1.5 then Some RequestAbort else None
    | _ => None
    end.

(** ** More that is read off a trace *)

(** The shutter is told to open or to close: the only strings set to a
    device itself are those of [mv(shut_b, 'Open')] and [mv(shut_b, 'Close')]. *)
Definition shutter_set (ev : Event) : option string :=
  match ev with
  | EMsg (Mset (Sig d a) (VStr s) _) =>
      if String.eqb d "shut_b" && String.eqb a "" then Some s else None
  | _ => None
  end.

(** [hf_stage.reset_stage_defaults()] is called. *)
Definition is_reset (ev : Event) : bool :=
  match ev with
  | ECall routine => String.eqb routine "hf_stage.reset_stage_defaults"
  | _ => false
  end.

(** The plan returns, rather than ending with an exception or in its loop. *)
Definition returned {A} (o : Outcome A) : bool :=
  match o with
  | Ret _ => true
  | _ => false
  end.



(** [scanrecord.time_remaining] is written, by a put or by a message. *)
Definition remaining (ev : Event) : option Value :=
  match ev with
  | EPut (Sig d a) v | EMsg (Mset (Sig d a) v _) =>
      if String.eqb a "time_remaining" && String.eqb d "scanrecord"
      then Some v else None
  | _ => None
  end.

(** The time one row is taken to last, in seconds. *)
Definition row_time (r : Request) (dwell : Q) : Q := dwell * inject_Z (xnum r) + 3.8.

(** The estimates the rows of a scan write, from the row [ystep] on. *)
Fixpoint countdown (r : Request) (dwell : Q) (ystep : Z) (rows : nat) : list Value :=
  match rows with
  | O => []
  | S rows' =>
      VNum (inject_Z (ynum r - ystep) * row_time r dwell / 3600)
      :: countdown r dwell (ystep + 1) rows'
  end.

(** A flyer is told the name of its fast or slow axis, or is kicked off. *)
Inductive FlyerUse := NamesAxis (axis : Signal) (name : Value) | KicksOff (flyer : Device).

Definition flyer_use (ev : Event) : option FlyerUse :=
  match ev with
  | EMsg (Mset (Sig d a) v _) =>
      if String.eqb a "fast_axis" || String.eqb a "slow_axis"
      then Some (NamesAxis (Sig d a) v) else None
  | EMsg (Mkickoff z _ _ _ _ _) => Some (KicksOff z)
  | _ => None
  end.

(** The subscriptions and the documents: a callback is subscribed or
    unsubscribed, a run is opened or closed. *)
Inductive Booking :=
| Subscribed (name : DocName)
| Unsubscribed
| Opened
| Closed (exit_status : ExitStatus).

Definition booking (ev : Event) : option Booking :=
  match ev with
  | EMsg (Msubscribe name _) => Some (Subscribed name)
  | EMsg (Munsubscribe _) => Some Unsubscribed
  | EMsg (Mopen_run _) => Some Opened
  | EMsg (Mclose_run status) => Some (Closed status)
  | _ => None
  end.

(** An event that is none of these. *)
Definition no_booking (ev : Event) : Prop := booking ev = None.

(** A part of the scan ends in its loop, or without a run opened, or with
    one run opened and closed between the bookings [pre] and [post]; the run
    is closed with [success] if the part returns. *)
Definition booked {A} (pre post : list Booking) (o : Outcome A) (t : list Event) : Prop :=
  o = Spin \/ pick opened t = [] \/
  exists status,
    pick booking t = pre ++ [Opened; Closed status] ++ post /\
    (returned o = true -> status = success).

(** ** Where exceptions come from *)

(** The RunEngine of [e] throws [x] at some message. *)
Definition thrown (e : Env) (x : Exn) : Prop := exists k m, fault e k m = Some x.

(** The exceptions [scan_and_fly_base] may end with of its own: a division
    by zero in the stage speed, a detector list the zebra does not take, and
    a detector list without a first entry. *)
Definition own_exception (e : Env) (r : Request) (x : Exn) : Prop :=
  (x = ZeroDivisionError /\ (xnum r = 1%Z \/ scan_dwell r == 0)) \/
  (x = ValueError /\ knows_detectors e (detectors r) = false) \/
  (x = IndexError /\ detectors r = []).

(** A plan that never returns, whatever the devices do. *)
Definition NoRet {A} (p : Plan A) : Prop :=
  forall c st o st' t, p c st = (o, st', t) -> returned o = false.

(** A plan that has no loop to stay in. *)
Definition NoSpin {A} (p : Plan A) : Prop :=
  forall c st o st' t, p c st = (o, st', t) -> o <> Spin.

(** What a detector is told in a scan: its number of points, that the next
    row is a fly, and to take the row. *)
Inductive DetectorStep :=
| TotalPoints (d : Device) (n : Value)
| FlyNext (d : Device) (on : Value)
| Triggered (d : Device).

Definition detector_step (ev : Event) : option DetectorStep :=
  match ev with
  | EMsg (Mset (Sig d a) v _) =>
      if String.eqb a "total_points" then Some (TotalPoints d v)
      else if String.eqb a "fly_next" then Some (FlyNext d v)
      else None
  | EMsg (Mtrigger d (GName g)) => if String.eqb g "row" then Some (Triggered d) else None
  | _ => None
  end.

(** ** What holds of a plan however it ends *)

(** A message that sets a string. *)
Definition sets_string (m : Msg) : bool :=
  match m with
  | Mset _ (VStr _) _ => true
  | _ => false
  end.

(** A property of events that the callbacks, the prints, the set-up of the
    detectors and the messages to devices have, the messages that set a
    string apart. *)
Definition Meek (P : Event -> Prop) : Prop :=
  (forall s v, P (EPut s v)) /\ P (ECall "logscan_detailed") /\
  (forall s, P (EPrint s)) /\ (forall d k v, P (EStageSig d k v)) /\
  (forall z l, P (ESetDetectors z l)) /\
  (forall m, plain m = true -> sets_string m = false -> P (EMsg m)).

(** A property that the RunEngine's own messages have. *)
Definition Books (P : Event -> Prop) : Prop :=
  forall m, plain m = false -> P (EMsg m).

(** A property of exceptions that those of the RunEngine have. *)
Definition Fair (X : Env -> Exn -> Prop) : Prop := forall e x, thrown e x -> X e x.

(** However the plan ends, all it leaves in the trace is [P], and an
    exception it ends with is [X]. *)
Definition Sane {A} (P : Event -> Prop) (X : Env -> Exn -> Prop) (p : Plan A) : Prop :=
  forall c st o st' t, p c st = (o, st', t) ->
    Forall P t /\ forall x, o = Raise x -> X (env c) x.

Definition no_shutter (ev : Event) : Prop := shutter_set ev = None.

Definition no_reset (ev : Event) : Prop := is_reset ev = false.

(** An event of before the run: the shutter is not set, no run opened. *)
Definition before_run (ev : Event) : Prop := shutter_set ev = None /\ opened ev = None.


Definition any_exception (e : Env) (x : Exn) : Prop := True.

(** A part of the scan, with the shutter in use, ends in its loop, or
    before a run is opened, or with the shutter opened and closed. *)
Definition shut {A} (o : Outcome A) (t : list Event) : Prop :=
  o = Spin \/ pick opened t = [] \/ pick shutter_set t = ["Open"; "Close"].

(** The same of the part after the shutter is opened. *)
Definition closes {A} (o : Outcome A) (t : list Event) : Prop :=
  o = Spin \/ pick shutter_set t = ["Close"].

(** [hf_stage.reset_stage_defaults()] is the last a plan does if it
    returns, and is not called if it does not. *)
Definition resets {A} (o : Outcome A) (t : list Event) : Prop :=
  (returned o = true /\
   exists t0, t = t0 ++ [ECall "hf_stage.reset_stage_defaults"] /\ Forall no_reset t0)
  \/ (returned o = false /\ Forall no_reset t).

(** Requests for examples: another of the keywords of a request. *)
Definition with_shutter (b : bool) (r : Request) : Request :=
  {| detectors := detectors r;
     xstart := xstart r; xstop := xstop r; xnum := xnum r;
     ystart := ystart r; ystop := ystop r; ynum := ynum r;
     dwell := dwell r;
     flying_zebra := flying_zebra r;
     xmotor := xmotor r; ymotor := ymotor r;
     delta := delta r; shutter := b; align := align r; md := md r |}.

Definition with_delta (d : Q) (r : Request) : Request :=
  {| detectors := detectors r;
     xstart := xstart r; xstop := xstop r; xnum := xnum r;
     ystart := ystart r; ystop := ystop r; ynum := ynum r;
     dwell := dwell r;
     flying_zebra := flying_zebra r;
     xmotor := xmotor r; ymotor := ymotor r;
     delta := Some d; shutter := shutter r; align := align r; md := md r |}.

(** ** The entry points: [scan_and_fly] and its variants *)

(** The globals of the profile the entry points refer to, besides
    [hf_stage.x] and [hf_stage.y]. *)
Module Profile.

Record t := {
  hf_stage_z : Motor;
  nano_stage_sx : Motor;
  nano_stage_sy : Motor;
  nano_stage_sz : Motor;
  flying_zebra : Flyer;
  nano_flying_zebra : Flyer;
  flying_zebra_x_xs2 : Flyer;
  flying_zebra_y_xs2 : Flyer;
  xs : Device;
  xs2 : Device
}.

End Profile.

(** The seven positional arguments ([*args]) of an entry point. *)
Module Args.

Record t := {
  xstart : Q;
  xstop : Q;
  xnum : Z;
  ystart : Q;
  ystop : Q;
  ynum : Z;
  dwell : Q
}.

End Args.

(** The keywords ([**kwargs]) of an entry point: each is given or not. *)
Module Kwargs.

Record t := {
  xmotor : option Motor;
  ymotor : option Motor;
  flying_zebra : option Flyer;
  xs : option Device;
  delta : option Q;
  shutter : option bool;
  align : option bool;
  md : option (list (string * string))
}.

End Kwargs.

(** [kwargs.setdefault(key, default)]: the value of the key afterwards. *)
Definition setdefault {X} (given : option X) (default : X) : X :=
  match given with
  | Some x => x
  | None => default
  end.

(** [kwargs.pop(key, default)]: the value popped. *)
Definition pop {X} (given : option X) (default : X) : X :=
  match given with
  | Some x => x
  | None => default
  end.

(** [flyer.fast_axis] and [flyer.slow_axis] *)
Definition fast_axis (z : Flyer) : Signal := Sig (flyer_name z) "fast_axis".
Definition slow_axis (z : Flyer) : Signal := Sig (flyer_name z) "slow_axis".

(** The arguments of [scan_and_fly_base(dets, *args, **kwargs)] once the
    motors and the flyer have their defaults and ['xs'] is popped; what is
    not given has the default of [scan_and_fly_base] itself. *)
Definition base_request (dets : list Device) (a : Args.t) (kw : Kwargs.t)
    (xm ym : Motor) (fz : Flyer) : Request :=
  {| detectors := dets;
     xstart := Args.xstart a; xstop := Args.xstop a; xnum := Args.xnum a;
     ystart := Args.ystart a; ystop := Args.ystop a; ynum := Args.ynum a;
     dwell := Args.dwell a;
     flying_zebra := fz;
     xmotor := xm; ymotor := ym;
     delta := Kwargs.delta kw;
     shutter := setdefault (Kwargs.shutter kw) true;
     align := setdefault (Kwargs.align kw) false;
     md := Kwargs.md kw |}.

(** [if extra_dets is None: extra_dets = []] *)
Definition or_empty (extra_dets : option (list Device)) : list Device :=
  match extra_dets with
  | None => []
  | Some l => l
  end.

(** Lines 441-454. *)
Definition nano_scan_and_fly (g : Profile.t) (a : Args.t)
    (extra_dets : option (list Device)) (kw : Kwargs.t) : Plan unit :=
  let xm := setdefault (Kwargs.xmotor kw) (Profile.nano_stage_sx g) in
  let ym := setdefault (Kwargs.ymotor kw) (Profile.nano_stage_sy g) in
  let fz := setdefault (Kwargs.flying_zebra kw) (Profile.nano_flying_zebra g) in
  print (motor_name xm) ;;
  print (motor_name ym) ;;
  abs_set (fast_axis (Profile.nano_flying_zebra g)) (VStr "NANOHOR") GNone ;;
  abs_set (slow_axis (Profile.nano_flying_zebra g)) (VStr "NANOVER") GNone ;;
  let _xs := pop (Kwargs.xs kw) (Profile.xs2 g) in
  let dets := _xs :: or_empty extra_dets in
  scan_and_fly_base (base_request dets a kw xm ym fz) ;;
  ret tt.

(** Lines 457-468. *)
Definition nano_y_scan_and_fly (g : Profile.t) (a : Args.t)
    (extra_dets : option (list Device)) (kw : Kwargs.t) : Plan unit :=
  let xm := setdefault (Kwargs.xmotor kw) (Profile.nano_stage_sy g) in
  let ym := setdefault (Kwargs.ymotor kw) (Profile.nano_stage_sx g) in
  let fz := setdefault (Kwargs.flying_zebra kw) (Profile.nano_flying_zebra g) in
  abs_set (fast_axis (Profile.nano_flying_zebra g)) (VStr "NANOVER") GNone ;;
  abs_set (slow_axis (Profile.nano_flying_zebra g)) (VStr "NANOHOR") GNone ;;
  let _xs := pop (Kwargs.xs kw) (Profile.xs2 g) in
  let dets := _xs :: or_empty extra_dets in
  scan_and_fly_base (base_request dets a kw xm ym fz) ;;
  ret tt.

(** Lines 471-481. *)
Definition nano_z_scan_and_fly (g : Profile.t) (a : Args.t)
    (extra_dets : option (list Device)) (kw : Kwargs.t) : Plan unit :=
  let xm := setdefault (Kwargs.xmotor kw) (Profile.nano_stage_sz g) in
  let ym := setdefault (Kwargs.ymotor kw) (Profile.nano_stage_sx g) in
  let fz := setdefault (Kwargs.flying_zebra kw) (Profile.nano_flying_zebra g) in
  abs_set (fast_axis (Profile.nano_flying_zebra g)) (VStr "NANOZ") GNone ;;
  let _xs := pop (Kwargs.xs kw) (Profile.xs2 g) in
  let dets := _xs :: or_empty extra_dets in
  scan_and_fly_base (base_request dets a kw xm ym fz) ;;
  ret tt.

(** Lines 484-494. *)
Definition scan_and_fly (g : Profile.t) (a : Args.t)
    (extra_dets : option (list Device)) (kw : Kwargs.t) : Plan unit :=
  e <- ask ;;
  let xm := setdefault (Kwargs.xmotor kw) (hf_stage_x e) in
  let ym := setdefault (Kwargs.ymotor kw) (hf_stage_y e) in
  let fz := setdefault (Kwargs.flying_zebra kw) (Profile.flying_zebra g) in
  abs_set (fast_axis (Profile.flying_zebra g)) (VStr "HOR") GNone ;;
  let _xs := pop (Kwargs.xs kw) (Profile.xs g) in
  let dets := _xs :: or_empty extra_dets in
  scan_and_fly_base (base_request dets a kw xm ym fz) ;;
  ret tt.

(** Lines 497-514. *)
Definition y_scan_and_fly (g : Profile.t) (a : Args.t)
    (extra_dets : option (list Device)) (kw : Kwargs.t) : Plan unit :=
  e <- ask ;;
  let xm := setdefault (Kwargs.xmotor kw) (hf_stage_y e) in
  let ym := setdefault (Kwargs.ymotor kw) (hf_stage_x e) in
  let fz := setdefault (Kwargs.flying_zebra kw) (Profile.flying_zebra g) in
  abs_set (fast_axis (Profile.flying_zebra g)) (VStr "VER") GNone ;;
  let _xs := pop (Kwargs.xs kw) (Profile.xs g) in
  let dets := _xs :: or_empty extra_dets in
  scan_and_fly_base (base_request dets a kw xm ym fz) ;;
  ret tt.

(** Lines 627-645. *)
Definition y_scan_and_fly_xs2 (g : Profile.t) (a : Args.t)
    (extra_dets : option (list Device)) (kw : Kwargs.t) : Plan unit :=
  e <- ask ;;
  let xm := setdefault (Kwargs.xmotor kw) (hf_stage_y e) in
  let ym := setdefault (Kwargs.ymotor kw) (hf_stage_x e) in
  let fz := setdefault (Kwargs.flying_zebra kw) (Profile.flying_zebra_y_xs2 g) in
  let _xs := pop (Kwargs.xs kw) (Profile.xs2 g) in
  let dets := _xs :: or_empty extra_dets in
  scan_and_fly_base (base_request dets a kw xm ym fz) ;;
  ret tt.

(** Lines 648-667. *)
Definition y_scan_and_fly_xs2_yz (g : Profile.t) (a : Args.t)
    (extra_dets : option (list Device)) (kw : Kwargs.t) : Plan unit :=
  e <- ask ;;
  let xm := setdefault (Kwargs.xmotor kw) (hf_stage_y e) in
  let ym := setdefault (Kwargs.ymotor kw) (Profile.hf_stage_z g) in
  let fz := setdefault (Kwargs.flying_zebra kw) (Profile.flying_zebra_y_xs2 g) in
  let _xs := pop (Kwargs.xs kw) (Profile.xs2 g) in
  let dets := _xs :: or_empty extra_dets in
  scan_and_fly_base (base_request dets a kw xm ym fz) ;;
  ret tt.

(** Lines 670-683. *)
Definition scan_and_fly_xs2 (g : Profile.t) (a : Args.t)
    (extra_dets : option (list Device)) (kw : Kwargs.t) : Plan unit :=
  e <- ask ;;
  let xm := setdefault (Kwargs.xmotor kw) (hf_stage_x e) in
  let ym := setdefault (Kwargs.ymotor kw) (hf_stage_y e) in
  let fz := setdefault (Kwargs.flying_zebra kw) (Profile.flying_zebra_x_xs2 g) in
  let _xs := pop (Kwargs.xs kw) (Profile.xs2 g) in
  let dets := _xs :: or_empty extra_dets in
  scan_and_fly_base (base_request dets a kw xm ym fz) ;;
  ret tt.

(** Lines 686-699. *)
Definition scan_and_fly_xs2_xz (g : Profile.t) (a : Args.t)
    (extra_dets : option (list Device)) (kw : Kwargs.t) : Plan unit :=
  e <- ask ;;
  let xm := setdefault (Kwargs.xmotor kw) (hf_stage_x e) in
  let ym := setdefault (Kwargs.ymotor kw) (Profile.hf_stage_z g) in
  let fz := setdefault (Kwargs.flying_zebra kw) (Profile.flying_zebra_x_xs2 g) in
  let _xs := pop (Kwargs.xs kw) (Profile.xs2 g) in
  let dets := _xs :: or_empty extra_dets in
  scan_and_fly_base (base_request dets a kw xm ym fz) ;;
  ret tt.

(** The entry points by name. *)
Inductive Entry :=
| Enano_scan_and_fly
| Enano_y_scan_and_fly
| Enano_z_scan_and_fly
| Escan_and_fly
| Ey_scan_and_fly
| Ey_scan_and_fly_xs2
| Ey_scan_and_fly_xs2_yz
| Escan_and_fly_xs2
| Escan_and_fly_xs2_xz.

Definition entry (n : Entry) : Profile.t -> Args.t -> option (list Device) ->
    Kwargs.t -> Plan unit :=
  match n with
  | Enano_scan_and_fly => nano_scan_and_fly
  | Enano_y_scan_and_fly => nano_y_scan_and_fly
  | Enano_z_scan_and_fly => nano_z_scan_and_fly
  | Escan_and_fly => scan_and_fly
  | Ey_scan_and_fly => y_scan_and_fly
  | Ey_scan_and_fly_xs2 => y_scan_and_fly_xs2
  | Ey_scan_and_fly_xs2_yz => y_scan_and_fly_xs2_yz
  | Escan_and_fly_xs2 => scan_and_fly_xs2
  | Escan_and_fly_xs2_xz => scan_and_fly_xs2_xz
  end.

(** The defaults of an entry point: the fast axis, the slow axis, the
    flyer and the first detector. *)
Definition entry_defaults (n : Entry) (g : Profile.t) (e : Env)
  : Motor * Motor * Flyer * Device :=
  match n with
  | Enano_scan_and_fly =>
      (Profile.nano_stage_sx g, Profile.nano_stage_sy g,
       Profile.nano_flying_zebra g, Profile.xs2 g)
  | Enano_y_scan_and_fly =>
      (Profile.nano_stage_sy g, Profile.nano_stage_sx g,
       Profile.nano_flying_zebra g, Profile.xs2 g)
  | Enano_z_scan_and_fly =>
      (Profile.nano_stage_sz g, Profile.nano_stage_sx g,
       Profile.nano_flying_zebra g, Profile.xs2 g)
  | Escan_and_fly =>
      (hf_stage_x e, hf_stage_y e, Profile.flying_zebra g, Profile.xs g)
  | Ey_scan_and_fly =>
      (hf_stage_y e, hf_stage_x e, Profile.flying_zebra g, Profile.xs g)
  | Ey_scan_and_fly_xs2 =>
      (hf_stage_y e, hf_stage_x e, Profile.flying_zebra_y_xs2 g, Profile.xs2 g)
  | Ey_scan_and_fly_xs2_yz =>
      (hf_stage_y e, Profile.hf_stage_z g, Profile.flying_zebra_y_xs2 g, Profile.xs2 g)
  | Escan_and_fly_xs2 =>
      (hf_stage_x e, hf_stage_y e, Profile.flying_zebra_x_xs2 g, Profile.xs2 g)
  | Escan_and_fly_xs2_xz =>
      (hf_stage_x e, Profile.hf_stage_z g, Profile.flying_zebra_x_xs2 g, Profile.xs2 g)
  end.

(** The request an entry point hands to [scan_and_fly_base]. *)
Definition entry_request (n : Entry) (g : Profile.t) (e : Env) (a : Args.t)
    (extra_dets : option (list Device)) (kw : Kwargs.t) : Request :=
  match entry_defaults n g e with
  | (xm, ym, fz, first) =>
      base_request (pop (Kwargs.xs kw) first :: or_empty extra_dets) a kw
        (setdefault (Kwargs.xmotor kw) xm) (setdefault (Kwargs.ymotor kw) ym)
        (setdefault (Kwargs.flying_zebra kw) fz)
  end.

(** The axis names an entry point sets, with the flyer it sets them on. *)
Definition entry_axes (n : Entry) (g : Profile.t) : list (Signal * Value) :=
  match n with
  | Enano_scan_and_fly =>
      [(fast_axis (Profile.nano_flying_zebra g), VStr "NANOHOR");
       (slow_axis (Profile.nano_flying_zebra g), VStr "NANOVER")]
  | Enano_y_scan_and_fly =>
      [(fast_axis (Profile.nano_flying_zebra g), VStr "NANOVER");
       (slow_axis (Profile.nano_flying_zebra g), VStr "NANOHOR")]
  | Enano_z_scan_and_fly => [(fast_axis (Profile.nano_flying_zebra g), VStr "NANOZ")]
  | Escan_and_fly => [(fast_axis (Profile.flying_zebra g), VStr "HOR")]
  | Ey_scan_and_fly => [(fast_axis (Profile.flying_zebra g), VStr "VER")]
  | _ => []
  end.

(** What an entry point does before it calls [scan_and_fly_base], when no
    message fails. *)
Definition preamble (n : Entry) (g : Profile.t) (e : Env) (a : Args.t)
    (extra_dets : option (list Device)) (kw : Kwargs.t) : list Event :=
  (match n with
   | Enano_scan_and_fly =>
       [EPrint (motor_name (xmotor (entry_request n g e a extra_dets kw)));
        EPrint (motor_name (ymotor (entry_request n g e a extra_dets kw)))]
   | _ => []
   end)
  ++ map (fun sv => EMsg (Mset (fst sv) (snd sv) GNone)) (entry_axes n g).

(** The state after the axis names are set. *)
Definition after_axes (n : Entry) (g : Profile.t) (st : State) : State :=
  fold_left (fun s sv => with_pv (upd (fst sv) (snd sv)) (count_msg s))
    (entry_axes n g) st.

(** The result of an entry point, which drops that of [scan_and_fly_base]. *)
Definition dropped {A} (o : Outcome A) : Outcome unit :=
  match o with
  | Ret _ => Ret tt
  | Raise x => Raise x
  | Spin => Spin
  end.


(** Nothing is given by keyword. *)
Definition no_kwargs : Kwargs.t :=
  {| Kwargs.xmotor := None; Kwargs.ymotor := None; Kwargs.flying_zebra := None;
     Kwargs.xs := None; Kwargs.delta := None; Kwargs.shutter := None;
     Kwargs.align := None; Kwargs.md := None |}.

(** A profile for examples. *)
Definition nano_sx : Motor :=
  {| motor_name := "nano_stage_sx"; egu := "um"; velocity_high_limit := 100 |}.

Definition nano_sy : Motor :=
  {| motor_name := "nano_stage_sy"; egu := "um"; velocity_high_limit := 100 |}.

Definition nano_sz : Motor :=
  {| motor_name := "nano_stage_sz"; egu := "um"; velocity_high_limit := 100 |}.

Definition hf_z : Motor :=
  {| motor_name := "hf_stage_z"; egu := "mm"; velocity_high_limit := 10 |}.

Definition nano_zebra : Flyer :=
  {| flyer_name := "nano_flying_zebra"; encoder := "nanoZebra_encoder"; sclr := "sclr1" |}.

Definition zebra_x_xs2 : Flyer :=
  {| flyer_name := "flying_zebra_x_xs2"; encoder := "zebra_encoder"; sclr := "sclr1" |}.

Definition zebra_y_xs2 : Flyer :=
  {| flyer_name := "flying_zebra_y_xs2"; encoder := "zebra_encoder"; sclr := "sclr1" |}.

Definition profile : Profile.t :=
  {| Profile.hf_stage_z := hf_z;
     Profile.nano_stage_sx := nano_sx;
     Profile.nano_stage_sy := nano_sy;
     Profile.nano_stage_sz := nano_sz;
     Profile.flying_zebra := zebra;
     Profile.nano_flying_zebra := nano_zebra;
     Profile.flying_zebra_x_xs2 := zebra_x_xs2;
     Profile.flying_zebra_y_xs2 := zebra_y_xs2;
     Profile.xs := "xs";
     Profile.xs2 := "xs2" |}.

Definition args (x0 x1 : Q) (nx : Z) (y0 y1 : Q) (ny : Z) (d : Q) : Args.t :=
  {| Args.xstart := x0; Args.xstop := x1; Args.xnum := nx;
     Args.ystart := y0; Args.ystop := y1; Args.ynum := ny; Args.dwell := d |}.

(** ** The live grids: [RowBasedLiveGrid] and [ArrayCounterLiveGrid] *)

(** A Python dict with strings for keys, in the order of insertion. *)
Definition Dict := list (string * Value).

(** [d[k]], where there is one, and [k in d] *)
Fixpoint dict_get (k : string) (d : Dict) : option Value :=
  match d with
  | [] => None
  | (k', v) :: d' => if String.eqb k k' then Some v else dict_get k d'
  end.

Definition dict_has (k : string) (d : Dict) : bool :=
  match dict_get k d with
  | Some _ => true
  | None => false
  end.

(** [d[k] = v] *)
Fixpoint dict_set (k : string) (v : Value) (d : Dict) : Dict :=
  match d with
  | [] => [(k, v)]
  | (k', v') :: d' =>
      if String.eqb k k' then (k, v) :: d' else (k', v') :: dict_set k v d'
  end.

(** An event document: its sequence number and its ['data'], a dict that
    the document refers to and may share with other documents. *)
Record Doc := {
  seq_num : Z;
  data : nat
}.

(** The dicts that the ['data'] of documents refer to. *)
Definition Docs := nat -> Dict.

Definition set_data (h : Docs) (ref : nat) (d : Dict) : Docs :=
  fun ref' => if Nat.eqb ref ref' then d else h ref'.

(** Python's [==] on the values of a document: numbers compare by value,
    whatever their type; a string equals only the same string. *)
Definition number (v : Value) : option Q :=
  match v with
  | VNum q => Some q
  | VInt z => Some (inject_Z z)
  | VBool b => Some (if b then 1 else 0)
  | VStr _ => None
  end.

Definition py_eq (a b : Value) : bool :=
  match a, b with
  | VStr s1, VStr s2 => String.eqb s1 s2
  | _, _ =>
      match number a, number b with
      | Some x, Some y => Qeq_bool x y
      | _, _ => false
      end
  end.

(** What a grid does that can be seen: it hands the start document or an
    event document (as it then is) to [LiveGrid], or prints. *)
Inductive Shown :=
| SuperStart
| SuperEvent (seq_num : Z) (data : Dict)
| Printed (text : string).

Inductive PyError := TypeError | KeyError.

(** A method returns with the object as it then is and what it has shown,
    or ends with an exception. *)
Inductive Result (St : Type) :=
| Done (s : St) (shown : list Shown)
| Failed (s : St) (x : PyError).

Arguments Done {St} s shown.
Arguments Failed {St} s x.

(** The sequence numbers of the event documents handed to [LiveGrid]. *)
Definition shown_seq (l : list Shown) : list Z :=
  flat_map (fun x => match x with SuperEvent n _ => [n] | _ => [] end) l.

(** Lines 556-603. *)
Module RowBasedLiveGrid.

Record t := {
  I : string;
  raster_shape : Z * Z;
  _row_key : string;
  _last_row : option Value;
  _column_counter : option Z;
  _pad : option Z;
  _desired_columns : Z
}.

(** [__init__(raster_shape, I, row_key=...)] *)
Definition init (raster_shape : Z * Z) (I row_key : string) : t :=
  {| I := I; raster_shape := raster_shape; _row_key := row_key;
     _last_row := None; _column_counter := None; _pad := None;
     _desired_columns := snd raster_shape |}.

Definition with_row (last_row : option Value) (column_counter pad : option Z) (s : t) : t :=
  {| I := I s; raster_shape := raster_shape s; _row_key := _row_key s;
     _last_row := last_row; _column_counter := column_counter; _pad := pad;
     _desired_columns := _desired_columns s |}.

Definition start (s : t) : Result t :=
  Done (with_row None (Some 0%Z) (Some 0%Z) s) [SuperStart].

(** The first [if] of [event]: the object after it, and whether [event]
    goes on to the second. *)
Inductive Row := NextIf (s : t) | Return (s : t) | Raised (s : t) (x : PyError).

Definition row_of (s : t) (d : Dict) : Row :=
  match dict_get (_row_key s) d with
  | Some this_row =>
      match _last_row s with
      | None => Return (with_row (Some this_row) (_column_counter s) (_pad s) s)
      | Some last_row =>
          if negb (py_eq this_row last_row) then
            match _column_counter s with
            | None => Raised s TypeError
            | Some column_counter =>
                let missing := (_desired_columns s - column_counter)%Z in
                match _pad s with
                | None => Raised s TypeError
                | Some pad =>
                    NextIf (with_row (Some this_row) (Some 0%Z) (Some (pad + missing)%Z) s)
                end
            end
          else NextIf s
      end
  | None => NextIf s
  end.

(** The second [if] of [event]. *)
Definition plot (s : t) (doc : Doc) (d : Dict) : Result t :=
  if dict_has (I s) d then
    match _column_counter s with
    | None => Failed s TypeError
    | Some column_counter =>
        let s1 := with_row (_last_row s) (Some (column_counter + 1)%Z) (_pad s) s in
        match _pad s1 with
        | None => Failed s1 TypeError
        | Some pad => Done s1 [SuperEvent (seq_num doc + pad) d]
        end
    end
  else Done s [].

Definition event (s : t) (h : Docs) (doc : Doc) : Result t :=
  match row_of s (h (data doc)) with
  | Return s1 => Done s1 []
  | Raised s1 x => Failed s1 x
  | NextIf s1 => plot s1 doc (h (data doc))
  end.

Definition stop (s : t) : Result t := Done (with_row None None None s) [].

(** The event documents of a run, one after the other. *)
Fixpoint events (s : t) (h : Docs) (docs : list Doc) : Result t :=
  match docs with
  | [] => Done s []
  | doc :: docs' =>
      match event s h doc with
      | Done s1 shown1 =>
          match events s1 h docs' with
          | Done s2 shown2 => Done s2 (shown1 ++ shown2)
          | Failed s2 x => Failed s2 x
          end
      | Failed s1 x => Failed s1 x
      end
  end.

(** A document that tells the row, and one with the data to plot. *)
Definition tells_row (s : t) (h : Docs) (doc : Doc) (y : Value) : Prop :=
  dict_get (_row_key s) (h (data doc)) = Some y /\ dict_has (I s) (h (data doc)) = false.

Definition has_tile (s : t) (h : Docs) (doc : Doc) : Prop :=
  dict_get (_row_key s) (h (data doc)) = None /\ dict_has (I s) (h (data doc)) = true.

(** The rows of a stream, each the document that tells the row, the value
    of the row and the documents with its tiles; in a stream of rows each
    row differs from the one before. *)
Definition RowDocs := list (Doc * Value * list Doc).

Fixpoint rows_ok (s : t) (h : Docs) (before : option Value) (rows : RowDocs) : Prop :=
  match rows with
  | [] => True
  | (doc, y, tiles) :: rows' =>
      tells_row s h doc y /\ Forall (has_tile s h) tiles /\
      match before with
      | Some y0 => py_eq y y0 = false
      | None => True
      end /\
      rows_ok s h (Some y) rows'
  end.

Definition stream (rows : RowDocs) : list Doc :=
  flat_map (fun row => fst (fst row) :: snd row) rows.

(** The tiles are numbered one after the other, from [n + 1] on. *)
Fixpoint numbered (n : nat) (tiles : list Doc) : Prop :=
  match tiles with
  | [] => True
  | doc :: tiles' => seq_num doc = Z.of_nat (S n) /\ numbered (S n) tiles'
  end.

Fixpoint rows_numbered (n : nat) (rows : RowDocs) : Prop :=
  match rows with
  | [] => True
  | (_, _, tiles) :: rows' =>
      numbered n tiles /\ rows_numbered (n + List.length tiles) rows'
  end.

(** A run: the start document, then the event documents. *)
Definition run_of (s : t) (h : Docs) (docs : list Doc) : Result t :=
  match start s with
  | Done s0 shown0 =>
      match events s0 h docs with
      | Done s1 shown1 => Done s1 (shown0 ++ shown1)
      | Failed s1 x => Failed s1 x
      end
  | Failed s0 x => Failed s0 x
  end.

(** The cells of a grid with [columns] columns that rows of the lengths
    [lengths] fill from the left, counted from 1, from the row [i] on. *)
Fixpoint cells (columns : Z) (i : Z) (lengths : list nat) : list Z :=
  match lengths with
  | [] => []
  | n :: lengths' =>
      map (fun j => (i * columns + Z.of_nat j)%Z) (seq 1 n)
      ++ cells columns (i + 1) lengths'
  end.

End RowBasedLiveGrid.

(** Lines 606-621. *)
Module ArrayCounterLiveGrid.

Record t := {
  I : string;
  _array_counter_key : string;
  _previous_roi : Value
}.

(** [__init__(raster_shape, I, array_counter_key=...)] *)
Definition init (I array_counter_key : string) : t :=
  {| I := I; _array_counter_key := array_counter_key; _previous_roi := VInt 0 |}.

Definition with_previous_roi (v : Value) (s : t) : t :=
  {| I := I s; _array_counter_key := _array_counter_key s; _previous_roi := v |}.

(** [event(doc)]: the object and the dicts afterwards, and what is shown.
    [doc.copy()] copies the document, not its ['data']. *)
Definition event (s : t) (h : Docs) (doc : Doc) : t * Docs * list Shown :=
  let d := h (data doc) in
  match dict_get (I s) d with
  | Some roi => (with_previous_roi roi s, h, [SuperEvent (seq_num doc) d])
  | None =>
      if dict_has (_array_counter_key s) d then
        let doc := {| seq_num := seq_num doc; data := data doc |} in
        let h1 := set_data h (data doc) (dict_set (I s) (_previous_roi s) d) in
        (s, h1, [SuperEvent (seq_num doc) (h1 (data doc))])
      else
        (s, h,
         [Printed ("did not find " ++ I s ++ " or " ++ _array_counter_key s)%string;
          SuperEvent (seq_num doc) d])
  end.

Fixpoint events (s : t) (h : Docs) (docs : list Doc) : t * Docs * list Shown :=
  match docs with
  | [] => (s, h, [])
  | doc :: docs' =>
      match event s h doc with
      | (s1, h1, shown1) =>
          match events s1 h1 docs' with
          | (s2, h2, shown2) => (s2, h2, shown1 ++ shown2)
          end
      end
  end.

End ArrayCounterLiveGrid.

(** ** Documents for examples *)

(** The dicts 0 and 2 tell the rows 0 and 1; the dict 1 has a value of the
    region of interest, the dict 3 a count of arrays. *)
Definition example_dicts : Docs :=
  fun ref =>
    match ref with
    | 0%nat => [("y", VNum 0)]
    | 1%nat => [("roi", VInt 5)]
    | 2%nat => [("y", VNum 1)]
    | 3%nat => [("array_counter", VInt 7)]
    | _ => []
    end.

Definition doc (n : Z) (ref : nat) : Doc := {| seq_num := n; data := ref |}.

(** A row of two tiles and a row of three, for a grid with three columns. *)
Definition example_rows : RowBasedLiveGrid.RowDocs :=
  [(doc 1 0, VNum 0, [doc 1 1; doc 2 1]);
   (doc 2 2, VNum 1, [doc 3 1; doc 4 1; doc 5 1])].

Definition example_grid : RowBasedLiveGrid.t := RowBasedLiveGrid.init (2%Z, 3%Z) "roi" "y".

(** * Properties *)

(** ** Runs in which the RunEngine processes every message *)

Lemma does_ret {A} (a : A) c st : does (ret a) c st a [] 0.
Proof. exists st. repeat split. Qed.

Lemma does_ask c st : does ask c st (env c) [] 0.
Proof. exists st. repeat split. Qed.

Lemma does_emit ev c st : does (emit ev) c st tt [ev] 0.
Proof. exists st. repeat split. Qed.

Lemma does_print s c st : does (print s) c st tt [EPrint s] 0.
Proof. apply does_emit. Qed.

Lemma does_readback c st :
  does readback c st (user_readback (env c) (reads st)) [] 1.
Proof. eexists. repeat split. Qed.

Lemma does_bind {A B} (p : Plan A) (k : A -> Plan B) c st a b t1 t2 n1 n2 :
  does p c st a t1 n1 ->
  (forall st1, subs st1 = subs st -> next_token st1 = next_token st ->
     reads st1 = (n1 + reads st)%nat -> does (k a) c st1 b t2 n2) ->
  does (bind p k) c st b (t1 ++ t2) (n2 + n1).
Proof.
  intros (st1 & E1 & S1 & T1 & R1) K.
  destruct (K st1 S1 T1 R1) as (st2 & E2 & S2 & T2 & R2).
  exists st2. unfold bind. rewrite E1, E2.
  repeat split; try congruence. lia.
Qed.

Lemma does_if {A} (b : bool) (p q : Plan A) c st a t1 t2 n :
  does p c st a t1 n -> does q c st a t2 n ->
  does (if b then p else q) c st a (if b then t1 else t2) n.
Proof. destruct b; auto. Qed.

Lemma does_finalize {A} (p : Plan A) (f : Plan unit) c st a t1 t2 n1 n2 :
  does p c st a t1 n1 ->
  (forall st1, subs st1 = subs st -> next_token st1 = next_token st ->
     reads st1 = (n1 + reads st)%nat -> does f c st1 tt t2 n2) ->
  does (finalize_wrapper p f) c st a (t1 ++ t2) (n2 + n1).
Proof.
  intros (st1 & E1 & S1 & T1 & R1) K.
  destruct (K st1 S1 T1 R1) as (st2 & E2 & S2 & T2 & R2).
  exists st2. unfold finalize_wrapper. rewrite E1, E2.
  repeat split; try congruence. lia.
Qed.

Lemma does_yield m c st :
  calm (env c) -> plain m = true -> does (yield_ m) c st tt [EMsg m] 0.
Proof.
  intros Hc Hp. unfold does, yield_. rewrite Hc.
  destruct m; try discriminate Hp; simpl; eexists; repeat split.
Qed.

Lemma does_for {X} (l : list X) (body : X -> Plan unit) (f : X -> list Event) c :
  (forall x st, does (body x) c st tt (f x) 0) ->
  forall st, does (for_ l body) c st tt (flat_map f l) 0.
Proof.
  intros Hb. induction l as [|x l IH]; intros st; simpl.
  - apply does_ret.
  - change 0%nat with (0 + 0)%nat. eapply does_bind; [apply Hb|]. intros; apply IH.
Qed.

Lemma does_weaken {A} (p : Plan A) c st a t t' n n' :
  does p c st a t n -> t = t' -> n = n' -> does p c st a t' n'.
Proof. intros; subst; assumption. Qed.

Lemma does_conv {A} (p : Plan A) c st a a' t t' n n' :
  does p c st a t n -> a = a' -> t = t' -> n = n' -> does p c st a' t' n'.
Proof. intros; subst; assumption. Qed.

(** Lists of events with their appends nested to the right. *)
Ltac norm_app := repeat (progress (cbn [app]; rewrite <- ?app_assoc)).

Ltac exec :=
  cbv beta;
  lazymatch goal with
  | |- does (bind _ _) _ _ _ _ _ => eapply does_bind; [ exec | intros; exec ]
  | |- does (ret _) _ _ _ _ _ => apply does_ret
  | |- does ask _ _ _ _ _ => apply does_ask
  | |- does (emit _) _ _ _ _ _ => apply does_emit
  | |- does (print _) _ _ _ _ _ => apply does_print
  | |- does (yield_ _) _ _ _ _ _ => apply does_yield; [ assumption | reflexivity ]
  | |- does (if _ then _ else _) _ _ _ _ _ => eapply does_if; exec
  | |- does (let x := _ in _) _ _ _ _ _ => cbv zeta; exec
  | |- _ => idtac
  end.

Section Calm.

Variable c : Ctx.
Hypothesis Hcalm : calm (env c).

Lemma does_mv l st : does (mv l) c st tt (mv_trace l) 0.
Proof.
  unfold mv, mv_trace.
  eapply does_weaken.
  - eapply does_bind.
    + apply does_for with (f := fun sv => [EMsg (Mset (fst sv) (snd sv) (GFresh "mv"))]).
      intros; exec.
    + intros; exec.
  - induction l; simpl; congruence.
  - reflexivity.
Qed.

Lemma does_abs_set obj val g st :
  does (abs_set obj val g) c st tt [EMsg (Mset obj val g)] 0.
Proof. unfold abs_set; exec. Qed.

Lemma does_abs_set_wait obj val st :
  does (abs_set_wait obj val) c st tt (abs_set_wait_trace obj val) 0.
Proof. unfold abs_set_wait. eapply does_weaken; [exec | reflexivity | reflexivity]. Qed.

Lemma does_sleep t st : does (sleep t) c st tt [EMsg (Msleep t)] 0.
Proof. unfold sleep; exec. Qed.

Lemma does_wait g st : does (wait g) c st tt [EMsg (Mwait g)] 0.
Proof. unfold wait; exec. Qed.

Lemma does_trigger d g st : does (trigger d g) c st tt [EMsg (Mtrigger d g)] 0.
Proof. unfold trigger; exec. Qed.

Lemma does_move_to_start_fly r delta motor step st :
  does (move_to_start_fly r delta motor step) c st tt
    (move_to_start_trace r delta motor step) 0.
Proof.
  unfold move_to_start_fly, one_1d_step, trigger_and_read, abs_set, wait, trigger.
  simpl for_.
  eapply does_weaken; [exec | reflexivity | reflexivity].
Qed.

Lemma does_py_div a b st : ~ b == 0 -> does (py_div a b) c st (a / b) [] 0.
Proof.
  intros Hb. unfold py_div. destruct (Qeq_bool b 0) eqn:E.
  - apply Qeq_bool_eq in E. contradiction.
  - apply does_ret.
Qed.

Lemma inject_Z_pred_nonzero z : z <> 1%Z -> ~ inject_Z (z - 1) == 0.
Proof.
  intros Hz H. unfold Qeq in H. simpl in H. lia.
Qed.

Lemma does_stage_speed r dwell st :
  xnum r <> 1%Z -> ~ dwell == 0 ->
  does (stage_speed r dwell) c st (speed r dwell) [] 0.
Proof.
  intros Hx Hd. unfold stage_speed, speed.
  eapply does_weaken.
  - eapply does_bind.
    + apply does_py_div. apply inject_Z_pred_nonzero; assumption.
    + intros. apply does_py_div. assumption.
  - reflexivity.
  - reflexivity.
Qed.

Lemma wait_for_start_eq n r delta x_set x_dial i :
  wait_for_start n r delta x_set x_dial i =
  if Qle_bool (Qabs (x_set - x_dial)) (DEADBAND r) then ret i
  else
    match n with
    | O => spin
    | S n' =>
        ((if Nat.eqb i 0 then print "Waiting for motor to reach starting position..."
          else ret tt) ;;
         mv [(positioner (xmotor r), VNum (xstart r - delta))] ;;
         sleep 0.1 ;;
         x_dial <- readback ;;
         wait_for_start n' r delta x_set x_dial (S i))%plan
    end.
Proof. destruct n; reflexivity. Qed.

Lemma settles_next e r delta m k :
  settles e r delta m (S k) ->
  within r delta (user_readback e m) = false /\ settles e r delta (S m) k.
Proof.
  intros [Hk Hj]. split.
  - specialize (Hj 0%nat). rewrite Nat.add_0_r in Hj. apply Hj. lia.
  - split.
    + replace (S m + k)%nat with (m + S k)%nat by lia. exact Hk.
    + intros j Hlt. replace (S m + j)%nat with (m + S j)%nat by lia. apply Hj. lia.
Qed.

Lemma does_wait_for_start r delta k :
  forall n m i st,
    reads st = S m -> (k <= n)%nat -> settles (env c) r delta m k ->
    does (wait_for_start n r delta (xstart r - delta) (user_readback (env c) m) i) c st
      (k + i)%nat (waiting i k ++ polls_trace r delta k) k.
Proof.
  induction k as [|k IH]; intros n m i st Hr Hle Hs; rewrite wait_for_start_eq.
  - destruct Hs as [Hk _]. rewrite Nat.add_0_r in Hk. unfold within in Hk.
    rewrite Hk. unfold waiting. rewrite andb_false_r. apply does_ret.
  - apply settles_next in Hs. destruct Hs as [Hm Hs]. unfold within in Hm.
    rewrite Hm. destruct n as [|n]; [lia|].
    eapply does_conv.
    + eapply does_bind; [eapply does_if; [apply does_print | apply does_ret]|].
      intros. eapply does_bind; [apply does_mv|].
      intros. eapply does_bind; [apply does_sleep|].
      intros. eapply does_bind; [apply does_readback|].
      intros st4 S4 T4 R4. cbv beta.
      assert (R2 : reads st2 = S m) by (cbn [Nat.add] in *; congruence).
      rewrite R2. apply IH with (m := S m); [|lia|exact Hs].
      cbn [Nat.add] in *; congruence.
    + lia.
    + unfold waiting, poll_trace. cbn [polls_trace negb Nat.eqb andb].
      rewrite andb_true_r. unfold poll_trace.
      destruct (Nat.eqb i 0); cbn [app]; rewrite <- ?app_assoc; reflexivity.
    + lia.
Qed.

Lemma does_zebra_kickoff r dwell st :
  does (zebra_kickoff r dwell) c st tt (kickoff_trace r dwell) 0.
Proof.
  unfold zebra_kickoff, kickoff_wait.
  eapply does_conv; [exec | reflexivity | reflexivity | reflexivity].
Qed.

Lemma does_triggers r st :
  does (for_ (detectors r) (fun d =>
          trigger d (GName "row") ;;
          if String.eqb d "dexela" then sleep 1 else ret tt)%plan) c st tt
    (trigger_trace r) 0.
Proof.
  unfold trigger_trace. apply does_for. intros d st'.
  eapply does_conv.
  - eapply does_bind; [apply does_trigger|].
    intros. eapply does_if; [apply does_sleep | apply does_ret].
  - reflexivity.
  - reflexivity.
  - reflexivity.
Qed.

Ltac step :=
  first
    [ apply does_ret | apply does_ask | apply does_print | apply does_emit
    | apply does_mv | apply does_abs_set_wait | apply does_abs_set
    | apply does_sleep | apply does_wait | apply does_trigger
    | apply does_zebra_kickoff | apply does_triggers
    | apply does_move_to_start_fly | apply does_readback
    | (apply does_yield; [assumption | reflexivity]) ].

Ltac steps :=
  cbv beta zeta;
  lazymatch goal with
  | |- does (bind _ _) _ _ _ _ _ => eapply does_bind; [ steps | intros; steps ]
  | |- does (if _ then _ else _) _ _ _ _ _ => eapply does_if; steps
  | |- _ => first [ step | idtac ]
  end.

Lemma flat_map_singleton {X Y} (f : X -> Y) (l : list X) :
  flat_map (fun x => [f x]) l = map f l.
Proof. induction l; simpl; congruence. Qed.

Lemma retry_trace_eq r delta k :
  (waiting 0 k ++ polls_trace r delta k)
  ++ (if negb (Nat.eqb (k + 0) 0) then [EPrint "done"] else [])
  = retry_trace r delta k.
Proof.
  destruct k as [|k].
  - reflexivity.
  - unfold waiting, retry_trace. cbn [Nat.eqb Nat.add negb andb app].
    reflexivity.
Qed.

Lemma does_fly_each_step r dwell delta motor step st k :
  xnum r <> 1%Z -> ~ dwell == 0 ->
  (k <= patience (env c))%nat -> settles (env c) r delta (reads st) k ->
  does (fly_each_step r dwell delta motor step) c st tt
    (row_trace r (env c) dwell delta (speed r dwell) motor step k) (S k).
Proof.
  intros Hx Hd Hk Hs. unfold fly_each_step, stage_wrapper.
  eapply does_conv.
  - eapply does_finalize.
    + eapply does_bind.
      * apply does_for with (f := fun d => [EMsg (Mstage d)]). intros; steps.
      * intros. eapply does_bind; [apply does_move_to_start_fly|].
        intros. cbv zeta. eapply does_bind; [apply does_readback|].
        intros. eapply does_bind; [apply does_ask|].
        intros. eapply does_bind.
        { assert (R : reads st0 = reads st) by (cbn [Nat.add] in *; congruence).
          rewrite R. apply does_wait_for_start with (k := k); [|exact Hk|exact Hs].
          cbn [Nat.add] in *; congruence. }
        intros. eapply does_bind; [eapply does_if; [apply does_print | apply does_ret]|].
        intros. eapply does_bind; [apply does_stage_speed; assumption|].
        intros. steps.
    + intros. apply does_for with (f := fun d => [EMsg (Munstage d)]). intros; steps.
  - reflexivity.
  - rewrite !flat_map_singleton.
    unfold row_trace, before_kickoff, before_fly, fly_trace, after_collect,
      speed_trace, arm_trace, reset_trace.
    rewrite <- retry_trace_eq.
    norm_app. reflexivity.
  - cbn [Nat.add]. lia.
Qed.

Lemma does_get s st : does (get s) c st (pv st s) [] 0.
Proof. exists st. repeat split. Qed.

Lemma does_change_retry_deadband r st :
  does (change_retry_deadband r) c st
    (old_deadband (env c) r (hf_stage_x (env c)) RETRY_DEADBAND_X (pv st),
     old_deadband (env c) r (hf_stage_y (env c)) RETRY_DEADBAND_Y (pv st))
    (deadband_trace r (env c)) 0.
Proof.
  unfold change_retry_deadband, deadband_trace, old_deadband, does, bind, ask, get, put,
    ret, do_put.
  destruct (motor_in (hf_stage_x (env c)) (xmotor r) (ymotor r));
    destruct (motor_in (hf_stage_y (env c)) (xmotor r) (ymotor r));
    eexists; repeat split.
Qed.

Lemma does_assign_detectors r st :
  knows_detectors (env c) (detectors r) = true ->
  does (assign_detectors r) c st tt
    [ESetDetectors (flyer_name (flying_zebra r)) (detectors r)] 0.
Proof.
  intros Hk. unfold assign_detectors.
  eapply does_conv.
  - eapply does_bind; [apply does_ask|]. intros. cbv beta. rewrite Hk. apply does_emit.
  - reflexivity.
  - reflexivity.
  - reflexivity.
Qed.

Lemma does_setup_merlin r st :
  does (setup_merlin r) c st (scan_dwell r) (merlin_trace r) 0.
Proof.
  unfold setup_merlin, merlin_trace, scan_dwell.
  destruct (has_key "merlin" (dets_by_name r)); cbn [andb].
  - destruct (negb (Qle_bool 0.0066392 (dwell r)));
      (eapply does_conv; [steps | reflexivity | reflexivity | reflexivity]).
  - apply does_ret.
Qed.

Lemma does_setup_dexela r st :
  does (setup_dexela r (scan_dwell r)) c st tt (dexela_trace r) 0.
Proof.
  unfold setup_dexela, dexela_trace.
  destruct (has_key "dexela" (dets_by_name r)).
  - eapply does_conv; [steps | reflexivity | reflexivity | reflexivity].
  - apply does_ret.
Qed.

Lemma does_derive_delta r dwell st :
  xnum r <> 1%Z -> ~ dwell == 0 ->
  does (derive_delta r dwell) c st (scan_delta r dwell) [] 0.
Proof.
  intros Hx Hd. unfold derive_delta, scan_delta.
  destruct (delta r) as [d|].
  - apply does_ret.
  - eapply does_conv.
    + eapply does_bind; [apply does_stage_speed; assumption|].
      intros. cbv beta zeta. apply does_ret.
    + reflexivity.
    + reflexivity.
    + reflexivity.
Qed.

(** The rows, from a state that has taken [m] readings. *)
Lemma does_rows r dwell delta :
  xnum r <> 1%Z -> ~ dwell == 0 -> reaches_start (env c) r delta ->
  forall steps ystep m,
  exists ks n,
    List.length ks = List.length steps /\
    forall st, reads st = m ->
      does
        (for_acc steps ystep (fun ystep step =>
           abs_set (scanrecord "time_remaining")
             (VNum (inject_Z (ynum r - ystep) * (dwell * inject_Z (xnum r) + 3.8) / 3600))
             GNone ;;
           let ystep := (ystep + 1)%Z in
           for_ (detectors r) (fun d => mv [(Sig d "fly_next", VBool true)]) ;;
           fly_each_step r dwell delta (ymotor r) step ;;
           ret ystep)%plan)
        c st (ystep + Z.of_nat (List.length steps))%Z
        (rows_trace r (env c) dwell delta (speed r dwell) ystep steps ks) n.
Proof.
  intros Hx Hd Hreach. induction steps as [|step steps IH]; intros ystep m.
  - exists [], 0%nat. split; [reflexivity|]. intros st _.
    eapply does_conv; [apply does_ret | simpl; lia | reflexivity | reflexivity].
  - destruct (Hreach m) as (k & Hk & Hs).
    destruct (IH (ystep + 1)%Z (S k + m)%nat) as (ks & n & Hlen & Hrest).
    exists (k :: ks), (n + S k)%nat. split; [simpl; congruence|].
    intros st Hm. cbn [for_acc].
    eapply does_conv.
    + eapply does_bind.
      * eapply does_bind; [apply does_abs_set|].
        intros. cbv zeta. eapply does_bind.
        { apply does_for with (f := fun d => mv_trace [(Sig d "fly_next", VBool true)]).
          intros; apply does_mv. }
        intros. eapply does_bind.
        { apply does_fly_each_step with (k := k); try assumption.
          replace (reads st0) with m by (cbn [Nat.add] in *; congruence). exact Hs. }
        intros. apply does_ret.
      * intros. cbv beta. apply Hrest. cbn [Nat.add] in *. lia.
    + cbn [List.length]. lia.
    + cbn [rows_trace]. norm_app. rewrite ?app_nil_r. reflexivity.
    + cbn [Nat.add]. lia.
Qed.

End Calm.

(** ** The documents and the wrappers of the run *)

Lemma run_callback_events e cb st :
  exists st', run_callback e cb st = (st', callback_events e cb) /\ same_books st st'.
Proof.
  unfold same_books.
  destruct cb as [y x|shape I ext|md0 d n|xm ym ox oy]; simpl.
  - eexists; repeat split.
  - eexists; repeat split.
  - eexists; repeat split.
  - destruct (motor_in (hf_stage_x e) xm ym), ox as [vx|];
      destruct (motor_in (hf_stage_y e) xm ym), oy as [vy|];
      simpl; eexists; repeat split.
Qed.

Lemma dispatch_dispatch_events e doc l :
  forall st, exists st',
    dispatch e doc l st = (st', dispatch_events e doc l) /\ same_books st st'.
Proof.
  induction l as [|[[tok name] cb] l IH]; intros st; simpl.
  - exists st. unfold same_books. repeat split.
  - destruct (listens doc name).
    + destruct (run_callback_events e cb st) as (st1 & E1 & B1).
      destruct (IH st1) as (st2 & E2 & B2).
      exists st2. rewrite E1, E2. split; [reflexivity|].
      unfold same_books in *. intuition congruence.
    + apply IH.
Qed.

Lemma does_open_run md c st :
  calm (env c) ->
  does (open_run md) c st (run_uid (env c))
    (EMsg (Mopen_run md) :: dispatch_events (env c) doc_start (subs st)
     ++ map (fun s => EMsg (Mmonitor s)) (monitored c)) 0.
Proof.
  intros Hc. unfold open_run.
  eapply does_conv.
  - eapply does_bind.
    + unfold does, yield_. rewrite Hc. cbn [process].
      destruct (dispatch_dispatch_events (env c) doc_start (subs st) (count_msg st))
        as (st1 & E1 & S1 & T1 & R1 & _).
      change (subs (count_msg st)) with (subs st). rewrite E1.
      exists st1. split; [reflexivity|]. split; [exact S1|]. split; [exact T1|].
      exact (R1 : reads st1 = (0 + reads st)%nat).
    + intros. eapply does_bind.
      * apply does_for with (f := fun s => [EMsg (Mmonitor s)]).
        intros. apply does_yield; [assumption | reflexivity].
      * intros. eapply does_bind; [apply does_ask|]. intros. apply does_ret.
  - reflexivity.
  - rewrite flat_map_singleton. norm_app. rewrite app_nil_r. reflexivity.
  - reflexivity.
Qed.

Lemma does_close_run status c st :
  calm (env c) ->
  does (close_run status) c st tt
    (map (fun s => EMsg (Munmonitor s)) (monitored c)
     ++ EMsg (Mclose_run status) :: dispatch_events (env c) doc_stop (subs st)) 0.
Proof.
  intros Hc. unfold close_run.
  eapply does_conv.
  - eapply does_bind.
    + apply does_for with (f := fun s => [EMsg (Munmonitor s)]).
      intros. apply does_yield; [assumption | reflexivity].
    + intros st1 S1 T1 R1. unfold does, yield_. rewrite Hc. cbn [process].
      destruct (dispatch_dispatch_events (env c) doc_stop (subs st1) (count_msg st1))
        as (st2 & E2 & S2 & T2 & R2 & _).
      change (subs (count_msg st1)) with (subs st1). rewrite E2. rewrite S1.
      exists st2. split; [reflexivity|].
      split; [rewrite <- S1; exact S2|]. split; [exact T2|].
      exact (R2 : reads st2 = (0 + reads st1)%nat).
  - reflexivity.
  - rewrite flat_map_singleton. reflexivity.
  - reflexivity.
Qed.

Lemma does_run_wrapper {A} (body : Plan A) md c st a t n :
  calm (env c) ->
  (forall st1, subs st1 = subs st -> next_token st1 = next_token st ->
     reads st1 = reads st -> does body c st1 a t n) ->
  does (run_wrapper body md) c st (run_uid (env c))
    (EMsg (Mopen_run md) :: dispatch_events (env c) doc_start (subs st)
     ++ map (fun s => EMsg (Mmonitor s)) (monitored c)
     ++ t
     ++ map (fun s => EMsg (Munmonitor s)) (monitored c)
     ++ EMsg (Mclose_run success) :: dispatch_events (env c) doc_stop (subs st)) n.
Proof.
  intros Hc Hb. unfold run_wrapper.
  eapply does_conv.
  - eapply does_bind; [apply does_open_run; assumption|].
    intros st1 S1 T1 R1. eapply does_bind.
    + destruct (Hb st1 S1 T1 R1) as (st2 & E2 & S2 & T2 & R2).
      destruct (does_close_run success c st2 Hc) as (st3 & E3 & S3 & T3 & R3).
      rewrite S2, S1 in E3.
      exists st3. unfold contingency_wrapper. rewrite E2, E3.
      split; [reflexivity|]. repeat split; [congruence | congruence |].
      rewrite R3, R2. cbn [Nat.add]. reflexivity.
    + intros. apply does_ret.
  - reflexivity.
  - norm_app. rewrite app_nil_r.
    (* the subscriptions at the close are those at the open *)
    reflexivity.
  - cbn [Nat.add]. lia.
Qed.

Lemma yields_of_does {A} (p : Plan A) c st a t n : does p c st a t n -> yields p c st a t.
Proof. intros (st' & E & _). exists st'. exact E. Qed.

Lemma yields_bind {A B} (p : Plan A) (k : A -> Plan B) c st a b t1 t2 :
  yields p c st a t1 -> (forall st1, yields (k a) c st1 b t2) ->
  yields (bind p k) c st b (t1 ++ t2).
Proof.
  intros (st1 & E1) K. destruct (K st1) as (st2 & E2).
  exists st2. unfold bind. rewrite E1, E2. reflexivity.
Qed.

Lemma yields_bind_does {A B} (p : Plan A) (k : A -> Plan B) c st a b t1 t2 n :
  does p c st a t1 n ->
  (forall st1, subs st1 = subs st -> next_token st1 = next_token st ->
     reads st1 = (n + reads st)%nat -> yields (k a) c st1 b t2) ->
  yields (bind p k) c st b (t1 ++ t2).
Proof.
  intros (st1 & E1 & S1 & T1 & R1) K. destruct (K st1 S1 T1 R1) as (st2 & E2).
  exists st2. unfold bind. rewrite E1, E2. reflexivity.
Qed.

Lemma yields_finalize {A} (p : Plan A) (f : Plan unit) c st a t1 t2 :
  yields p c st a t1 -> (forall st1, yields f c st1 tt t2) ->
  yields (finalize_wrapper p f) c st a (t1 ++ t2).
Proof.
  intros (st1 & E1) K. destruct (K st1) as (st2 & E2).
  exists st2. unfold finalize_wrapper. rewrite E1, E2. reflexivity.
Qed.

Lemma yields_conv {A} (p : Plan A) c st a a' t t' :
  yields p c st a t -> a = a' -> t = t' -> yields p c st a' t'.
Proof. intros; subst; assumption. Qed.

Lemma yields_subs_wrapper {A} (p : Plan A) name func c st a t :
  calm (env c) ->
  (forall st1, subs st1 = subs st ++ [(next_token st, name, func)] ->
     next_token st1 = S (next_token st) -> reads st1 = reads st ->
     yields p c st1 a t) ->
  yields (subs_wrapper p name func) c st a
    (EMsg (Msubscribe name func) :: t ++ [EMsg (Munsubscribe (next_token st))]).
Proof.
  intros Hc Hp. unfold yields, subs_wrapper, subscribe.
  unfold yield_ at 1. cbv beta. rewrite Hc. cbn [process].
  match goal with
  | |- context [finalize_wrapper _ _ _ ?s] =>
      destruct (Hp s) as (st2 & E2); [reflexivity | reflexivity | reflexivity |]
  end.
  unfold finalize_wrapper. rewrite E2. unfold yield_. rewrite Hc. cbn [process].
  eexists. reflexivity.
Qed.

Lemma length_np_linspace start stop num :
  List.length (np_linspace start stop num) = Z.to_nat num.
Proof.
  unfold np_linspace. destruct (Z.to_nat num) as [|[|n]]; try reflexivity.
  rewrite length_app, length_map, length_seq. simpl. lia.
Qed.

Lemma does_plan_body r dwell delta xs c m :
  calm (env c) -> xnum r <> 1%Z -> ~ dwell == 0 -> reaches_start (env c) r delta ->
  exists ks n,
    List.length ks = Z.to_nat (ynum r) /\
    forall st, reads st = m ->
      does (plan_body r dwell delta xs) c st tt
        (body_trace r (env c) dwell delta (speed r dwell) xs ks) n.
Proof.
  intros Hc Hx Hd Hreach.
  destruct (does_rows c Hc r dwell delta Hx Hd Hreach
              (np_linspace (ystart r) (ystop r) (ynum r)) 0%Z m)
    as (ks & n & Hlen & Hrows).
  exists ks, n. split; [rewrite Hlen; apply length_np_linspace|].
  intros st Hm. unfold plan_body, body_trace.
  eapply does_conv.
  - eapply does_bind.
    + apply does_for with (f := fun d => mv_trace [(Sig d "total_points", VInt (xnum r))]).
      intros; apply does_mv; assumption.
    + intros. eapply does_bind; [apply does_mv; assumption|].
      intros. cbv zeta. eapply does_bind.
      * apply Hrows. cbn [Nat.add] in *. congruence.
      * intros. cbv beta. apply does_mv; assumption.
  - reflexivity.
  - norm_app. reflexivity.
  - cbn [Nat.add]. lia.
Qed.

(** What is known of a state, put into the goal. *)
Ltac known :=
  repeat match goal with
         | H : subs ?s = _ |- context [subs ?s] => rewrite H
         | H : next_token ?s = _ |- context [next_token ?s] => rewrite H
         | H : reads ?s = _ |- context [reads ?s] => rewrite H
         end;
  cbn [Nat.add].

Lemma valid_counts r :
  (1 <= xnum r)%Z -> (1 <= ynum r)%Z ->
  Z.ltb (xnum r) 1 || Z.ltb (ynum r) 1 = false.
Proof.
  intros Hx Hy. apply orb_false_iff. split; apply Z.ltb_ge; assumption.
Qed.

(** [plan] with its decorators, from a state with no subscriptions. *)
Lemma plan_runs r e dwell delta xs md ox oy st n ks :
  calm e -> subs st = [] ->
  (forall st0, reads st0 = reads st ->
     does (plan_body r dwell delta xs)
       {| env := e;
          monitored :=
            [Sig xs "channel1.rois.roi01.value"; Sig xs "array_counter"] ++ [] |}
       st0 tt (body_trace r e dwell delta (speed r dwell) xs ks) n) ->
  yields (plan r dwell delta xs md ox oy) {| env := e; monitored := [] |} st
    (run_uid e) (plan_trace r e dwell delta xs md ox oy (next_token st) ks).
Proof.
  intros Hc Ss Hbody.
  set (c := {| env := e; monitored := [] |}).
  set (c' := {| env := e;
                monitored := [Sig xs "channel1.rois.roi01.value";
                              Sig xs "array_counter"] ++ [] |}) in *.
  unfold plan.
  eapply yields_conv.
  - apply yields_subs_wrapper; [exact Hc|]. intros sa Sa Ta Ra.
    eapply yields_conv.
    + apply yields_subs_wrapper; [exact Hc|]. intros sb Sb Tb Rb.
      eapply yields_conv.
      * apply yields_subs_wrapper; [exact Hc|]. intros sc Sc Tc Rc.
        unfold monitor_during_wrapper. fold c'.
        eapply yields_of_does.
        unfold stage_wrapper.
        eapply does_conv.
        -- eapply does_finalize.
           ++ eapply does_bind.
              ** apply does_for with (f := fun d => [EMsg (Mstage d)]).
                 intros. apply does_yield; [exact Hc | reflexivity].
              ** intros sd Sd Td Rd.
                 pose proof (does_run_wrapper (plan_body r dwell delta xs) md
                               c' sd tt
                               (body_trace r e dwell delta (speed r dwell) xs ks)
                               n Hc) as Hrun.
                 rewrite Sd, Sc, Sb, Sa, Ss, Tb, Ta in Hrun.
                 apply Hrun. intros se Se Te Re. apply Hbody.
                 rewrite Re, Rd, Rc, Rb, Ra. reflexivity.
           ++ intros. apply does_for with (f := fun d => [EMsg (Munstage d)]).
              intros. apply does_yield; [exact Hc | reflexivity].
        -- reflexivity.
        -- reflexivity.
        -- reflexivity.
      * reflexivity.
      * rewrite Tb, Ta. reflexivity.
    + reflexivity.
    + rewrite Ta. reflexivity.
  - reflexivity.
  - unfold plan_trace. cbn [map flat_map fst snd rev app monitored env c'].
    norm_app. reflexivity.
Qed.

(** A scan in which nothing fails runs to its end, and its trace is
    [scan_trace]. *)
Lemma scan_runs r e st xs rest :
  calm e -> (1 <= xnum r)%Z -> (1 <= ynum r)%Z -> xnum r <> 1%Z ->
  ~ scan_dwell r == 0 -> knows_detectors e (detectors r) = true ->
  detectors r = xs :: rest ->
  reaches_start e r (scan_delta r (scan_dwell r)) -> subs st = [] ->
  exists ks, List.length ks = Z.to_nat (ynum r) /\
    yields (scan_and_fly_base r) {| env := e; monitored := [] |} st
      (Some (run_uid e)) (scan_trace r e (pv st) (next_token st) xs ks).
Proof.
  intros Hc Hx Hy Hx1 Hd Hk Hdet Hreach Hsubs.
  set (c := {| env := e; monitored := [] |}).
  destruct (does_plan_body r (scan_dwell r) (scan_delta r (scan_dwell r)) xs
              {| env := e;
                 monitored :=
                   [Sig xs "channel1.rois.roi01.value"; Sig xs "array_counter"] ++ [] |}
              (reads st) Hc Hx1 Hd Hreach) as (ks & n & Hlen & Hbody).
  exists ks. split; [exact Hlen|].
  unfold scan_and_fly_base. rewrite valid_counts by assumption.
  eapply yields_conv.
  - eapply yields_bind_does; [apply does_change_retry_deadband|].
    intros st1 S1 T1 R1. cbv beta iota.
    eapply yields_bind_does; [apply does_assign_detectors; exact Hk|].
    intros st2 S2 T2 R2. cbv beta.
    eapply yields_bind_does; [apply does_setup_merlin|].
    intros st3 S3 T3 R3. cbv beta.
    eapply yields_bind_does; [apply does_setup_dexela|].
    intros st4 S4 T4 R4. cbv beta.
    eapply yields_bind_does; [apply does_derive_delta; assumption|].
    intros st5 S5 T5 R5. cbv beta.
    eapply yields_bind_does; [apply (does_mv c Hc)|].
    intros st6 S6 T6 R6. cbv beta.
    eapply yields_bind_does.
    { eapply does_if; [apply does_yield; [exact Hc | reflexivity] | apply does_ret]. }
    intros st7 S7 T7 R7. cbv beta.
    eapply yields_bind_does; [apply does_ask|].
    intros st8 S8 T8 R8. cbv beta zeta.
    eapply yields_bind_does; [rewrite Hdet; apply does_ret|].
    intros st9 S9 T9 R9. cbv beta.
    eapply yields_bind_does; [apply (does_mv c Hc)|].
    intros st10 S10 T10 R10. cbv beta.
    eapply yields_bind_does.
    { eapply does_if; [apply (does_mv c Hc) | apply does_ret]. }
    intros st11 S11 T11 R11. cbv beta.
    assert (S' : subs st11 = []) by (known; reflexivity).
    assert (T' : next_token st11 = next_token st) by (known; reflexivity).
    assert (R' : reads st11 = reads st) by (known; reflexivity).
    eapply yields_bind.
    + (* the final plan *)
      pose proof (plan_runs r e (scan_dwell r) (scan_delta r (scan_dwell r)) xs
                    (scan_md r e (scan_dwell r) (scan_delta r (scan_dwell r)))
                    (old_deadband e r (hf_stage_x e) RETRY_DEADBAND_X (pv st))
                    (old_deadband e r (hf_stage_y e) RETRY_DEADBAND_Y (pv st))
                    st11 n ks Hc S') as Hplan.
      rewrite T' in Hplan.
      assert (Hp := Hplan (fun st0 H0 => Hbody st0 (eq_trans H0 R'))).
      instantiate (1 := _ ++ (if shutter r then mv_trace [(shut_b, VStr "Close")] else [])).
      destruct (shutter r).
      * apply yields_finalize; [exact Hp|].
        intros. eapply yields_of_does. apply (does_mv c Hc).
      * eapply yields_conv; [exact Hp | reflexivity |].
        symmetry. apply app_nil_r.
    + intros st12. cbv beta.
      eapply yields_bind.
      * instantiate (1 := if contains "hf_stage" (motor_name (xmotor r))
                          then [ECall "hf_stage.reset_stage_defaults"] else []).
        destruct (contains "hf_stage" (motor_name (xmotor r))).
        -- eexists. reflexivity.
        -- eexists. reflexivity.
      * intros. eexists. reflexivity.
  - reflexivity.
  - unfold scan_trace. cbv zeta. norm_app. rewrite ?app_nil_r. reflexivity.
Qed.

(** ** Reading traces *)

Lemma pick_app {X} (f : Event -> option X) t1 t2 :
  pick f (t1 ++ t2) = pick f t1 ++ pick f t2.
Proof. apply flat_map_app. Qed.

Lemma pick_cons {X} (f : Event -> option X) ev t :
  pick f (ev :: t) = match f ev with Some x => [x] | None => [] end ++ pick f t.
Proof. reflexivity. Qed.

Lemma pick_map_none {X Y} (f : Event -> option X) (g : Y -> Event) l :
  (forall y, f (g y) = None) -> pick f (map g l) = [].
Proof.
  intros H. induction l as [|y l IH]; [reflexivity|].
  cbn [map]. rewrite pick_cons, H, IH. reflexivity.
Qed.

Lemma pick_flat_map_none {X Y} (f : Event -> option X) (g : Y -> list Event) l :
  (forall y, pick f (g y) = []) -> pick f (flat_map g l) = [].
Proof.
  intros H. induction l as [|y l IH]; [reflexivity|].
  cbn [flat_map]. rewrite pick_app, H, IH. reflexivity.
Qed.

Lemma pick_if {X} (f : Event -> option X) (b : bool) t1 t2 :
  pick f (if b then t1 else t2) = if b then pick f t1 else pick f t2.
Proof. destruct b; reflexivity. Qed.

Lemma pick_polls {X} (f : Event -> option X) r delta k :
  pick f (poll_trace r delta) = [] -> pick f (polls_trace r delta k) = [].
Proof.
  intros H. induction k as [|k IH]; [reflexivity|].
  cbn [polls_trace]. rewrite pick_app, H, IH. reflexivity.
Qed.

Lemma pick_retry {X} (f : Event -> option X) r delta k :
  pick f (poll_trace r delta) = [] -> (forall s, f (EPrint s) = None) ->
  pick f (retry_trace r delta k) = [].
Proof.
  intros H Hp. destruct k as [|k]; [reflexivity|].
  unfold retry_trace. rewrite pick_cons, pick_app, pick_polls by exact H.
  rewrite pick_cons. rewrite !Hp. reflexivity.
Qed.

Lemma pick_callback_none {X} (f : Event -> option X) e cb :
  (forall s v, f (EPut s v) = None) -> (forall s, f (ECall s) = None) ->
  pick f (callback_events e cb) = [].
Proof.
  intros Hp Hc. destruct cb as [y x|shape I ext|md0 d n|xm ym ox oy]; cbn [callback_events].
  - reflexivity.
  - reflexivity.
  - rewrite !pick_cons, !Hp. reflexivity.
  - rewrite !pick_app, !pick_cons, !Hp, Hc.
    destruct (motor_in (hf_stage_x e) xm ym), ox;
      destruct (motor_in (hf_stage_y e) xm ym), oy;
      rewrite ?pick_cons, ?Hp; reflexivity.
Qed.

Lemma pick_dispatch_none {X} (f : Event -> option X) e doc l :
  (forall s v, f (EPut s v) = None) -> (forall s, f (ECall s) = None) ->
  pick f (dispatch_events e doc l) = [].
Proof.
  intros Hp Hc. induction l as [|[[tok name] cb] l IH]; [reflexivity|].
  cbn [dispatch_events]. destruct (listens doc name); [|exact IH].
  rewrite pick_app, IH, pick_callback_none by assumption. reflexivity.
Qed.

(** Pieces of a row that have nothing of what is picked. *)
Ltac no_pick :=
  repeat first
    [ rewrite pick_app
    | rewrite pick_map_none by (intros; reflexivity)
    | rewrite pick_flat_map_none by (intros; repeat (destruct (String.eqb _ _)); reflexivity)
    | rewrite pick_retry by (intros; reflexivity)
    | rewrite pick_dispatch_none by (intros; reflexivity) ];
  repeat match goal with
         | |- context [if ?b then _ else _] => destruct b
         end;
  try reflexivity.

Lemma pick_row_fly_step r e dwell delta v motor step k :
  pick fly_step (row_trace r e dwell delta v motor step k)
  = SetSpeed (motor_name (xmotor r)) (VNum v)
    :: Kickoff (flyer_name (flying_zebra r)) dwell :: reset_speeds r.
Proof.
  unfold row_trace, before_kickoff, before_fly, after_collect, speed_trace, arm_trace,
    reset_trace, trigger_trace, reset_speeds.
  no_pick.
Qed.

Lemma pick_rows {X} (f : Event -> option X) r e dwell delta v (rowf : Q -> list X) :
  (forall y, f (EMsg (Mset (scanrecord "time_remaining") y GNone)) = None) ->
  (forall d, pick f (mv_trace [(Sig d "fly_next", VBool true)]) = []) ->
  (forall step k, pick f (row_trace r e dwell delta v (ymotor r) step k) = rowf step) ->
  forall steps ks ystep,
    List.length ks = List.length steps ->
    pick f (rows_trace r e dwell delta v ystep steps ks) = flat_map rowf steps.
Proof.
  intros Ht Hn Hrow. induction steps as [|step steps IH]; intros ks ystep Hlen.
  - destruct ks; reflexivity.
  - destruct ks as [|k ks]; [discriminate|].
    cbn [rows_trace flat_map]. rewrite !pick_app.
    rewrite pick_cons, Ht. rewrite pick_flat_map_none by exact Hn.
    rewrite Hrow. rewrite (IH ks) by (simpl in Hlen; lia). reflexivity.
Qed.

(** The pieces of a trace that have nothing of what is picked are dropped. *)
Ltac drop_pieces :=
  repeat match goal with
         | |- context [pick ?f ?t] =>
             let T := type of (pick f t) in
             lazymatch T with
             | list ?X =>
                 replace (pick f t) with (@nil X)
                   by (symmetry;
                       unfold deadband_trace, merlin_trace, dexela_trace, livepopup;
                       solve [no_pick])
             end
         end;
  cbn [app]; rewrite ?app_nil_r.

(** Whatever is picked, the scan has it in its rows if the rest has none. *)
Ltac pick_scan rowlemma :=
  unfold scan_trace, plan_trace, body_trace; cbv zeta;
  rewrite !pick_app;
  erewrite pick_rows;
  [ | intros; reflexivity | intros; reflexivity | intros; apply rowlemma
    | rewrite length_np_linspace; assumption ];
  drop_pieces.

Lemma flat_map_const {X Y} (l : list X) (c : list Y) :
  flat_map (fun _ => c) l = List.concat (repeat c (List.length l)).
Proof. induction l; simpl; congruence. Qed.

Lemma pick_scan_fly_step r e pv0 token xs ks :
  List.length ks = Z.to_nat (ynum r) ->
  pick fly_step (scan_trace r e pv0 token xs ks)
  = List.concat (repeat
      (SetSpeed (motor_name (xmotor r)) (VNum (speed r (scan_dwell r)))
       :: Kickoff (flyer_name (flying_zebra r)) (scan_dwell r) :: reset_speeds r)
      (Z.to_nat (ynum r))).
Proof.
  intros Hlen.
  rewrite <- (length_np_linspace (ystart r) (ystop r) (ynum r)).
  rewrite <- flat_map_const.
  pick_scan pick_row_fly_step.
  reflexivity.
Qed.

(** ** Runs that end with an exception *)

Lemma raises_bind {A B} (p : Plan A) (k : A -> Plan B) c st e t :
  raises p c st e t -> raises (bind p k) c st e t.
Proof. intros (st' & E). exists st'. unfold bind. rewrite E. reflexivity. Qed.

Lemma raises_bind_does {A B} (p : Plan A) (k : A -> Plan B) c st a e t1 t2 n :
  does p c st a t1 n ->
  (forall st1, raises (k a) c st1 e t2) ->
  raises (bind p k) c st e (t1 ++ t2).
Proof.
  intros (st1 & E1 & _) K. destruct (K st1) as (st2 & E2).
  exists st2. unfold bind. rewrite E1, E2. reflexivity.
Qed.

(** ** The stage speed and the pre-roll distance *)

Lemma stage_speed_value r d c st :
  xnum r <> 1%Z -> ~ d == 0 -> stage_speed r d c st = (Ret (speed r d), st, []).
Proof.
  intros Hx Hd. unfold stage_speed, speed, bind, py_div.
  destruct (Qeq_bool (inject_Z (xnum r - 1)) 0) eqn:E1.
  - apply Qeq_bool_eq in E1. apply inject_Z_pred_nonzero in E1; [contradiction|assumption].
  - unfold ret. destruct (Qeq_bool d 0) eqn:E2.
    + apply Qeq_bool_eq in E2. contradiction.
    + reflexivity.
Qed.

Lemma derive_delta_value r d c st :
  delta r = None -> xnum r <> 1%Z -> ~ d == 0 ->
  derive_delta r d c st = (Ret (scan_delta r d), st, []).
Proof.
  intros H0 Hx Hd. unfold derive_delta, scan_delta. rewrite H0.
  unfold bind. rewrite stage_speed_value by assumption. reflexivity.
Qed.

(** ** Scans in which nothing fails *)

Lemma smooth_scan r e st :
  smooth e r -> subs st = [] ->
  exists xs ks st',
    hd_error (detectors r) = Some xs /\
    List.length ks = Z.to_nat (ynum r) /\
    run (scan_and_fly_base r) e st
    = (Ret (Some (run_uid e)), st', scan_trace r e (pv st) (next_token st) xs ks).
Proof.
  intros (Hc & Hx & Hy & Hd & Hk & Hne & Hreach) Hs.
  destruct (detectors r) as [|xs rest] eqn:Hdet; [exfalso; apply Hne; reflexivity|].
  destruct (scan_runs r e st xs rest) as (ks & Hlen & st' & E);
    try assumption; try lia; [rewrite Hdet; exact Hk|].
  exists xs, ks, st'. repeat split; assumption.
Qed.

Lemma speeds_at_kickoff_rows dev v z dw (resets : list FlyStep) n :
  (forall cur l, exists cur', speeds_at_kickoff cur (resets ++ l) = speeds_at_kickoff cur' l) ->
  forall cur,
    speeds_at_kickoff cur
      (List.concat (repeat (SetSpeed dev v :: Kickoff z dw :: resets) n))
    = repeat (Some v) n.
Proof.
  intros Hr. induction n as [|n IH]; intros cur; [reflexivity|].
  cbn [repeat List.concat app speeds_at_kickoff].
  destruct (Hr (Some v) (List.concat (repeat (SetSpeed dev v :: Kickoff z dw :: resets) n)))
    as (cur' & E).
  rewrite E, IH. reflexivity.
Qed.

Lemma reset_speeds_pass r cur l :
  exists cur', speeds_at_kickoff cur (reset_speeds r ++ l) = speeds_at_kickoff cur' l.
Proof.
  unfold reset_speeds.
  destruct (contains "e_tomo" (motor_name (xmotor r))); eexists; reflexivity.
Qed.

Lemma fly_speeds_scan r e pv0 token xs ks :
  List.length ks = Z.to_nat (ynum r) ->
  fly_speeds (scan_trace r e pv0 token xs ks)
  = repeat (Some (VNum (speed r (scan_dwell r)))) (Z.to_nat (ynum r)).
Proof.
  intros Hlen. unfold fly_speeds. rewrite pick_scan_fly_step by exact Hlen.
  apply speeds_at_kickoff_rows. intros; apply reset_speeds_pass.
Qed.



Lemma pick_row_slow_step r e dwell delta v motor step k :
  pick slow_step (row_trace r e dwell delta v motor step k)
  = [(positioner motor, VNum step)].
Proof.
  unfold row_trace, before_kickoff, before_fly, after_collect, speed_trace, arm_trace,
    reset_trace, trigger_trace.
  no_pick.
Qed.

Lemma pick_scan_slow_step r e pv0 token xs ks :
  List.length ks = Z.to_nat (ynum r) ->
  pick slow_step (scan_trace r e pv0 token xs ks)
  = map (fun y => (positioner (ymotor r), VNum y))
      (np_linspace (ystart r) (ystop r) (ynum r)).
Proof.
  intros Hlen.
  rewrite <- flat_map_singleton.
  pick_scan pick_row_slow_step.
  reflexivity.
Qed.

Lemma flat_map_empty {X Y} (l : list X) : flat_map (fun _ : X => @nil Y) l = [].
Proof. induction l; simpl; congruence. Qed.



Lemma pick_row_open_delta r e dwell delta v motor step k :
  pick open_delta (row_trace r e dwell delta v motor step k) = [].
Proof.
  unfold row_trace, before_kickoff, before_fly, after_collect, speed_trace, arm_trace,
    reset_trace, trigger_trace.
  no_pick.
Qed.

Lemma pick_scan_open_delta r e pv0 token xs ks :
  List.length ks = Z.to_nat (ynum r) ->
  pick open_delta (scan_trace r e pv0 token xs ks) = [scan_delta r (scan_dwell r)].
Proof.
  intros Hlen.
  pick_scan pick_row_open_delta.
  rewrite flat_map_empty. reflexivity.
Qed.

(** ** [np.linspace] *)

Lemma nth_map_seq {X} (f : nat -> X) (d : X) n :
  forall a i, (i < n)%nat -> nth i (map f (seq a n)) d = f (a + i)%nat.
Proof.
  induction n as [|n IH]; intros a i Hi; [lia|].
  destruct i as [|i]; cbn [seq map nth].
  - rewrite Nat.add_0_r. reflexivity.
  - rewrite IH by lia. f_equal. lia.
Qed.

Lemma np_linspace_nth start stop num i :
  (i < Z.to_nat num)%nat ->
  nth i (np_linspace start stop num) 0
  == start + inject_Z (Z.of_nat i) * ((stop - start) / inject_Z (num - 1)).
Proof.
  intros Hi. unfold np_linspace.
  destruct (Z.to_nat num) as [|[|n]] eqn:E; [lia| |].
  - assert (i = 0%nat) by lia. subst i. simpl. ring.
  - assert (Hn : (num - 1 = Z.of_nat (S n))%Z) by lia.
    rewrite Hn.
    assert (Hz : ~ inject_Z (Z.of_nat (S n)) == 0).
    { unfold Qeq. simpl. lia. }
    destruct (Nat.eq_dec i (S n)) as [->|Hne].
    + rewrite app_nth2; rewrite length_map, length_seq; [|lia].
      rewrite Nat.sub_diag. cbn [nth]. field. exact Hz.
    + rewrite app_nth1 by (rewrite length_map, length_seq; lia).
      rewrite nth_map_seq by lia. cbn [Nat.add]. ring.
Qed.

Lemma np_linspace_last start stop num :
  (2 <= num)%Z -> last (np_linspace start stop num) 0 = stop.
Proof.
  intros H. unfold np_linspace.
  destruct (Z.to_nat num) as [|[|n]] eqn:E; [lia|lia|].
  apply last_last.
Qed.

(** ** The start-position loop without an end *)

Lemma spins_bind {A B} (p : Plan A) (k : A -> Plan B) c st t :
  spins p c st t -> spins (bind p k) c st t.
Proof. intros (st' & E). exists st'. unfold bind. rewrite E. reflexivity. Qed.

Lemma spins_bind_does {A B} (p : Plan A) (k : A -> Plan B) c st a t1 t2 n :
  does p c st a t1 n ->
  (forall st1, subs st1 = subs st -> next_token st1 = next_token st ->
     reads st1 = (n + reads st)%nat -> spins (k a) c st1 t2) ->
  spins (bind p k) c st (t1 ++ t2).
Proof.
  intros (st1 & E1 & S1 & T1 & R1) K. destruct (K st1 S1 T1 R1) as (st2 & E2).
  exists st2. unfold bind. rewrite E1, E2. reflexivity.
Qed.

Lemma spins_finalize {A} (p : Plan A) (f : Plan unit) c st t :
  spins p c st t -> spins (finalize_wrapper p f) c st t.
Proof. intros (st' & E). exists st'. unfold finalize_wrapper. rewrite E. reflexivity. Qed.

Lemma wait_for_start_spins r delta c :
  calm (env c) ->
  forall n m i st,
    reads st = S m ->
    (forall k, within r delta (user_readback (env c) (m + k)) = false) ->
    spins (wait_for_start n r delta (xstart r - delta) (user_readback (env c) m) i) c st
      (waiting i n ++ polls_trace r delta n).
Proof.
  intros Hc. induction n as [|n IH]; intros m i st Hr Hnever; rewrite wait_for_start_eq.
  - pose proof (Hnever 0%nat) as H0. rewrite Nat.add_0_r in H0. unfold within in H0.
    rewrite H0. unfold waiting. rewrite andb_false_r. exists st. reflexivity.
  - pose proof (Hnever 0%nat) as H0. rewrite Nat.add_0_r in H0. unfold within in H0.
    rewrite H0.
    assert (G : spins
      ((if Nat.eqb i 0 then print "Waiting for motor to reach starting position..."
        else ret tt) ;;
       mv [(positioner (xmotor r), VNum (xstart r - delta))] ;;
       sleep 0.1 ;;
       x_dial <- readback ;;
       wait_for_start n r delta (xstart r - delta) x_dial (S i))%plan c st
      ((if Nat.eqb i 0 then [EPrint "Waiting for motor to reach starting position..."]
        else [])
       ++ mv_trace [(positioner (xmotor r), VNum (xstart r - delta))]
       ++ [EMsg (Msleep 0.1)] ++ [] ++ (waiting (S i) n ++ polls_trace r delta n))).
    { eapply spins_bind_does; [eapply does_if; [apply does_print | apply does_ret]|].
      intros s1 S1 T1 R1. eapply spins_bind_does; [apply does_mv; exact Hc|].
      intros s2 S2 T2 R2. eapply spins_bind_does; [apply does_sleep; exact Hc|].
      intros s3 S3 T3 R3. eapply spins_bind_does; [apply does_readback|].
      intros s4 S4 T4 R4. cbv beta.
      assert (R : reads s3 = S m) by (cbn [Nat.add] in *; congruence).
      rewrite R. apply IH.
      - cbn [Nat.add] in *. congruence.
      - intros k. replace (S m + k)%nat with (m + S k)%nat by lia. apply Hnever. }
    destruct G as (st' & E). exists st'. rewrite E. f_equal.
    unfold waiting, poll_trace. cbn [polls_trace negb Nat.eqb andb].
    rewrite andb_true_r. unfold poll_trace.
    destruct (Nat.eqb i 0); cbn [app]; rewrite <- ?app_assoc; reflexivity.
Qed.

Lemma fly_each_step_spins r dwell delta motor step c st :
  calm (env c) ->
  (forall k, within r delta (user_readback (env c) (reads st + k)) = false) ->
  spins (fly_each_step r dwell delta motor step) c st
    (map (fun d => EMsg (Mstage d)) (detectors r)
     ++ move_to_start_trace r delta motor step
     ++ waiting 0 (patience (env c)) ++ polls_trace r delta (patience (env c))).
Proof.
  intros Hc Hnever. unfold fly_each_step, stage_wrapper.
  apply spins_finalize.
  rewrite <- flat_map_singleton.
  eapply spins_bind_does.
  { apply does_for with (f := fun d => [EMsg (Mstage d)]).
    intros. apply does_yield; [exact Hc | reflexivity]. }
  intros s1 S1 T1 R1.
  eapply spins_bind_does; [apply does_move_to_start_fly; exact Hc|].
  intros s2 S2 T2 R2. cbv zeta.
  change (waiting 0 (patience (env c)) ++ polls_trace r delta (patience (env c)))
    with ([] ++ [] ++ (waiting 0 (patience (env c))
                       ++ polls_trace r delta (patience (env c)))).
  eapply spins_bind_does; [apply does_readback|].
  intros s3 S3 T3 R3.
  eapply spins_bind_does; [apply does_ask|].
  intros s4 S4 T4 R4.
  apply spins_bind.
  assert (R : reads s2 = reads st) by (cbn [Nat.add] in *; congruence).
  rewrite R. apply wait_for_start_spins.
  - exact Hc.
  - cbn [Nat.add] in *. congruence.
  - exact Hnever.
Qed.

(** ** The counts of the detectors and their waits *)

Lemma unwaited_app t1 : forall pending t2,
  unwaited pending (t1 ++ t2) = unwaited (unwaited pending t1) t2.
Proof.
  induction t1 as [|ev t1 IH]; intros pending t2; [reflexivity|].
  destruct ev as [m| | | | |]; cbn [app unwaited]; try apply IH.
  destruct m; try apply IH.
  destruct obj as [d a]. destruct (is_count a); apply IH.
Qed.

Lemma unwaited_none t :
  pick count_set t = [] -> unwaited [] t = [].
Proof.
  induction t as [|ev t IH]; intros H; [reflexivity|].
  rewrite pick_cons in H.
  destruct ev as [m| | | | |]; cbn [unwaited]; try (apply IH; exact H).
  destruct m; try (apply IH; exact H).
  cbn [count_set] in H. destruct obj as [d a]. destruct (is_count a).
  - discriminate H.
  - apply IH. exact H.
Qed.

Lemma unwaited_before_kickoff r e delta v motor step k :
  unwaited [] (before_kickoff r e delta v motor step k) = [].
Proof.
  unfold before_kickoff. rewrite !unwaited_app.
  rewrite (unwaited_none (map _ _)) by no_pick.
  rewrite (unwaited_none (move_to_start_trace _ _ _ _)) by no_pick.
  rewrite (unwaited_none (retry_trace _ _ _)) by no_pick.
  rewrite (unwaited_none (speed_trace _ _ _)) by (unfold speed_trace; no_pick).
  unfold arm_trace.
  destruct (has_key "xs" (dets_by_name r)); destruct (has_key "xs2" (dets_by_name r));
    destruct (has_key "merlin" (dets_by_name r));
    destruct (has_key "dexela" (dets_by_name r)); reflexivity.
Qed.

(** ** Plans that leave the deadbands and the subscriptions alone *)

Lemma Quiet_Tame {A} P (p : Plan A) : Quiet P p -> Tame P p.
Proof. intros H c st o st' t E. apply (H c st o st' t E). Qed.

Lemma Quiet_ret {A} P (a : A) : Quiet P (ret a).
Proof. intros c st o st' t E. inversion E; subst. split; [constructor | reflexivity]. Qed.

Lemma Quiet_raise {A} P e : Quiet P (@raise A e).
Proof. intros c st o st' t E. inversion E; subst. split; [constructor | reflexivity]. Qed.

Lemma Quiet_spin {A} P : Quiet P (@spin A).
Proof. intros c st o st' t E. inversion E; subst. split; [constructor | reflexivity]. Qed.

Lemma Quiet_ask P : Quiet P ask.
Proof. intros c st o st' t E. inversion E; subst. split; [constructor | reflexivity]. Qed.

Lemma Quiet_readback P : Quiet P readback.
Proof. intros c st o st' t E. inversion E; subst. split; [constructor | reflexivity]. Qed.

Lemma Quiet_emit (P : Event -> Prop) ev : P ev -> Quiet P (emit ev).
Proof.
  intros H c st o st' t E. inversion E; subst. split; [repeat constructor; exact H | reflexivity].
Qed.

Lemma Quiet_print (P : Event -> Prop) s : P (EPrint s) -> Quiet P (print s).
Proof. apply Quiet_emit. Qed.

Lemma Quiet_yield (P : Event -> Prop) m :
  plain m = true -> P (EMsg m) -> Quiet P (yield_ m).
Proof.
  intros Hp H c st o st' t E. unfold yield_ in E.
  destruct (fault (env c) (nmsgs st) m).
  - inversion E; subst. split; [repeat constructor; exact H | reflexivity].
  - destruct m; try discriminate Hp; cbn [process] in E; inversion E; subst;
      (split; [repeat constructor; exact H | reflexivity]).
Qed.

Lemma Quiet_bind_val {A B} P (p : Plan A) (k : A -> Plan B) :
  Quiet P p ->
  (forall a, (exists c st st1 t1, p c st = (Ret a, st1, t1)) -> Quiet P (k a)) ->
  Quiet P (bind p k).
Proof.
  intros Hp Hk c st o st' t E. unfold bind in E.
  destruct (p c st) as [[o1 st1] t1] eqn:E1.
  destruct (Hp _ _ _ _ _ E1) as [F1 S1].
  destruct o1 as [a|e|].
  - destruct (k a c st1) as [[o2 st2] t2] eqn:E2. inversion E; subst.
    assert (Hq : Quiet P (k a)) by (apply Hk; exists c, st, st1, t1; exact E1).
    destruct (Hq _ _ _ _ _ E2) as [F2 S2].
    split; [apply Forall_app; split; assumption | congruence].
  - inversion E; subst. split; assumption.
  - inversion E; subst. split; assumption.
Qed.

Lemma Quiet_bind {A B} P (p : Plan A) (k : A -> Plan B) :
  Quiet P p -> (forall a, Quiet P (k a)) -> Quiet P (bind p k).
Proof. intros Hp Hk. apply Quiet_bind_val; [exact Hp | intros a _; apply Hk]. Qed.

Lemma Quiet_if {A} P (b : bool) (p q : Plan A) :
  Quiet P p -> Quiet P q -> Quiet P (if b then p else q).
Proof. destruct b; auto. Qed.

Lemma Quiet_for {X} P (l : list X) (body : X -> Plan unit) :
  (forall x, Quiet P (body x)) -> Quiet P (for_ l body).
Proof.
  intros Hb. induction l as [|x l IH]; cbn [for_].
  - apply Quiet_ret.
  - apply Quiet_bind; [apply Hb | intros _; exact IH].
Qed.

Lemma Quiet_for_acc {X T} P (l : list X) (body : T -> X -> Plan T) :
  (forall a x, Quiet P (body a x)) -> forall a, Quiet P (for_acc l a body).
Proof.
  intros Hb. induction l as [|x l IH]; intros a; cbn [for_acc].
  - apply Quiet_ret.
  - apply Quiet_bind; [apply Hb | intros a'; apply IH].
Qed.

Lemma Quiet_finalize {A} P (p : Plan A) (f : Plan unit) :
  Quiet P p -> Quiet P f -> Quiet P (finalize_wrapper p f).
Proof.
  intros Hp Hf c st o st' t E. unfold finalize_wrapper in E.
  destruct (p c st) as [[o1 st1] t1] eqn:E1.
  destruct (Hp _ _ _ _ _ E1) as [F1 S1].
  destruct o1 as [a|e|].
  - destruct (f c st1) as [[o2 st2] t2] eqn:E2.
    destruct (Hf _ _ _ _ _ E2) as [F2 S2].
    destruct o2; inversion E; subst;
      (split; [apply Forall_app; split; assumption | congruence]).
  - destruct (f c st1) as [[o2 st2] t2] eqn:E2.
    destruct (Hf _ _ _ _ _ E2) as [F2 S2].
    destruct o2; inversion E; subst;
      (split; [apply Forall_app; split; assumption | congruence]).
  - inversion E; subst. split; assumption.
Qed.

(** An event that writes no deadband and opens no run, and writes [v] if it
    writes a backlash speed. *)
Ltac tame_ev :=
  split; [ reflexivity
         | split; [ reflexivity
                  | let w := fresh "w" in
                    let Hw := fresh "Hw" in
                    intros w Hw;
                    first [ discriminate Hw
                          | (injection Hw as <-; reflexivity) ] ] ].

Ltac quiet :=
  cbv beta zeta;
  lazymatch goal with
  | |- Quiet _ (bind _ _) => apply Quiet_bind; [ quiet | intros; quiet ]
  | |- Quiet _ (ret _) => apply Quiet_ret
  | |- Quiet _ (raise _) => apply Quiet_raise
  | |- Quiet _ ask => apply Quiet_ask
  | |- Quiet _ readback => apply Quiet_readback
  | |- Quiet _ (if _ then _ else _) => apply Quiet_if; quiet
  | |- Quiet _ (match ?l with [] => _ | _ :: _ => _ end) => destruct l; quiet
  | |- Quiet _ (yield_ _) => apply Quiet_yield; [ reflexivity | tame_ev ]
  | |- Quiet _ (emit _) => apply Quiet_emit; tame_ev
  | |- Quiet _ (print _) => apply Quiet_print; tame_ev
  | |- Quiet _ (mv _) => unfold mv; cbn [for_ fst snd]; quiet
  | |- Quiet _ (abs_set _ _ _) => unfold abs_set; quiet
  | |- Quiet _ (abs_set_wait _ _) => unfold abs_set_wait; quiet
  | |- Quiet _ (sleep _) => unfold sleep; quiet
  | |- Quiet _ (wait _) => unfold wait; quiet
  | |- Quiet _ (trigger _ _) => unfold trigger; quiet
  | |- Quiet _ (for_ _ _) => apply Quiet_for; intros; quiet
  | |- Quiet _ (finalize_wrapper _ _) => apply Quiet_finalize; quiet
  | |- _ => idtac
  end.

Lemma stage_speed_ret r d c st a st1 t1 :
  stage_speed r d c st = (Ret a, st1, t1) -> a = speed r d.
Proof.
  unfold stage_speed, speed, bind, py_div, raise, ret. intros E.
  destruct (Qeq_bool (inject_Z (xnum r - 1)) 0); [discriminate E|].
  destruct (Qeq_bool d 0); [discriminate E|].
  inversion E. reflexivity.
Qed.

Lemma Quiet_stage_speed P r d : Quiet P (stage_speed r d).
Proof.
  unfold stage_speed, py_div.
  apply Quiet_bind.
  - destruct (Qeq_bool (inject_Z (xnum r - 1)) 0); [apply Quiet_raise | apply Quiet_ret].
  - intros q. destruct (Qeq_bool d 0); [apply Quiet_raise | apply Quiet_ret].
Qed.

Lemma Quiet_wait_for_start v n r delta x_set :
  forall x_dial i, Quiet (tame v) (wait_for_start n r delta x_set x_dial i).
Proof.
  induction n as [|n IH]; intros x_dial i; rewrite wait_for_start_eq;
    destruct (Qle_bool (Qabs (x_set - x_dial)) (DEADBAND r)).
  - apply Quiet_ret.
  - apply Quiet_spin.
  - apply Quiet_ret.
  - apply Quiet_bind; [quiet|]. intros _.
    apply Quiet_bind; [quiet|]. intros _.
    apply Quiet_bind; [quiet|]. intros _.
    apply Quiet_bind; [quiet|]. intros x. apply IH.
Qed.

Lemma Quiet_fly_each_step r dwell delta motor step :
  Quiet (tame (speed r dwell)) (fly_each_step r dwell delta motor step).
Proof.
  unfold fly_each_step, stage_wrapper, move_to_start_fly, one_1d_step, trigger_and_read,
    zebra_kickoff, zebra_complete, zebra_collect, kickoff_wait, complete, collect.
  apply Quiet_finalize; [|quiet].
  apply Quiet_bind; [quiet|]. intros _.
  apply Quiet_bind; [cbn [for_ app]; quiet|]. intros _. cbv zeta.
  apply Quiet_bind; [quiet|]. intros x_dial.
  apply Quiet_bind; [quiet|]. intros e.
  apply Quiet_bind; [apply Quiet_wait_for_start|]. intros i.
  apply Quiet_bind; [quiet|]. intros _.
  apply Quiet_bind_val; [apply Quiet_stage_speed|].
  intros v (c0 & s0 & s1 & t1 & Ev). apply stage_speed_ret in Ev. subst v.
  quiet.
Qed.

Lemma Quiet_plan_body r dwell delta xs :
  Quiet (tame (speed r dwell)) (plan_body r dwell delta xs).
Proof.
  unfold plan_body.
  apply Quiet_bind; [quiet|]. intros _.
  apply Quiet_bind; [quiet|]. intros _. cbv zeta.
  apply Quiet_bind; [|intros; quiet].
  apply Quiet_for_acc. intros ystep step.
  apply Quiet_bind; [quiet|]. intros _. cbv zeta.
  apply Quiet_bind; [quiet|]. intros _.
  apply Quiet_bind; [apply Quiet_fly_each_step|]. intros _.
  apply Quiet_ret.
Qed.

(** ** What a trace has of runs opened and deadbands written *)

Lemma sums_nil v : sums [] [] v [].
Proof. repeat split. constructor. Qed.

Lemma sums_app O1 O2 W1 W2 v t1 t2 :
  sums O1 W1 v t1 -> sums O2 W2 v t2 -> sums (O1 ++ O2) (W1 ++ W2) v (t1 ++ t2).
Proof.
  intros (H1 & H2 & H3) (K1 & K2 & K3). unfold sums. rewrite !pick_app.
  repeat split; [congruence | congruence | apply Forall_app; split; assumption].
Qed.

Lemma sums_tame v t : Forall (tame v) t -> sums [] [] v t.
Proof.
  induction 1 as [|ev t (H1 & H2 & H3) _ IH]; [apply sums_nil|].
  destruct IH as (I1 & I2 & I3). unfold sums. rewrite !pick_cons, H1, H2, I1, I2.
  repeat split. constructor; assumption.
Qed.

Lemma good_app_tame {A} W v (o : Outcome A) t1 t2 :
  Forall (tame v) t1 -> good W v o t2 -> good W v o (t1 ++ t2).
Proof.
  intros H1 [H|[H|(md & H)]].
  - left. exact H.
  - right. left. apply (sums_app [] [] [] []); [apply sums_tame; exact H1 | exact H].
  - right. right. exists md.
    apply (sums_app [] [md] [] W); [apply sums_tame; exact H1 | exact H].
Qed.

Lemma good_tame_app {A B} W v (o : Outcome A) (o' : Outcome B) t1 t2 :
  o <> Spin -> good W v o t1 -> Forall (tame v) t2 -> good W v o' (t1 ++ t2).
Proof.
  intros Ho [H|[H|(md & H)]] H2.
  - contradiction.
  - right. left. exact (sums_app [] [] [] [] v t1 t2 H (sums_tame v t2 H2)).
  - right. right. exists md.
    pose proof (sums_app [md] [] W [] v t1 t2 H (sums_tame v t2 H2)) as K.
    rewrite (app_nil_r W) in K. exact K.
Qed.

Lemma good_bind_quiet {A B} W v (p : Plan A) (k : A -> Plan B) c st o st' t :
  bind p k c st = (o, st', t) -> Quiet (tame v) p ->
  (forall a st1 t1 o2 st2 t2,
     p c st = (Ret a, st1, t1) -> subs st1 = subs st ->
     k a c st1 = (o2, st2, t2) -> good W v o2 t2) ->
  good W v o t.
Proof.
  intros E Hp Hk. unfold bind in E.
  destruct (p c st) as [[o1 st1] t1] eqn:E1.
  destruct (Hp _ _ _ _ _ E1) as [F1 S1].
  destruct o1 as [a|e|].
  - destruct (k a c st1) as [[o2 st2] t2] eqn:E2. inversion E; subst.
    apply good_app_tame; [exact F1|]. eapply Hk; [reflexivity | exact S1 | exact E2].
  - inversion E; subst. right. left. apply sums_tame. exact F1.
  - inversion E; subst. left. reflexivity.
Qed.

Lemma good_bind_tame {A B} W v (p : Plan A) (k : A -> Plan B) c st o st' t :
  bind p k c st = (o, st', t) ->
  (forall o1 st1 t1, p c st = (o1, st1, t1) -> good W v o1 t1) ->
  (forall a, Tame (tame v) (k a)) ->
  good W v o t.
Proof.
  intros E Hp Hk. unfold bind in E.
  destruct (p c st) as [[o1 st1] t1] eqn:E1.
  pose proof (Hp _ _ _ eq_refl) as G.
  destruct o1 as [a|e|].
  - destruct (k a c st1) as [[o2 st2] t2] eqn:E2. inversion E; subst.
    apply (good_tame_app W v (Ret a)); [discriminate | exact G | exact (Hk a _ _ _ _ _ E2)].
  - inversion E; subst. rewrite <- (app_nil_r t).
    apply (good_tame_app W v (@Raise A e)); [discriminate | exact G | constructor].
  - inversion E; subst. left. reflexivity.
Qed.

Lemma good_finalize {A} W v (p : Plan A) (f : Plan unit) c st o st' t :
  finalize_wrapper p f c st = (o, st', t) ->
  (forall o1 st1 t1, p c st = (o1, st1, t1) -> good W v o1 t1) ->
  Tame (tame v) f ->
  good W v o t.
Proof.
  intros E Hp Hf. unfold finalize_wrapper in E.
  destruct (p c st) as [[o1 st1] t1] eqn:E1.
  pose proof (Hp _ _ _ eq_refl) as G.
  destruct o1 as [a|e|].
  - destruct (f c st1) as [[o2 st2] t2] eqn:E2.
    pose proof (Hf _ _ _ _ _ E2) as F2.
    destruct o2; inversion E; subst;
      (apply (good_tame_app W v (Ret a)); [discriminate | exact G | exact F2]).
  - destruct (f c st1) as [[o2 st2] t2] eqn:E2.
    pose proof (Hf _ _ _ _ _ E2) as F2.
    destruct o2; inversion E; subst;
      (apply (good_tame_app W v (@Raise A e)); [discriminate | exact G | exact F2]).
  - inversion E; subst. left. reflexivity.
Qed.

(** ** The wrappers of the run when anything but the RunEngine may fail *)

Lemma yield_sound c st m :
  sound (env c) -> bookkeeping m = true ->
  yield_ m c st
  = (Ret tt, fst (process (env c) m (count_msg st)),
     EMsg m :: snd (process (env c) m (count_msg st))).
Proof.
  intros H Hb. unfold yield_. rewrite H by exact Hb.
  destruct (process (env c) m (count_msg st)). reflexivity.
Qed.

Lemma for_sound c (mk : Signal -> Msg) l :
  sound (env c) -> (forall s, bookkeeping (mk s) = true) ->
  (forall s st, process (env c) (mk s) st = (st, [])) ->
  forall st, exists st',
    for_ l (fun s => yield_ (mk s)) c st = (Ret tt, st', map (fun s => EMsg (mk s)) l)
    /\ subs st' = subs st.
Proof.
  intros Hs Hb Hp. induction l as [|s l IH]; intros st; cbn [for_ map].
  - exists st. split; reflexivity.
  - unfold bind. rewrite yield_sound by auto. rewrite Hp. cbn [fst snd].
    destruct (IH (count_msg st)) as (st' & E & S). rewrite E.
    exists st'. split; [reflexivity | exact S].
Qed.

Lemma open_run_sound md c st :
  sound (env c) ->
  exists st1,
    open_run md c st
    = (Ret (run_uid (env c)), st1,
       EMsg (Mopen_run md) :: dispatch_events (env c) doc_start (subs st)
       ++ map (fun s => EMsg (Mmonitor s)) (monitored c))
    /\ subs st1 = subs st.
Proof.
  intros Hs. unfold open_run, bind. rewrite yield_sound by (auto; reflexivity).
  cbn [process fst snd].
  destruct (dispatch_dispatch_events (env c) doc_start (subs st) (count_msg st))
    as (sa & Ea & Sa & _).
  change (subs (count_msg st)) with (subs st). rewrite Ea. cbn [fst snd].
  destruct (for_sound c Mmonitor (monitored c) Hs (fun _ => eq_refl)
              (fun _ _ => eq_refl) sa) as (sb & Eb & Sb).
  rewrite Eb. unfold ask, ret.
  exists sb. split; [|rewrite Sb; exact Sa].
  f_equal. cbn [app]. rewrite app_nil_r. reflexivity.
Qed.

Lemma close_run_sound status c st :
  sound (env c) ->
  exists st1,
    close_run status c st
    = (Ret tt, st1,
       map (fun s => EMsg (Munmonitor s)) (monitored c)
       ++ EMsg (Mclose_run status) :: dispatch_events (env c) doc_stop (subs st)).
Proof.
  intros Hs. unfold close_run, bind.
  destruct (for_sound c Munmonitor (monitored c) Hs (fun _ => eq_refl)
              (fun _ _ => eq_refl) st) as (sa & Ea & Sa).
  rewrite Ea. rewrite yield_sound by (auto; reflexivity). cbn [process fst snd].
  destruct (dispatch_dispatch_events (env c) doc_stop (subs sa) (count_msg sa))
    as (sb & Eb & _).
  change (subs (count_msg sa)) with (subs sa). rewrite Eb, Sa. cbn [fst snd].
  exists sb. reflexivity.
Qed.

Lemma callback_sums e cb v :
  sums [] (pick deadband_write (callback_events e cb)) v (callback_events e cb).
Proof.
  unfold sums. split; [|split; [reflexivity|]].
  - apply pick_callback_none; intros; reflexivity.
  - destruct cb as [y x|shape I ext|md0 d n|xm ym ox oy]; cbn [callback_events].
    + constructor.
    + constructor.
    + repeat constructor; intros w Hw; discriminate Hw.
    + destruct (motor_in (hf_stage_x e) xm ym), ox;
        destruct (motor_in (hf_stage_y e) xm ym), oy;
        repeat constructor; intros w Hw; discriminate Hw.
Qed.

Lemma dispatch_sums e doc l v :
  sums [] (pick deadband_write (dispatch_events e doc l)) v (dispatch_events e doc l).
Proof.
  induction l as [|[[tok name] cb] l IH]; cbn [dispatch_events].
  - apply sums_nil.
  - destruct (listens doc name); [|exact IH].
    rewrite pick_app. apply (sums_app [] []); [apply callback_sums | exact IH].
Qed.

Lemma tame_monitors v (mk : Signal -> Msg) l :
  (forall s, tame v (EMsg (mk s))) -> Forall (tame v) (map (fun s => EMsg (mk s)) l).
Proof. intros H. induction l; cbn [map]; constructor; auto. Qed.

Lemma run_wrapper_good {A} (body : Plan A) md v c st o st' t :
  sound (env c) -> Quiet (tame v) body ->
  pick deadband_write (dispatch_events (env c) doc_start (subs st)) = [] ->
  run_wrapper body md c st = (o, st', t) ->
  good (pick deadband_write (dispatch_events (env c) doc_stop (subs st))) v o t.
Proof.
  intros Hs Hq Hstart E. unfold run_wrapper, bind in E.
  destruct (open_run_sound md c st Hs) as (s1 & E1 & S1). rewrite E1 in E.
  unfold contingency_wrapper in E.
  destruct (body c s1) as [[ob sb] tb] eqn:Eb.
  destruct (Hq _ _ _ _ _ Eb) as [Fb Sb].
  assert (Hopen : sums [md] [] v
            (EMsg (Mopen_run md) :: dispatch_events (env c) doc_start (subs st)
             ++ map (fun s => EMsg (Mmonitor s)) (monitored c))).
  { change (EMsg (Mopen_run md) :: dispatch_events (env c) doc_start (subs st)
            ++ map (fun s => EMsg (Mmonitor s)) (monitored c))
      with ([EMsg (Mopen_run md)] ++ dispatch_events (env c) doc_start (subs st)
            ++ map (fun s => EMsg (Mmonitor s)) (monitored c)).
    apply (sums_app [md] [] [] []).
    - repeat split. repeat constructor. intros w Hw. discriminate Hw.
    - apply (sums_app [] [] [] []).
      + rewrite <- Hstart. apply dispatch_sums.
      + apply sums_tame. apply tame_monitors. intros s. tame_ev. }
  assert (Hclose : forall status,
            sums [] (pick deadband_write (dispatch_events (env c) doc_stop (subs st))) v
              (map (fun s => EMsg (Munmonitor s)) (monitored c)
               ++ EMsg (Mclose_run status) :: dispatch_events (env c) doc_stop (subs st))).
  { intros status. apply (sums_app [] [] []).
    - apply sums_tame. apply tame_monitors. intros s. tame_ev.
    - change (EMsg (Mclose_run status) :: dispatch_events (env c) doc_stop (subs st))
        with ([EMsg (Mclose_run status)] ++ dispatch_events (env c) doc_stop (subs st)).
      apply (sums_app [] [] []).
      + repeat split. repeat constructor. intros w Hw. discriminate Hw.
      + apply dispatch_sums. }
  assert (Hall : forall status,
            sums [md] (pick deadband_write (dispatch_events (env c) doc_stop (subs st))) v
              ((EMsg (Mopen_run md) :: dispatch_events (env c) doc_start (subs st)
                ++ map (fun s => EMsg (Mmonitor s)) (monitored c))
               ++ tb
               ++ map (fun s => EMsg (Munmonitor s)) (monitored c)
               ++ EMsg (Mclose_run status) :: dispatch_events (env c) doc_stop (subs st))).
  { intros status. apply (sums_app [md] [] []); [exact Hopen|].
    apply (sums_app [] [] []); [apply sums_tame; exact Fb | apply Hclose]. }
  destruct ob as [a|e|].
  - destruct (close_run_sound success c sb Hs) as (s3 & E3).
    rewrite E3 in E. rewrite Sb, S1 in E. unfold ret in E. inversion E; subst.
    right. right. exists md. rewrite app_nil_r. apply Hall.
  - destruct (close_run_sound (exit_status_of e) c sb Hs) as (s3 & E3).
    rewrite E3 in E. rewrite Sb, S1 in E. inversion E; subst.
    right. right. exists md. apply Hall.
  - inversion E; subst. left. reflexivity.
Qed.

Lemma Tame_unsubscribe v token : Tame (tame v) (yield_ (Munsubscribe token)).
Proof.
  intros c st o st' t E. unfold yield_ in E.
  destruct (fault (env c) (nmsgs st) (Munsubscribe token)); cbn [process] in E;
    inversion E; subst; repeat constructor; intros w Hw; discriminate Hw.
Qed.

Lemma good_subs_wrapper {A} W v (p : Plan A) name func c st o st' t :
  sound (env c) -> subs_wrapper p name func c st = (o, st', t) ->
  (forall st1 o1 st1' t1,
     subs st1 = subs st ++ [(next_token st, name, func)] ->
     p c st1 = (o1, st1', t1) -> good W v o1 t1) ->
  good W v o t.
Proof.
  intros Hs E Hp. unfold subs_wrapper, subscribe in E.
  rewrite yield_sound in E by (auto; reflexivity). cbn [process fst snd] in E.
  match type of E with
  | context [finalize_wrapper _ _ _ ?s] =>
      destruct (finalize_wrapper p (yield_ (Munsubscribe (next_token st))) c s)
        as [[o2 st2] t2] eqn:E2
  end.
  inversion E; subst.
  apply (good_app_tame W v o [EMsg (Msubscribe name func)] t2).
  - repeat constructor. intros w Hw. discriminate Hw.
  - eapply good_finalize; [exact E2 | | apply Tame_unsubscribe].
    intros o1 st1 t1 E1. eapply Hp; [|exact E1]. reflexivity.
Qed.

Lemma stop_writes e r xs md dwell ox oy t0 t1 t2 :
  pick deadband_write
    (dispatch_events e doc_stop
       [(t0, doc_all, livepopup r xs); (t1, doc_start, at_scan md dwell (xnum r));
        (t2, doc_stop, finalize_scan (xmotor r) (ymotor r) ox oy)])
  = pick deadband_write
      (callback_events e (finalize_scan (xmotor r) (ymotor r) ox oy)).
Proof.
  unfold livepopup. cbn [dispatch_events listens].
  destruct (Z.eqb (ynum r) 1); cbn [callback_events app]; rewrite app_nil_r; reflexivity.
Qed.

Lemma start_writes e r xs md dwell ox oy t0 t1 t2 :
  pick deadband_write
    (dispatch_events e doc_start
       [(t0, doc_all, livepopup r xs); (t1, doc_start, at_scan md dwell (xnum r));
        (t2, doc_stop, finalize_scan (xmotor r) (ymotor r) ox oy)])
  = [].
Proof.
  unfold livepopup. cbn [dispatch_events listens].
  destruct (Z.eqb (ynum r) 1); reflexivity.
Qed.

Lemma plan_good r dwell delta xs md ox oy c st o st' t :
  sound (env c) -> subs st = [] ->
  plan r dwell delta xs md ox oy c st = (o, st', t) ->
  good (pick deadband_write
          (callback_events (env c) (finalize_scan (xmotor r) (ymotor r) ox oy)))
    (speed r dwell) o t.
Proof.
  intros Hs Hsubs E. unfold plan in E.
  eapply good_subs_wrapper; [exact Hs | exact E |]. intros sa oa sa' ta Sa Ea.
  eapply good_subs_wrapper; [exact Hs | exact Ea |]. intros sb ob sb' tb Sb Eb.
  eapply good_subs_wrapper; [exact Hs | exact Eb |]. intros sc oc sc' tc Sc Ec.
  unfold monitor_during_wrapper, stage_wrapper in Ec.
  eapply good_finalize; [exact Ec | | apply Quiet_Tame; quiet].
  intros o1 s1 t1 E1.
  eapply good_bind_quiet; [exact E1 | quiet |].
  intros a s2 t2 o3 s3 t3 _ S2 E3.
  rewrite <- (stop_writes (env c) r xs md dwell ox oy
                (next_token st) (next_token sa) (next_token sb)).
  assert (HL : subs s2
               = [(next_token st, doc_all, livepopup r xs);
                  (next_token sa, doc_start, at_scan md dwell (xnum r));
                  (next_token sb, doc_stop,
                   finalize_scan (xmotor r) (ymotor r) ox oy)]).
  { rewrite S2, Sc, Sb, Sa, Hsubs. reflexivity. }
  rewrite <- HL.
  eapply (run_wrapper_good (plan_body r dwell delta xs) md (speed r dwell)
            {| env := env c;
               monitored := [Sig xs "channel1.rois.roi01.value"; Sig xs "array_counter"]
                            ++ monitored c |}).
  - exact Hs.
  - apply Quiet_plan_body.
  - cbn [env]. rewrite HL. apply start_writes.
  - exact E3.
Qed.

Lemma bind_ret_inv {A B} (p : Plan A) (k : A -> Plan B) c st a s1 t1 o st' t :
  p c st = (Ret a, s1, t1) -> bind p k c st = (o, st', t) ->
  exists t2, k a c s1 = (o, st', t2) /\ t = t1 ++ t2.
Proof.
  intros E1 E. unfold bind in E. rewrite E1 in E.
  destruct (k a c s1) as [[o2 s2] t2]. inversion E; subst.
  exists t2. split; reflexivity.
Qed.

Lemma Quiet_call_reset P :
  P (ECall "hf_stage.reset_stage_defaults") -> Quiet P call_reset_stage_defaults.
Proof.
  intros H c st o st' t E. unfold call_reset_stage_defaults in E. inversion E; subst.
  split; [repeat constructor; exact H | reflexivity].
Qed.

Lemma restores_eq e r pv0 :
  pick deadband_write
    (callback_events e
       (finalize_scan (xmotor r) (ymotor r)
          (old_deadband e r (hf_stage_x e) RETRY_DEADBAND_X pv0)
          (old_deadband e r (hf_stage_y e) RETRY_DEADBAND_Y pv0)))
  = restores e r pv0.
Proof.
  unfold restores, old_deadband. cbn [callback_events].
  destruct (motor_in (hf_stage_x e) (xmotor r) (ymotor r));
    destruct (motor_in (hf_stage_y e) (xmotor r) (ymotor r)); reflexivity.
Qed.

Lemma deadband_trace_sums e r v :
  sums [] (installs e r) v (deadband_trace r e).
Proof.
  unfold installs, deadband_trace, sums.
  destruct (motor_in (hf_stage_x e) (xmotor r) (ymotor r));
    destruct (motor_in (hf_stage_y e) (xmotor r) (ymotor r));
    (split; [reflexivity | split; [reflexivity|]]);
    repeat constructor; intros w Hw; discriminate Hw.
Qed.

Lemma backlash_ok_writes v t :
  Forall (backlash_ok v) t ->
  forall w, In w (pick backlash_write t) -> snd w = VNum v.
Proof.
  induction 1 as [|ev t H _ IH]; intros w Hw; [destruct Hw|].
  rewrite pick_cons in Hw. apply in_app_or in Hw. destruct Hw as [Hw|Hw].
  - destruct (backlash_write ev) as [w'|] eqn:E; [|destruct Hw].
    destruct Hw as [<-|[]]. apply H. exact E.
  - apply IH. exact Hw.
Qed.

(** The scan after its deadbands are changed, whatever fails. *)
Lemma scan_good r c st o st' t :
  sound (env c) -> subs st = [] ->
  (1 <= xnum r)%Z -> (1 <= ynum r)%Z ->
  scan_and_fly_base r c st = (o, st', t) ->
  exists t2,
    t = deadband_trace r (env c) ++ t2 /\
    good (restores (env c) r (pv st)) (speed r (scan_dwell r)) o t2.
Proof.
  intros Hs Hsubs Hx Hy E.
  unfold scan_and_fly_base in E. rewrite valid_counts in E by assumption.
  destruct (does_change_retry_deadband c r st) as (s1 & E1 & S1 & _).
  destruct (bind_ret_inv _ _ _ _ _ _ _ _ _ _ E1 E) as (t2 & E2 & ->).
  exists t2. split; [reflexivity|]. cbv beta iota in E2.
  rewrite <- restores_eq.
  eapply good_bind_quiet; [exact E2 | unfold assign_detectors; quiet |].
  intros a2 s2 u2 o3 s3 t3 _ S2 E3. cbv beta in E3.
  eapply good_bind_quiet; [exact E3 | unfold setup_merlin; quiet |].
  intros dw s4 u4 o5 s5 t5 Edw S4 E5. cbv beta in E5.
  assert (dw = scan_dwell r) as ->.
  { destruct (does_setup_merlin c r s2) as (sx & Ex & _). rewrite Ex in Edw.
    inversion Edw. reflexivity. }
  eapply good_bind_quiet; [exact E5 | unfold setup_dexela; quiet |].
  intros a6 s6 u6 o7 s7 t7 _ S6 E7. cbv beta in E7.
  eapply good_bind_quiet; [exact E7 | |].
  { unfold derive_delta. destruct (delta r); [apply Quiet_ret|].
    apply Quiet_bind; [apply Quiet_stage_speed | intros; quiet]. }
  intros dl s8 u8 o9 s9 t9 _ S8 E9. cbv beta in E9.
  eapply good_bind_quiet; [exact E9 | quiet |].
  intros a10 s10 u10 o11 s11 t11 _ S10 E11. cbv beta in E11.
  eapply good_bind_quiet; [exact E11 | quiet |].
  intros a12 s12 u12 o13 s13 t13 _ S12 E13. cbv beta in E13.
  eapply good_bind_quiet; [exact E13 | quiet |].
  intros e' s14 u14 o15 s15 t15 Ee S14 E15. cbv beta zeta in E15.
  assert (e' = env c) as -> by (unfold ask in Ee; inversion Ee; reflexivity).
  eapply good_bind_quiet; [exact E15 | quiet |].
  intros xs s16 u16 o17 s17 t17 _ S16 E17. cbv beta in E17.
  eapply good_bind_quiet; [exact E17 | quiet |].
  intros a18 s18 u18 o19 s19 t19 _ S18 E19. cbv beta in E19.
  eapply good_bind_quiet; [exact E19 | quiet |].
  intros a20 s20 u20 o21 s21 t21 _ S20 E21. cbv beta in E21.
  assert (Hsubs20 : subs s20 = []).
  { rewrite S20, S18, S16, S14, S12, S10, S8, S6, S4, S2, S1. exact Hsubs. }
  eapply good_bind_tame; [exact E21 | |].
  - intros o1 sp tp Ep. destruct (shutter r).
    + eapply good_finalize; [exact Ep | | apply Quiet_Tame; quiet].
      intros o2 sq tq Eq. eapply plan_good; [exact Hs | exact Hsubs20 | exact Eq].
    + eapply plan_good; [exact Hs | exact Hsubs20 | exact Ep].
  - intros uid. apply Quiet_Tame.
    apply Quiet_bind; [|intros; apply Quiet_ret].
    apply Quiet_if; [apply Quiet_call_reset; tame_ev | apply Quiet_ret].
Qed.

(** * The claims *)

(** ** C1: requests with no points *)

(** C1, as amended.  For every request with [xnum < 1] or [ynum < 1],
    [scan_and_fly_base] prints an error message and returns at once, without
    a result and without an exception; it hands no message to the RunEngine,
    puts no value and leaves the state as it was. *)
Theorem invalid_counts_return_at_once r e st :
  (xnum r < 1)%Z \/ (ynum r < 1)%Z ->
  run (scan_and_fly_base r) e st
  = (Ret None, st, [EPrint "Error: Number of points is negative."]).
Proof.
  intros H. unfold run, scan_and_fly_base.
  assert (Hb : Z.ltb (xnum r) 1 || Z.ltb (ynum r) 1 = true).
  { apply orb_true_iff. destruct H as [H|H]; [left|right]; apply Z.ltb_lt; exact H. }
  rewrite Hb. reflexivity.
Qed.

Lemma invalid_counts_return_at_once_witness :
  run (scan_and_fly_base (request ["xs"] 0 10 0 0 0 1 0.5)) (beamline 0 no_faults)
    (start_state pv_start)
  = (Ret None, start_state pv_start, [EPrint "Error: Number of points is negative."]).
Proof. apply invalid_counts_return_at_once. left. reflexivity. Defined.

(** C1 as stated fails: with no fast-axis points the scan does not end with
    an exception, it returns [None]. *)
Lemma invalid_counts_raise_nothing :
  outcome (run (scan_and_fly_base (request ["xs"] 0 10 0 0 0 1 0.5))
             (beamline 0 no_faults) (start_state pv_start))
  = Ret None.
Proof. reflexivity. Qed.

(** ** C10: a single fast-axis point *)

(** C10.  A request with [xnum = 1] passes the check of the point counts;
    with no [delta] given, the stage speed is then computed with a division
    by [xnum - 1 = 0], and the scan ends with [ZeroDivisionError], after the
    deadbands are changed and the detectors set up and before any message. *)
Theorem one_point_divides_by_zero r e st :
  xnum r = 1%Z -> (1 <= ynum r)%Z -> delta r = None ->
  knows_detectors e (detectors r) = true ->
  Z.ltb (xnum r) 1 || Z.ltb (ynum r) 1 = false /\
  exists st',
    run (scan_and_fly_base r) e st
    = (Raise ZeroDivisionError, st',
       deadband_trace r e
       ++ [ESetDetectors (flyer_name (flying_zebra r)) (detectors r)]
       ++ merlin_trace r ++ dexela_trace r).
Proof.
  intros Hx Hy Hd Hk.
  assert (Hv : Z.ltb (xnum r) 1 || Z.ltb (ynum r) 1 = false).
  { apply valid_counts; [rewrite Hx; lia | exact Hy]. }
  split; [exact Hv|].
  unfold run, scan_and_fly_base. rewrite Hv.
  set (c := {| env := e; monitored := [] |}).
  assert (R : forall st1, raises (derive_delta r (scan_dwell r)) c st1 ZeroDivisionError []).
  { intros st1. unfold raises, derive_delta, stage_speed, bind, py_div.
    rewrite Hd, Hx. eexists. reflexivity. }
  rewrite <- (app_nil_r (dexela_trace r)).
  eapply raises_bind_does; [apply does_change_retry_deadband|].
  intros st1. cbv beta iota.
  eapply raises_bind_does; [apply does_assign_detectors; exact Hk|].
  intros st2. cbv beta.
  eapply raises_bind_does; [apply does_setup_merlin|].
  intros st3. cbv beta.
  eapply raises_bind_does; [apply does_setup_dexela|].
  intros st4. cbv beta.
  apply raises_bind. apply R.
Qed.

Lemma one_point_divides_by_zero_witness :
  Z.ltb 1 1 || Z.ltb 1 1 = false /\
  exists st',
    run (scan_and_fly_base (request ["xs"] 0 10 1 0 0 1 0.5)) (beamline 0 no_faults)
      (start_state pv_start)
    = (Raise ZeroDivisionError, st',
       [EPut RETRY_DEADBAND_X (VNum NEW_RDBD_X); EPut RETRY_DEADBAND_Y (VNum NEW_RDBD_Y);
        ESetDetectors "flying_zebra" ["xs"]]).
Proof.
  apply (one_point_divides_by_zero (request ["xs"] 0 10 1 0 0 1 0.5)
           (beamline 0 no_faults) (start_state pv_start));
    [reflexivity | simpl; lia | reflexivity | reflexivity].
Defined.

(** ** C5: the speed of the fast axis in a row *)

(** The example beamline and a request are a scan in which nothing fails,
    when the axis reads its start position. *)
Ltac smooth_example :=
  unfold smooth;
  split; [ intros k m; reflexivity | ];
  split; [ apply Z.leb_le; reflexivity | ];
  split; [ apply Z.leb_le; reflexivity | ];
  split; [ let H := fresh in intro H; vm_compute in H; discriminate H | ];
  split; [ reflexivity | ];
  split; [ discriminate | ];
  intros n; exists 0%nat; split;
  [ apply Nat.le_0_l
  | split; [ vm_compute; reflexivity | intros j Hj; inversion Hj ] ].




(** ** C2: the dwell of the merlin *)





(** ** C6: the pre-roll distance *)

(** C6.  In a scan in which nothing fails (two or more fast-axis points)
    and for which no [delta] is given, the pre-roll distance, as computed
    and as put into the metadata of the run, is [max(0.002, 1.0 * v)],
    where [v] is the velocity of the fast axis in the rows. *)
Theorem delta_from_row_speed r e st :
  delta r = None -> smooth e r -> subs st = [] ->
  exists st' t dl,
    run (scan_and_fly_base r) e st = (Ret (Some (run_uid e)), st', t) /\
    fly_speeds t
    = repeat (Some (VNum ((xstop r - xstart r) / inject_Z (xnum r - 1) / scan_dwell r)))
        (Z.to_nat (ynum r)) /\
    derive_delta r (scan_dwell r) {| env := e; monitored := [] |} st = (Ret dl, st, []) /\
    pick open_delta t = [dl] /\
    dl == Qmax 0.002
            (1.0 * ((xstop r - xstart r) / inject_Z (xnum r - 1) / scan_dwell r)).
Proof.
  intros Hd Hs Hsubs.
  destruct (smooth_scan r e st Hs Hsubs) as (xs & ks & st' & _ & Hlen & E).
  destruct Hs as (Hc & Hx & Hy & Hdw & _).
  exists st', (scan_trace r e (pv st) (next_token st) xs ks),
    (scan_delta r (scan_dwell r)).
  split; [exact E|]. split; [apply fly_speeds_scan; exact Hlen|].
  split; [apply derive_delta_value; [exact Hd | lia | exact Hdw]|].
  split; [apply pick_scan_open_delta; exact Hlen|].
  unfold scan_delta. rewrite Hd. apply Q.max_comm.
Qed.

(** With a velocity of 2 the pre-roll distance is 2; for [xstart=0,
    xstop=0.001, xnum=2, dwell=10] it is 0.002. *)
Lemma delta_from_row_speed_witness :
  (exists st' t dl,
     run (scan_and_fly_base (request ["xs"] 0 10 11 0 0 1 0.5)) (beamline (-2) no_faults)
       (start_state pv_start)
     = (Ret (Some "3f2a9c1e-77aa"), st', t) /\
     fly_speeds t = [Some (VNum ((10 - 0) / inject_Z (11 - 1) / 0.5))] /\
     derive_delta (request ["xs"] 0 10 11 0 0 1 0.5) 0.5
       {| env := beamline (-2) no_faults; monitored := [] |} (start_state pv_start)
     = (Ret dl, start_state pv_start, []) /\
     pick open_delta t = [dl] /\
     dl == Qmax 0.002 (1.0 * ((10 - 0) / inject_Z (11 - 1) / 0.5))) /\
  Qmax 0.002 (1.0 * ((10 - 0) / inject_Z (11 - 1) / 0.5)) == 2 /\
  (exists st' t dl,
     run (scan_and_fly_base (request ["xs"] 0 0.001 2 0 0 1 10))
       (beamline (-0.002) no_faults) (start_state pv_start)
     = (Ret (Some "3f2a9c1e-77aa"), st', t) /\
     fly_speeds t = [Some (VNum ((0.001 - 0) / inject_Z (2 - 1) / 10))] /\
     derive_delta (request ["xs"] 0 0.001 2 0 0 1 10) 10
       {| env := beamline (-0.002) no_faults; monitored := [] |} (start_state pv_start)
     = (Ret dl, start_state pv_start, []) /\
     pick open_delta t = [dl] /\
     dl == Qmax 0.002 (1.0 * ((0.001 - 0) / inject_Z (2 - 1) / 10))) /\
  Qmax 0.002 (1.0 * ((0.001 - 0) / inject_Z (2 - 1) / 10)) == 0.002.
Proof.
  split; [|split; [|split]].
  - apply (delta_from_row_speed (request ["xs"] 0 10 11 0 0 1 0.5)
             (beamline (-2) no_faults) (start_state pv_start)).
    + reflexivity.
    + smooth_example.
    + reflexivity.
  - reflexivity.
  - apply (delta_from_row_speed (request ["xs"] 0 0.001 2 0 0 1 10)
             (beamline (-0.002) no_faults) (start_state pv_start)).
    + reflexivity.
    + smooth_example.
    + reflexivity.
  - reflexivity.
Defined.

(** ** C7: the steps of the slow axis *)

(** C7.  In a scan in which nothing fails the slow axis is stepped, row by
    row and in this order, to the [ynum] values of
    [np.linspace(ystart, ystop, ynum)]: the value of row [i] is
    [ystart + i * (ystop - ystart) / (ynum - 1)], and with two or more rows
    the last value is [ystop] itself. *)
Theorem slow_axis_steps_evenly r e st :
  smooth e r -> subs st = [] ->
  (exists st' t,
     run (scan_and_fly_base r) e st = (Ret (Some (run_uid e)), st', t) /\
     pick slow_step t
     = map (fun y => (positioner (ymotor r), VNum y))
         (np_linspace (ystart r) (ystop r) (ynum r))) /\
  List.length (np_linspace (ystart r) (ystop r) (ynum r)) = Z.to_nat (ynum r) /\
  (forall i, (i < Z.to_nat (ynum r))%nat ->
     nth i (np_linspace (ystart r) (ystop r) (ynum r)) 0
     == ystart r + inject_Z (Z.of_nat i) * ((ystop r - ystart r) / inject_Z (ynum r - 1))) /\
  ((2 <= ynum r)%Z -> last (np_linspace (ystart r) (ystop r) (ynum r)) 0 = ystop r).
Proof.
  intros Hs Hsubs.
  destruct (smooth_scan r e st Hs Hsubs) as (xs & ks & st' & _ & Hlen & E).
  split; [|split; [|split]].
  - exists st', (scan_trace r e (pv st) (next_token st) xs ks).
    split; [exact E|]. apply pick_scan_slow_step. exact Hlen.
  - apply length_np_linspace.
  - intros i Hi. apply np_linspace_nth. exact Hi.
  - apply np_linspace_last.
Qed.

(** For [ystart=0, ystop=4, ynum=5] the steps are 0, 1, 2, 3, 4. *)
Lemma slow_axis_steps_evenly_witness :
  ((exists st' t,
      run (scan_and_fly_base (request ["xs"] 0 10 11 0 4 5 0.5)) (beamline (-2) no_faults)
        (start_state pv_start)
      = (Ret (Some "3f2a9c1e-77aa"), st', t) /\
      pick slow_step t
      = map (fun y => (positioner hf_y, VNum y)) (np_linspace 0 4 5)) /\
   List.length (np_linspace 0 4 5) = 5%nat /\
   (forall i, (i < 5)%nat ->
      nth i (np_linspace 0 4 5) 0
      == 0 + inject_Z (Z.of_nat i) * ((4 - 0) / inject_Z (5 - 1))) /\
   ((2 <= 5)%Z -> last (np_linspace 0 4 5) 0 = 4)) /\
  map Qred (np_linspace 0 4 5) = [0; 1; 2; 3; 4].
Proof.
  split.
  - apply (slow_axis_steps_evenly (request ["xs"] 0 10 11 0 4 5 0.5)
             (beamline (-2) no_faults) (start_state pv_start)).
    + smooth_example.
    + reflexivity.
  - reflexivity.
Defined.

(** ** C9: the start-position loop *)

(** C9.  The loop that waits for the fast axis to reach its start position
    has no bound.  The RunEngine processing every message: (1) the deadband
    is 0.0005 for an axis in millimetres and 0.1 otherwise, and a reading is
    within it when [|xstart - delta - x_dial| <= DEADBAND]; (2) if no
    reading ever is, the row is still in the loop however often the loop is
    unrolled, having commanded the move again once per turn; (3) the loop
    is left exactly at the first reading within the deadband, after one move
    per reading before it. *)
Theorem start_loop_has_no_bound r dwell delta motor step c st :
  calm (env c) ->
  (DEADBAND r = (if String.eqb (egu (xmotor r)) "mm" then 0.0005 else 0.1) /\
   forall x_dial,
     within r delta x_dial = Qle_bool (Qabs (xstart r - delta - x_dial)) (DEADBAND r)) /\
  ((forall k, within r delta (user_readback (env c) (reads st + k)) = false) ->
   exists st',
     fly_each_step r dwell delta motor step c st
     = (Spin, st',
        map (fun d => EMsg (Mstage d)) (detectors r)
        ++ move_to_start_trace r delta motor step
        ++ waiting 0 (patience (env c))
        ++ polls_trace r delta (patience (env c)))) /\
  (forall n k m i st0,
     reads st0 = S m -> (k <= n)%nat -> settles (env c) r delta m k ->
     exists st',
       wait_for_start n r delta (xstart r - delta) (user_readback (env c) m) i c st0
       = (Ret (k + i)%nat, st', waiting i k ++ polls_trace r delta k)).
Proof.
  intros Hc. split; [split; [reflexivity | intros; reflexivity]|]. split.
  - intros Hnever. apply fly_each_step_spins; assumption.
  - intros n k m i st0 Hr Hk Hs.
    destruct (does_wait_for_start c Hc r delta k n m i st0 Hr Hk Hs) as (st' & E & _).
    exists st'. exact E.
Qed.

(** An axis that stays at 0 when it should start at -2: after the three
    turns the loop is unrolled for, the row is still in it. *)
Lemma start_loop_has_no_bound_witness :
  DEADBAND (request ["xs"] 0 10 11 0 0 1 0.5) = 0.0005 /\
  exists st',
    fly_each_step (request ["xs"] 0 10 11 0 0 1 0.5) 0.5 2 hf_y 0
      {| env := beamline 0 no_faults; monitored := [] |} (start_state pv_start)
    = (Spin, st',
       [EMsg (Mstage "xs")]
       ++ move_to_start_trace (request ["xs"] 0 10 11 0 0 1 0.5) 2 hf_y 0
       ++ [EPrint "Waiting for motor to reach starting position..."]
       ++ polls_trace (request ["xs"] 0 10 11 0 0 1 0.5) 2 3).
Proof.
  destruct (start_loop_has_no_bound (request ["xs"] 0 10 11 0 0 1 0.5) 0.5 2 hf_y 0
              {| env := beamline 0 no_faults; monitored := [] |} (start_state pv_start))
    as ((D & _) & S & _).
  - intros k m. reflexivity.
  - split; [exact D|]. apply S. intros k. reflexivity.
Defined.

(** ** C8: the velocity after a row *)

(** C8 fails on the code for an axis whose name has ['e_tomo'] in it: the row
    sets the capped return velocity [min(4, high_limit)] and then, the second
    test not being an [elif], sets the velocity again, to 1.0, which is the
    value the axis is left with. *)
Theorem e_tomo_axis_ends_at_default_velocity :
  let r := {| detectors := ["xs2"];
              xstart := 0; xstop := 10; xnum := 11;
              ystart := 0; ystop := 0; ynum := 1;
              dwell := 0.5;
              flying_zebra := zebra;
              xmotor := e_tomo_x; ymotor := hf_y;
              delta := None; shutter := true; align := false; md := None |} in
  let x := run (fly_each_step r 0.5 2 hf_y 0) (beamline (-2) no_faults)
             (start_state pv_start) in
  outcome x = Ret tt /\
  pick fly_step (trace x)
  = [SetSpeed "e_tomo_x" (VNum ((10 - 0) / inject_Z (11 - 1) / 0.5));
     Kickoff "flying_zebra" 0.5;
     SetSpeed "e_tomo_x" (VNum (Qmin 4 10));
     SetSpeed "e_tomo_x" (VNum 1.0)] /\
  pv (final_state x) (velocity e_tomo_x) = VNum 1.0 /\
  Qmin 4 10 == 4.
Proof. vm_compute. repeat split. Qed.

(** ** C4: the cycle of the zebra in a row *)

(** C4.  A row that runs to its end (the RunEngine processing every message
    and the fast axis reaching its start) has one cycle of the zebra, in
    this order: the counts of the detectors are set and waited for, then the
    zebra is kicked off with the parameters of the row and the kickoff is
    waited for, then, with no positioner moved in between, the fast axis is
    sent to [xstop + delta], the move and the detectors are waited for, the
    scaler is stopped, and the zebra is completed and then collected.  No
    other kickoff, complete or collect is in the row. *)
Theorem zebra_cycle_in_each_row r dwell delta motor step c st k :
  calm (env c) -> xnum r <> 1%Z -> ~ dwell == 0 ->
  (k <= patience (env c))%nat -> settles (env c) r delta (reads st) k ->
  exists st' before between after,
    fly_each_step r dwell delta motor step c st
    = (Ret tt, st',
       before
       ++ [EMsg (Mkickoff (flyer_name (flying_zebra r)) (xstart r) (xstop r) (xnum r)
                   dwell (GFresh "kickoff"));
           EMsg (Mwait (GFresh "kickoff"))]
       ++ between
       ++ [EMsg (Mset (positioner (xmotor r)) (VNum (xstop r + 1 * delta)) (GName "row"));
           EMsg (Mwait (GName "row"));
           EMsg (Mset (Sig (sclr (flying_zebra r)) "stop_all") (VInt 1) GNone);
           EMsg (Mcomplete (flyer_name (flying_zebra r)));
           EMsg (Mcollect (flyer_name (flying_zebra r)))]
       ++ after) /\
    (pick zebra_step before = [] /\ pick zebra_step between = [] /\
     pick zebra_step after = []) /\
    (pick count_set before = counts r /\ unwaited [] before = [] /\
     pick count_set between = [] /\ pick count_set after = []) /\
    pick move_step between = [].
Proof.
  intros Hc Hx Hd Hk Hs.
  destruct (does_fly_each_step c Hc r dwell delta motor step st k Hx Hd Hk Hs)
    as (st' & E & _).
  exists st', (before_kickoff r (env c) delta (speed r dwell) motor step k),
    (before_fly r), (after_collect r).
  split; [exact E|].
  split; [|split].
  - unfold before_kickoff, before_fly, after_collect, speed_trace, arm_trace, reset_trace,
      trigger_trace.
    repeat split; no_pick.
  - split; [|split; [|split]].
    + unfold before_kickoff, speed_trace, arm_trace, counts. no_pick.
    + apply unwaited_before_kickoff.
    + unfold before_fly, trigger_trace. no_pick.
    + unfold after_collect, reset_trace. no_pick.
  - unfold before_fly, trigger_trace. no_pick.
Qed.

Lemma zebra_cycle_in_each_row_witness :
  exists st' before between after,
    fly_each_step (request ["xs"] 0 10 11 0 0 1 0.5) 0.5 2 hf_y 0
      {| env := beamline (-2) no_faults; monitored := [] |} (start_state pv_start)
    = (Ret tt, st',
       before
       ++ [EMsg (Mkickoff "flying_zebra" 0 10 11 0.5 (GFresh "kickoff"));
           EMsg (Mwait (GFresh "kickoff"))]
       ++ between
       ++ [EMsg (Mset (positioner hf_x) (VNum (10 + 1 * 2)) (GName "row"));
           EMsg (Mwait (GName "row"));
           EMsg (Mset (Sig "sclr1" "stop_all") (VInt 1) GNone);
           EMsg (Mcomplete "flying_zebra");
           EMsg (Mcollect "flying_zebra")]
       ++ after) /\
    (pick zebra_step before = [] /\ pick zebra_step between = [] /\
     pick zebra_step after = []) /\
    (pick count_set before
     = [(Sig "xs" "hdf5.num_capture", VInt 11); (Sig "xs" "settings.num_images", VInt 11)] /\
     unwaited [] before = [] /\
     pick count_set between = [] /\ pick count_set after = []) /\
    pick move_step between = [].
Proof.
  apply (zebra_cycle_in_each_row (request ["xs"] 0 10 11 0 0 1 0.5) 0.5 2 hf_y 0
           {| env := beamline (-2) no_faults; monitored := [] |} (start_state pv_start)
           0%nat).
  - intros k m. reflexivity.
  - discriminate.
  - intros H. vm_compute in H. discriminate H.
  - apply Nat.le_0_l.
  - split; [vm_compute; reflexivity | intros j Hj; inversion Hj].
Defined.

(** ** C3: the overrides of the stage *)

(** C3, as amended.  Whatever fails at a device or is aborted by the user
    (the RunEngine's own messages being processed), a scan that ends after
    its run was opened has opened one run and has written each retry
    deadband it changed at the start (to 0.0002) back once, to the value it
    had before, when the run was closed: on success, on an error and on an
    abort alike, whatever the number of rows.  The backlash speeds are not
    written back: the only values the scan writes to them are the velocity
    of the rows. *)
Theorem deadbands_restored_when_run_closes r e st :
  sound e -> subs st = [] -> (1 <= xnum r)%Z -> (1 <= ynum r)%Z ->
  outcome (run (scan_and_fly_base r) e st) <> Spin ->
  pick opened (trace (run (scan_and_fly_base r) e st)) <> [] ->
  pick deadband_write (trace (run (scan_and_fly_base r) e st))
  = installs e r ++ restores e r (pv st) /\
  (exists md, pick opened (trace (run (scan_and_fly_base r) e st)) = [md]) /\
  (forall w, In w (pick backlash_write (trace (run (scan_and_fly_base r) e st))) ->
     snd w = VNum ((xstop r - xstart r) / inject_Z (xnum r - 1) / scan_dwell r)).
Proof.
  intros Hs Hsubs Hx Hy. unfold run, outcome, trace.
  destruct (scan_and_fly_base r {| env := e; monitored := [] |} st) as [[o st'] t] eqn:E.
  cbn [fst snd]. intros Ho Hopen.
  destruct (scan_good r {| env := e; monitored := [] |} st o st' t Hs Hsubs Hx Hy E)
    as (t2 & -> & G).
  cbn [env] in *.
  pose proof (deadband_trace_sums e r (speed r (scan_dwell r))) as (D1 & D2 & D3).
  rewrite pick_app, D1 in Hopen. cbn [app] in Hopen.
  destruct G as [G|[(G1 & _)|(md & G1 & G2 & G3)]].
  - contradiction.
  - contradiction.
  - rewrite !pick_app, D1, D2, G1, G2.
    split; [reflexivity|]. split; [exists md; reflexivity|].
    rewrite <- pick_app. apply backlash_ok_writes.
    apply Forall_app. split; assumption.
Qed.

(** The zebra fails to complete in the first of two rows; and the user
    aborts before the fly of the first row. *)
Lemma deadbands_restored_when_run_closes_witness :
  (pick deadband_write
     (trace (run (scan_and_fly_base (request ["xs"] 0 10 11 0 1 2 0.5))
               (beamline (-2) complete_fails) (start_state pv_start)))
   = [(RETRY_DEADBAND_X, VNum NEW_RDBD_X); (RETRY_DEADBAND_Y, VNum NEW_RDBD_Y);
      (RETRY_DEADBAND_X, VNum 0.001); (RETRY_DEADBAND_Y, VNum 0.001)] /\
   (exists md,
      pick opened
        (trace (run (scan_and_fly_base (request ["xs"] 0 10 11 0 1 2 0.5))
                  (beamline (-2) complete_fails) (start_state pv_start)))
      = [md]) /\
   (forall w,
      In w (pick backlash_write
              (trace (run (scan_and_fly_base (request ["xs"] 0 10 11 0 1 2 0.5))
                        (beamline (-2) complete_fails) (start_state pv_start)))) ->
      snd w = VNum ((10 - 0) / inject_Z (11 - 1) / 0.5))) /\
  outcome (run (scan_and_fly_base (request ["xs"] 0 10 11 0 1 2 0.5))
             (beamline (-2) complete_fails) (start_state pv_start))
  = Raise FailedStatus /\
  pick deadband_write
    (trace (run (scan_and_fly_base (request ["xs"] 0 10 11 0 1 2 0.5))
              (beamline (-2) abort_before_fly) (start_state pv_start)))
  = [(RETRY_DEADBAND_X, VNum NEW_RDBD_X); (RETRY_DEADBAND_Y, VNum NEW_RDBD_Y);
     (RETRY_DEADBAND_X, VNum 0.001); (RETRY_DEADBAND_Y, VNum 0.001)] /\
  outcome (run (scan_and_fly_base (request ["xs"] 0 10 11 0 1 2 0.5))
             (beamline (-2) abort_before_fly) (start_state pv_start))
  = Raise RequestAbort.
Proof.
  split; [|split; [|split]].
  - apply (deadbands_restored_when_run_closes (request ["xs"] 0 10 11 0 1 2 0.5)
             (beamline (-2) complete_fails) (start_state pv_start)).
    + intros k m Hb. destruct m; try discriminate Hb; reflexivity.
    + reflexivity.
    + apply Z.leb_le. reflexivity.
    + apply Z.leb_le. reflexivity.
    + vm_compute. discriminate.
    + vm_compute. discriminate.
  - vm_compute. reflexivity.
  - apply (deadbands_restored_when_run_closes (request ["xs"] 0 10 11 0 1 2 0.5)
             (beamline (-2) abort_before_fly) (start_state pv_start)).
    + intros k m Hb. destruct m; try discriminate Hb; reflexivity.
    + reflexivity.
    + apply Z.leb_le. reflexivity.
    + apply Z.leb_le. reflexivity.
    + vm_compute. discriminate.
    + vm_compute. discriminate.
  - vm_compute. reflexivity.
Defined.

(** C3 as stated fails: when the zebra fails to complete in a row, the scan
    ends with the error and the backlash speed of the fast axis is left at
    the velocity of the row, 2, not at the 0 it had before; nothing writes
    it back. *)
Lemma backlash_speed_not_restored :
  let x := run (scan_and_fly_base (request ["xs"] 0 10 11 0 1 2 0.5))
             (beamline (-2) complete_fails) (start_state pv_start) in
  outcome x = Raise FailedStatus /\
  pv_start BACKLASH_SPEED_X = VNum 0 /\
  pick backlash_write (trace x)
  = [(BACKLASH_SPEED_X, VNum ((10 - 0) / inject_Z (11 - 1) / 0.5))] /\
  pv (final_state x) BACKLASH_SPEED_X = VNum ((10 - 0) / inject_Z (11 - 1) / 0.5) /\
  speed_is 0 (Some (pv (final_state x) BACKLASH_SPEED_X)) = false /\
  speed_is 2 (Some (pv (final_state x) BACKLASH_SPEED_X)) = true.
Proof. vm_compute. repeat split. Qed.

(** * Further properties of the scan *)

(** ** Plans, however they end *)

Lemma Meek_put P s v : Meek P -> P (EPut s v).
Proof. intros H. apply H. Qed.

Lemma Meek_log P : Meek P -> P (ECall "logscan_detailed").
Proof. intros H. apply H. Qed.

Lemma Meek_print P s : Meek P -> P (EPrint s).
Proof. intros H. apply H. Qed.

Lemma Meek_sig P d k v : Meek P -> P (EStageSig d k v).
Proof. intros H. apply H. Qed.

Lemma Meek_det P z l : Meek P -> P (ESetDetectors z l).
Proof. intros H. apply H. Qed.

Lemma Meek_msg P m : Meek P -> plain m = true -> sets_string m = false -> P (EMsg m).
Proof. intros H. apply H. Qed.

Lemma Sane_ret {A} P X (a : A) : Sane P X (ret a).
Proof.
  intros c st o st' t E. inversion E; subst.
  split; [constructor | intros x Hx; discriminate Hx].
Qed.

Lemma Sane_spin {A} P X : Sane P X (@spin A).
Proof.
  intros c st o st' t E. inversion E; subst.
  split; [constructor | intros x Hx; discriminate Hx].
Qed.

Lemma Sane_ask P X : Sane P X ask.
Proof.
  intros c st o st' t E. inversion E; subst.
  split; [constructor | intros x Hx; discriminate Hx].
Qed.

Lemma Sane_readback P X : Sane P X readback.
Proof.
  intros c st o st' t E. inversion E; subst.
  split; [constructor | intros x Hx; discriminate Hx].
Qed.

Lemma Sane_get P X s : Sane P X (get s).
Proof.
  intros c st o st' t E. inversion E; subst.
  split; [constructor | intros x Hx; discriminate Hx].
Qed.

Lemma Sane_raise {A} P (X : Env -> Exn -> Prop) x :
  (forall e, X e x) -> Sane P X (@raise A x).
Proof.
  intros H c st o st' t E. inversion E; subst.
  split; [constructor | intros y Hy; inversion Hy; subst; apply H].
Qed.

Lemma Sane_emit (P : Event -> Prop) X ev : P ev -> Sane P X (emit ev).
Proof.
  intros H c st o st' t E. inversion E; subst.
  split; [repeat constructor; exact H | intros x Hx; discriminate Hx].
Qed.

Lemma Sane_print (P : Event -> Prop) X s : Meek P -> Sane P X (print s).
Proof. intros H. apply Sane_emit. apply Meek_print. exact H. Qed.

Lemma Sane_put P X s v : Meek P -> Sane P X (put s v).
Proof.
  intros H c st o st' t E. unfold put, do_put in E. inversion E; subst.
  split; [repeat constructor; apply Meek_put; exact H | intros x Hx; discriminate Hx].
Qed.

Lemma Sane_bind_val {A B} P X (p : Plan A) (k : A -> Plan B) :
  Sane P X p ->
  (forall a, (exists c st st1 t1, p c st = (Ret a, st1, t1)) -> Sane P X (k a)) ->
  Sane P X (bind p k).
Proof.
  intros Hp Hk c st o st' t E. unfold bind in E.
  destruct (p c st) as [[o1 st1] t1] eqn:E1.
  destruct (Hp _ _ _ _ _ E1) as [F1 X1].
  destruct o1 as [a|x1|].
  - destruct (k a c st1) as [[o2 st2] t2] eqn:E2. inversion E; subst.
    assert (Hq : Sane P X (k a)) by (apply Hk; exists c, st, st1, t1; exact E1).
    destruct (Hq _ _ _ _ _ E2) as [F2 X2].
    split; [apply Forall_app; split; assumption | exact X2].
  - inversion E; subst. split; [assumption|].
    intros y Hy. inversion Hy; subst. apply X1. reflexivity.
  - inversion E; subst. split; [assumption | intros y Hy; discriminate Hy].
Qed.

Lemma Sane_bind {A B} P X (p : Plan A) (k : A -> Plan B) :
  Sane P X p -> (forall a, Sane P X (k a)) -> Sane P X (bind p k).
Proof. intros Hp Hk. apply Sane_bind_val; [exact Hp | intros a _; apply Hk]. Qed.

Lemma Sane_if {A} P X (b : bool) (p q : Plan A) :
  Sane P X p -> Sane P X q -> Sane P X (if b then p else q).
Proof. destruct b; auto. Qed.

Lemma Sane_for {X0} P X (l : list X0) (body : X0 -> Plan unit) :
  (forall x, Sane P X (body x)) -> Sane P X (for_ l body).
Proof.
  intros H. induction l as [|x l IH]; cbn [for_].
  - apply Sane_ret.
  - apply Sane_bind; [apply H | intros _; exact IH].
Qed.

Lemma Sane_for_acc {X0 T} P X (l : list X0) (body : T -> X0 -> Plan T) :
  (forall a x, Sane P X (body a x)) -> forall a, Sane P X (for_acc l a body).
Proof.
  intros H. induction l as [|x l IH]; intros a; cbn [for_acc].
  - apply Sane_ret.
  - apply Sane_bind; [apply H | intros a'; apply IH].
Qed.

Lemma Sane_finalize {A} P X (p : Plan A) (f : Plan unit) :
  Sane P X p -> Sane P X f -> Sane P X (finalize_wrapper p f).
Proof.
  intros Hp Hf c st o st' t E. unfold finalize_wrapper in E.
  destruct (p c st) as [[o1 s1] t1] eqn:E1.
  destruct (Hp _ _ _ _ _ E1) as [F1 X1].
  destruct o1 as [a|x1|].
  - destruct (f c s1) as [[o2 s2] t2] eqn:E2.
    destruct (Hf _ _ _ _ _ E2) as [F2 X2].
    destruct o2 as [u|x2|]; inversion E; subst;
      (split; [apply Forall_app; split; assumption|]);
      intros y Hy; inversion Hy; subst.
    apply X2. reflexivity.
  - destruct (f c s1) as [[o2 s2] t2] eqn:E2.
    destruct (Hf _ _ _ _ _ E2) as [F2 X2].
    destruct o2 as [u|x2|]; inversion E; subst;
      (split; [apply Forall_app; split; assumption|]);
      intros y Hy; inversion Hy; subst.
    + apply X1. reflexivity.
    + apply X2. reflexivity.
  - inversion E; subst. split; [assumption | intros y Hy; discriminate Hy].
Qed.

Lemma Sane_contingency {A} P X (p : Plan A) (ex : Exn -> Plan unit) (el : Plan unit) :
  Sane P X p -> (forall x, Sane P X (ex x)) -> Sane P X el ->
  Sane P X (contingency_wrapper p ex el).
Proof.
  intros Hp Hex Hel c st o st' t E. unfold contingency_wrapper in E.
  destruct (p c st) as [[o1 s1] t1] eqn:E1.
  destruct (Hp _ _ _ _ _ E1) as [F1 X1].
  destruct o1 as [a|x1|].
  - destruct (el c s1) as [[o2 s2] t2] eqn:E2.
    destruct (Hel _ _ _ _ _ E2) as [F2 X2].
    destruct o2 as [u|x2|]; inversion E; subst;
      (split; [apply Forall_app; split; assumption|]);
      intros y Hy; inversion Hy; subst.
    apply X2. reflexivity.
  - destruct (ex x1 c s1) as [[o2 s2] t2] eqn:E2.
    destruct (Hex x1 _ _ _ _ _ E2) as [F2 X2].
    destruct o2 as [u|x2|]; inversion E; subst;
      (split; [apply Forall_app; split; assumption|]);
      intros y Hy; inversion Hy; subst.
    + apply X1. reflexivity.
    + apply X2. reflexivity.
  - inversion E; subst. split; [assumption | intros y Hy; discriminate Hy].
Qed.

Lemma Meek_callback P e cb : Meek P -> Forall P (callback_events e cb).
Proof.
  intros H. destruct cb as [y x|shape I0 extent|md0 dw xn|xm ym ox oy];
    cbn [callback_events]; repeat constructor;
    try (apply Meek_put; exact H); try (apply Meek_log; exact H).
  apply Forall_app. split.
  - destruct (motor_in (hf_stage_x e) xm ym); [|constructor].
    destruct ox; repeat constructor. apply Meek_put; exact H.
  - destruct (motor_in (hf_stage_y e) xm ym); [|constructor].
    destruct oy; repeat constructor. apply Meek_put; exact H.
Qed.

Lemma Meek_dispatch P e doc l : Meek P -> Forall P (dispatch_events e doc l).
Proof.
  intros H. induction l as [|[[tk name] cb] l IH]; cbn [dispatch_events]; [constructor|].
  destruct (listens doc name); [|exact IH].
  apply Forall_app. split; [apply Meek_callback; exact H | exact IH].
Qed.

Lemma Sane_yield P X m : Meek P -> Fair X -> P (EMsg m) -> Sane P X (yield_ m).
Proof.
  intros HP HX Hm c st o st' t E. unfold yield_ in E.
  destruct (fault (env c) (nmsgs st) m) as [x|] eqn:F.
  - inversion E; subst. split; [repeat constructor; exact Hm|].
    intros y Hy. inversion Hy; subst. apply HX. exists (nmsgs st), m. exact F.
  - destruct (process (env c) m (count_msg st)) as [s1 t1] eqn:Ep. inversion E; subst.
    split; [|intros y Hy; discriminate Hy].
    constructor; [exact Hm|].
    destruct m; cbn [process] in Ep; try (inversion Ep; subst; constructor).
    + destruct (dispatch_dispatch_events (env c) doc_start (subs (count_msg st))
                  (count_msg st)) as (s' & Ed & _).
      rewrite Ed in Ep. inversion Ep; subst. apply Meek_dispatch. exact HP.
    + destruct (dispatch_dispatch_events (env c) doc_stop (subs (count_msg st))
                  (count_msg st)) as (s' & Ed & _).
      rewrite Ed in Ep. inversion Ep; subst. apply Meek_dispatch. exact HP.
Qed.

Lemma Sane_plain P X m :
  Meek P -> Fair X -> plain m = true -> sets_string m = false -> Sane P X (yield_ m).
Proof. intros HP HX H1 H2. apply Sane_yield; [exact HP | exact HX | apply Meek_msg; assumption]. Qed.

Lemma Sane_book P X m :
  Meek P -> Books P -> Fair X -> plain m = false -> Sane P X (yield_ m).
Proof. intros HP HB HX H1. apply Sane_yield; [exact HP | exact HX | apply HB; exact H1]. Qed.

Lemma Sane_monitor_during {A} P X (p : Plan A) signals :
  Sane P X p -> Sane P X (monitor_during_wrapper p signals).
Proof.
  intros Hp c st o st' t E. unfold monitor_during_wrapper in E.
  apply (Hp _ _ _ _ _ E).
Qed.

Lemma Sane_monitored P X (body : Signal -> Plan unit) :
  (forall s, Sane P X (body s)) ->
  Sane P X (fun c st => for_ (monitored c) body c st).
Proof.
  intros H c st o st' t E.
  apply (Sane_for P X (monitored c) body H c st o st' t E).
Qed.

Lemma Sane_stage_wrapper {A} P X (p : Plan A) devices :
  Meek P -> Fair X -> Sane P X p -> Sane P X (stage_wrapper p devices).
Proof.
  intros HP HX Hp. unfold stage_wrapper. apply Sane_finalize.
  - apply Sane_bind; [|intros _; exact Hp].
    apply Sane_for. intros d. apply Sane_plain; auto.
  - apply Sane_for. intros d. apply Sane_plain; auto.
Qed.

Lemma Sane_run_wrapper {A} P X (body : Plan A) md :
  Meek P -> Books P -> Fair X -> Sane P X body -> Sane P X (run_wrapper body md).
Proof.
  intros HP HB HX Hb. unfold run_wrapper, open_run, close_run.
  apply Sane_bind.
  - apply Sane_bind; [apply Sane_book; auto|]. intros _.
    apply Sane_bind; [|intros _; apply Sane_bind; [apply Sane_ask | intros; apply Sane_ret]].
    apply Sane_monitored. intros s. apply Sane_plain; auto.
  - intros uid. apply Sane_bind; [|intros; apply Sane_ret].
    apply Sane_contingency; [exact Hb | intros x |].
    + apply Sane_bind; [|intros _; apply Sane_book; auto].
      apply Sane_monitored. intros s. apply Sane_plain; auto.
    + apply Sane_bind; [|intros _; apply Sane_book; auto].
      apply Sane_monitored. intros s. apply Sane_plain; auto.
Qed.

Lemma Sane_subs_wrapper {A} P X (p : Plan A) name func :
  Meek P -> Books P -> Fair X -> Sane P X p -> Sane P X (subs_wrapper p name func).
Proof.
  intros HP HB HX Hp c st o st' t E. unfold subs_wrapper, subscribe in E.
  destruct (yield_ (Msubscribe name func) c st) as [[o1 s1] t1] eqn:E1.
  assert (H1 : Sane P X (yield_ (Msubscribe name func))) by (apply Sane_book; auto).
  destruct (H1 _ _ _ _ _ E1) as [F1 X1].
  destruct o1 as [u|x1|].
  - destruct (finalize_wrapper p (yield_ (Munsubscribe (next_token st))) c s1)
      as [[o2 s2] t2] eqn:E2.
    inversion E; subst.
    assert (H2 : Sane P X (finalize_wrapper p (yield_ (Munsubscribe (next_token st))))).
    { apply Sane_finalize; [exact Hp | apply Sane_book; auto]. }
    destruct (H2 _ _ _ _ _ E2) as [F2 X2].
    split; [apply Forall_app; split; assumption | exact X2].
  - inversion E; subst. split; [assumption|].
    intros y Hy. inversion Hy; subst. apply X1. reflexivity.
  - inversion E; subst. split; [assumption | intros y Hy; discriminate Hy].
Qed.

(** The parts of a plan one after the other, the messages being those to
    devices that set no string. *)
Ltac sane :=
  cbv beta zeta;
  lazymatch goal with
  | |- Sane _ _ (bind _ _) => apply Sane_bind; [ sane | intros; sane ]
  | |- Sane _ _ (ret _) => apply Sane_ret
  | |- Sane _ _ spin => apply Sane_spin
  | |- Sane _ _ ask => apply Sane_ask
  | |- Sane _ _ readback => apply Sane_readback
  | |- Sane _ _ (get _) => apply Sane_get
  | |- Sane _ _ (put _ _) => apply Sane_put; assumption
  | |- Sane _ _ (if _ then _ else _) => apply Sane_if; sane
  | |- Sane _ _ (yield_ _) =>
      apply Sane_plain; [ assumption | assumption | reflexivity | reflexivity ]
  | |- Sane _ _ (emit (EStageSig _ _ _)) => apply Sane_emit; apply Meek_sig; assumption
  | |- Sane _ _ (emit (ESetDetectors _ _)) => apply Sane_emit; apply Meek_det; assumption
  | |- Sane _ _ (print _) => apply Sane_print; assumption
  | |- Sane _ _ (mv _) => unfold mv; cbn [for_ fst snd]; sane
  | |- Sane _ _ (abs_set _ _ _) => unfold abs_set; sane
  | |- Sane _ _ (abs_set_wait _ _) => unfold abs_set_wait; sane
  | |- Sane _ _ (sleep _) => unfold sleep; sane
  | |- Sane _ _ (wait _) => unfold wait; sane
  | |- Sane _ _ (trigger _ _) => unfold trigger; sane
  | |- Sane _ _ (for_ _ _) => apply Sane_for; intros; sane
  | |- Sane _ _ (finalize_wrapper _ _) => apply Sane_finalize; sane
  | |- _ => idtac
  end.

Lemma one_point z : Qeq_bool (inject_Z (z - 1)) 0 = true -> z = 1%Z.
Proof.
  intros H. apply Qeq_bool_eq in H. unfold Qeq in H. cbn in H. lia.
Qed.

Lemma Sane_stage_speed P (X : Env -> Exn -> Prop) r d :
  ((xnum r = 1%Z \/ d == 0) -> forall e, X e ZeroDivisionError) ->
  Sane P X (stage_speed r d).
Proof.
  intros H. unfold stage_speed, py_div. apply Sane_bind.
  - destruct (Qeq_bool (inject_Z (xnum r - 1)) 0) eqn:E; [|apply Sane_ret].
    apply Sane_raise. apply H. left. apply one_point. exact E.
  - intros q. destruct (Qeq_bool d 0) eqn:E; [|apply Sane_ret].
    apply Sane_raise. apply H. right. apply Qeq_bool_eq. exact E.
Qed.

Section Meekly.

Variable P : Event -> Prop.
Variable X : Env -> Exn -> Prop.
Hypothesis HP : Meek P.
Hypothesis HX : Fair X.

Lemma Sane_wait_for_start n r delta x_set :
  forall x_dial i, Sane P X (wait_for_start n r delta x_set x_dial i).
Proof.
  induction n as [|n IH]; intros x_dial i; rewrite wait_for_start_eq;
    destruct (Qle_bool (Qabs (x_set - x_dial)) (DEADBAND r)).
  - apply Sane_ret.
  - apply Sane_spin.
  - apply Sane_ret.
  - apply Sane_bind; [sane|]. intros _.
    apply Sane_bind; [sane|]. intros _.
    apply Sane_bind; [sane|]. intros _.
    apply Sane_bind; [sane|]. intros x. apply IH.
Qed.

Lemma Sane_fly_each_step r dwell delta motor step :
  ((xnum r = 1%Z \/ dwell == 0) -> forall e, X e ZeroDivisionError) ->
  Sane P X (fly_each_step r dwell delta motor step).
Proof.
  intros HZ.
  unfold fly_each_step, move_to_start_fly, one_1d_step, trigger_and_read,
    zebra_kickoff, zebra_complete, zebra_collect, kickoff_wait, complete, collect.
  apply Sane_stage_wrapper; [exact HP | exact HX |].
  apply Sane_bind; [cbn [for_ app]; sane|]. intros _. cbv zeta.
  apply Sane_bind; [sane|]. intros x_dial.
  apply Sane_bind; [sane|]. intros e.
  apply Sane_bind; [apply Sane_wait_for_start|]. intros i.
  apply Sane_bind; [sane|]. intros _.
  apply Sane_bind; [apply Sane_stage_speed; exact HZ|]. intros v.
  sane.
Qed.

Lemma Sane_plan_body r dwell delta xs :
  ((xnum r = 1%Z \/ dwell == 0) -> forall e, X e ZeroDivisionError) ->
  Sane P X (plan_body r dwell delta xs).
Proof.
  intros HZ. unfold plan_body.
  apply Sane_bind; [sane|]. intros _.
  apply Sane_bind; [sane|]. intros _. cbv zeta.
  apply Sane_bind; [|intros; sane].
  apply Sane_for_acc. intros ystep step.
  apply Sane_bind; [sane|]. intros _. cbv zeta.
  apply Sane_bind; [sane|]. intros _.
  apply Sane_bind; [apply Sane_fly_each_step; exact HZ|]. intros _.
  apply Sane_ret.
Qed.

Hypothesis HB : Books P.

Lemma Sane_plan r dwell delta xs md ox oy :
  ((xnum r = 1%Z \/ dwell == 0) -> forall e, X e ZeroDivisionError) ->
  Sane P X (plan r dwell delta xs md ox oy).
Proof.
  intros HZ. unfold plan.
  do 3 (apply Sane_subs_wrapper; [exact HP | exact HB | exact HX |]).
  apply Sane_monitor_during.
  apply Sane_stage_wrapper; [exact HP | exact HX |].
  apply Sane_run_wrapper; [exact HP | exact HB | exact HX |].
  apply Sane_plan_body. exact HZ.
Qed.

(** What comes before the shutter is opened: to the erasing of the first
    detector. *)
Lemma Sane_assign_detectors r :
  (forall e x, own_exception e r x -> X e x) -> Sane P X (assign_detectors r).
Proof.
  intros Hown c st o st' t E. unfold assign_detectors, bind, ask in E.
  destruct (knows_detectors (env c) (detectors r)) eqn:K.
  - unfold emit in E. inversion E; subst.
    split; [repeat constructor; apply Meek_det; exact HP | intros y Hy; discriminate Hy].
  - unfold raise in E. inversion E; subst. split; [constructor|].
    intros y Hy. inversion Hy; subst. apply Hown. right. left. split; [reflexivity | exact K].
Qed.

Lemma Sane_scan r :
  (forall e x, own_exception e r x -> X e x) ->
  (shutter r = true -> forall s, P (EMsg (Mset shut_b (VStr s) (GFresh "mv")))) ->
  (contains "hf_stage" (motor_name (xmotor r)) = true ->
   P (ECall "hf_stage.reset_stage_defaults")) ->
  Sane P X (scan_and_fly_base r).
Proof.
  intros Hown Hshut Hreset. unfold scan_and_fly_base.
  destruct (Z.ltb (xnum r) 1 || Z.ltb (ynum r) 1); [sane|].
  assert (HZ : (xnum r = 1%Z \/ scan_dwell r == 0) -> forall e, X e ZeroDivisionError).
  { intros H e. apply Hown. left. split; [reflexivity | exact H]. }
  apply Sane_bind; [unfold change_retry_deadband; sane|]. intros [ox oy].
  apply Sane_bind; [apply Sane_assign_detectors; exact Hown|]. intros _.
  apply Sane_bind_val; [unfold setup_merlin; sane|].
  intros dw (c0 & s0 & s1 & t1 & Edw).
  assert (dw = scan_dwell r) as ->.
  { destruct (does_setup_merlin c0 r s0) as (sx & Ex & _). rewrite Ex in Edw.
    inversion Edw. reflexivity. }
  apply Sane_bind; [unfold setup_dexela; sane|]. intros _.
  apply Sane_bind.
  { unfold derive_delta. destruct (delta r); [apply Sane_ret|].
    apply Sane_bind; [apply Sane_stage_speed; exact HZ | intros; sane]. }
  intros dl.
  apply Sane_bind; [sane|]. intros _.
  apply Sane_bind; [sane|]. intros _.
  apply Sane_bind; [sane|]. intros e. cbv zeta.
  apply Sane_bind.
  { destruct (detectors r) eqn:D; [|apply Sane_ret].
    apply Sane_raise. intros e0. apply Hown. right. right. split; [reflexivity | exact D]. }
  intros xs.
  apply Sane_bind; [sane|]. intros _.
  assert (Hplan : Sane P X (plan r (scan_dwell r) dl xs (scan_md r e (scan_dwell r) dl) ox oy))
    by (apply Sane_plan; exact HZ).
  assert (Hmv : shutter r = true -> forall s, Sane P X (mv [(shut_b, VStr s)])).
  { intros Hs s. unfold mv. cbn [for_ fst snd].
    apply Sane_bind; [|intros; sane].
    apply Sane_bind; [|intros; sane].
    apply Sane_yield; [exact HP | exact HX | apply Hshut; exact Hs]. }
  apply Sane_bind.
  { destruct (shutter r); [apply Hmv; reflexivity | apply Sane_ret]. }
  intros _.
  apply Sane_bind.
  { destruct (shutter r); [|exact Hplan].
    apply Sane_finalize; [exact Hplan | apply Hmv; reflexivity]. }
  intros uid.
  apply Sane_bind; [|intros; apply Sane_ret].
  destruct (contains "hf_stage" (motor_name (xmotor r))) eqn:Hn; [|apply Sane_ret].
  intros c st o st' t E. unfold call_reset_stage_defaults in E. inversion E; subst.
  split; [repeat constructor; apply Hreset; reflexivity | intros y Hy; discriminate Hy].
Qed.

End Meekly.

(** ** Where the exceptions of a scan come from *)



Lemma Fair_any : Fair any_exception.
Proof. intros e x _. exact I. Qed.



(** ** The shutter *)

Lemma pick_none {X} (f : Event -> option X) t :
  Forall (fun ev => f ev = None) t -> pick f t = [].
Proof.
  induction 1 as [|ev t H _ IH]; [reflexivity|].
  rewrite pick_cons, H, IH. reflexivity.
Qed.

Lemma Meek_no_shutter : Meek no_shutter.
Proof.
  unfold Meek, no_shutter. repeat split.
  intros m _ H. destruct m; try reflexivity.
  destruct obj as [d a]. destruct val; try reflexivity. discriminate H.
Qed.

Lemma Books_no_shutter : Books no_shutter.
Proof. intros m H. destruct m; try reflexivity. discriminate H. Qed.

Lemma Meek_before_run : Meek before_run.
Proof.
  unfold Meek, before_run.
  split; [intros; split; reflexivity|].
  split; [split; reflexivity|].
  split; [intros; split; reflexivity|].
  split; [intros; split; reflexivity|].
  split; [intros; split; reflexivity|].
  intros m Hp H. split.
  - destruct m; try reflexivity.
    destruct obj as [d a]. destruct val; try reflexivity. discriminate H.
  - destruct m; try reflexivity. discriminate Hp.
Qed.

Lemma before_run_picks t :
  Forall before_run t -> pick shutter_set t = [] /\ pick opened t = [].
Proof.
  intros H. split; apply pick_none; eapply Forall_impl; [|exact H| |exact H];
    intros ev [H1 H2]; assumption.
Qed.

(** X2.  With [shutter=False] no message at all goes to the shutter,
    however the scan ends. *)
Theorem shutter_left_alone_when_not_asked_for r e st :
  shutter r = false ->
  pick shutter_set (trace (run (scan_and_fly_base r) e st)) = [].
Proof.
  intros Hs. unfold run, trace.
  destruct (scan_and_fly_base r {| env := e; monitored := [] |} st) as [[o st'] t] eqn:E.
  cbn [snd].
  assert (H : Sane no_shutter any_exception (scan_and_fly_base r)).
  { apply Sane_scan.
    - exact Meek_no_shutter.
    - exact Fair_any.
    - exact Books_no_shutter.
    - intros e0 x0 _. exact I.
    - intros H. rewrite Hs in H. discriminate H.
    - intros _. reflexivity. }
  destruct (H _ _ _ _ _ E) as [F _]. apply pick_none. exact F.
Qed.

(** A scan of two rows in which the zebra fails to complete. *)
Lemma shutter_left_alone_when_not_asked_for_witness :
  pick shutter_set
    (trace (run (scan_and_fly_base
                   (with_shutter false (request ["xs"] 0 10 11 0 1 2 0.5)))
              (beamline (-2) complete_fails) (start_state pv_start)))
  = [].
Proof.
  apply (shutter_left_alone_when_not_asked_for
           (with_shutter false (request ["xs"] 0 10 11 0 1 2 0.5))).
  reflexivity.
Defined.

Lemma mv_shutter s c st o st' t :
  mv [(shut_b, VStr s)] c st = (o, st', t) ->
  o <> Spin /\ pick shutter_set t = [s] /\ pick opened t = [].
Proof.
  unfold mv. cbn [for_ fst snd]. unfold bind, yield_, ret. cbv beta. cbn [process].
  intros E.
  destruct (fault (env c) (nmsgs st) (Mset shut_b (VStr s) (GFresh "mv"))).
  - inversion E; subst. split; [discriminate | split; reflexivity].
  - cbn [process app] in E.
    match type of E with
    | context [fault ?e ?k ?m] => destruct (fault e k m)
    end; inversion E; subst; (split; [discriminate | split; reflexivity]).
Qed.

Lemma shut_bind {A B} (p : Plan A) (k : A -> Plan B) c st o st' t :
  bind p k c st = (o, st', t) -> Sane before_run any_exception p ->
  (forall a s1 o2 s2 t2, k a c s1 = (o2, s2, t2) -> shut o2 t2) ->
  shut o t.
Proof.
  intros E Hp Hk. unfold bind in E.
  destruct (p c st) as [[o1 s1] t1] eqn:E1.
  destruct (Hp _ _ _ _ _ E1) as [F1 _].
  destruct (before_run_picks t1 F1) as [P1 P2].
  destruct o1 as [a|x|].
  - destruct (k a c s1) as [[o2 s2] t2] eqn:E2. inversion E; subst.
    destruct (Hk _ _ _ _ _ E2) as [H|[H|H]].
    + left. exact H.
    + right. left. rewrite pick_app, P2, H. reflexivity.
    + right. right. rewrite pick_app, P1, H. reflexivity.
  - inversion E; subst. right. left. exact P2.
  - inversion E; subst. left. reflexivity.
Qed.

Lemma closes_finalize {A} (p : Plan A) c st o st' t :
  finalize_wrapper p (mv [(shut_b, VStr "Close")]) c st = (o, st', t) ->
  Sane no_shutter any_exception p -> closes o t.
Proof.
  intros E Hp. unfold finalize_wrapper in E.
  destruct (p c st) as [[o1 s1] t1] eqn:E1.
  destruct (Hp _ _ _ _ _ E1) as [F1 _].
  assert (P1 : pick shutter_set t1 = []) by (apply pick_none; exact F1).
  destruct o1 as [a|x|].
  - destruct (mv [(shut_b, VStr "Close")] c s1) as [[o2 s2] t2] eqn:E2.
    destruct (mv_shutter _ _ _ _ _ _ E2) as (N & S2 & _).
    destruct o2; inversion E; subst; right; rewrite pick_app, P1, S2; reflexivity.
  - destruct (mv [(shut_b, VStr "Close")] c s1) as [[o2 s2] t2] eqn:E2.
    destruct (mv_shutter _ _ _ _ _ _ E2) as (N & S2 & _).
    destruct o2; inversion E; subst; right; rewrite pick_app, P1, S2; reflexivity.
  - inversion E; subst. left. reflexivity.
Qed.

Lemma closes_bind {A B} (p : Plan A) (k : A -> Plan B) c st o st' t :
  bind p k c st = (o, st', t) ->
  (forall o1 s1 t1, p c st = (o1, s1, t1) -> closes o1 t1) ->
  (forall a, Sane no_shutter any_exception (k a)) ->
  closes o t.
Proof.
  intros E Hp Hk. unfold bind in E.
  destruct (p c st) as [[o1 s1] t1] eqn:E1.
  destruct (Hp _ _ _ eq_refl) as [H|H].
  - subst o1. inversion E; subst. left. reflexivity.
  - destruct o1 as [a|x|].
    + destruct (k a c s1) as [[o2 s2] t2] eqn:E2. inversion E; subst.
      destruct (Hk a _ _ _ _ _ E2) as [F2 _].
      right. rewrite pick_app, H, (pick_none _ _ F2). reflexivity.
    + inversion E; subst. right. exact H.
    + inversion E; subst. left. reflexivity.
Qed.

(** The scan with the shutter in use, whatever fails. *)
Lemma scan_shut r c st o st' t :
  shutter r = true -> scan_and_fly_base r c st = (o, st', t) -> shut o t.
Proof.
  intros Hs E. unfold scan_and_fly_base in E.
  pose proof Meek_before_run as HP. pose proof Fair_any as HX.
  pose proof Meek_no_shutter as HP'. pose proof Books_no_shutter as HB'.
  destruct (Z.ltb (xnum r) 1 || Z.ltb (ynum r) 1).
  { unfold bind, print, emit, ret in E. inversion E; subst. right. left. reflexivity. }
  eapply shut_bind; [exact E | unfold change_retry_deadband; sane |].
  intros [ox oy] s1 o1 s1' t1 E1.
  eapply shut_bind; [exact E1 | |].
  { apply Sane_assign_detectors; [exact HP | intros; exact I]. }
  intros ? s2 o2 s2' t2 E2.
  eapply shut_bind; [exact E2 | unfold setup_merlin; sane |].
  intros dw s3 o3 s3' t3 E3.
  eapply shut_bind; [exact E3 | unfold setup_dexela; sane |].
  intros ? s4 o4 s4' t4 E4.
  eapply shut_bind; [exact E4 | |].
  { unfold derive_delta. destruct (delta r); [apply Sane_ret|].
    apply Sane_bind; [apply Sane_stage_speed; intros; exact I | intros; sane]. }
  intros dl s5 o5 s5' t5 E5.
  eapply shut_bind; [exact E5 | sane |].
  intros ? s6 o6 s6' t6 E6.
  eapply shut_bind; [exact E6 | sane |].
  intros ? s7 o7 s7' t7 E7.
  eapply shut_bind; [exact E7 | sane |].
  intros e s8 o8 s8' t8 E8. cbv zeta in E8.
  eapply shut_bind; [exact E8 | |].
  { destruct (detectors r); [apply Sane_raise; intros; exact I | apply Sane_ret]. }
  intros xs s9 o9 s9' t9 E9.
  eapply shut_bind; [exact E9 | sane |].
  intros ? s10 o10 s10' t10 E10.
  rewrite Hs in E10. unfold bind at 1 in E10.
  destruct (mv [(shut_b, VStr "Open")] c s10) as [[om sm] tm] eqn:Em.
  destruct (mv_shutter _ _ _ _ _ _ Em) as (Nm & Sm & Om).
  destruct om as [u|x|]; [| | exfalso; apply Nm; reflexivity].
  - match type of E10 with
    | context [bind ?p ?k c sm] => destruct (bind p k c sm) as [[ofin sfin] tfin] eqn:Ef
    end.
    inversion E10; subst.
    assert (Hc : closes o10 tfin).
    { eapply closes_bind; [exact Ef | |].
      - intros o1' s1'' t1' Ep. eapply closes_finalize; [exact Ep|].
        apply Sane_plan; [exact HP' | exact HX | exact HB' | intros; exact I].
      - intros uid. apply Sane_bind; [|intros; apply Sane_ret].
        destruct (contains "hf_stage" (motor_name (xmotor r))); [|apply Sane_ret].
        intros c0 st0 o0 st0' t0 E0. unfold call_reset_stage_defaults in E0.
        inversion E0; subst. split; [repeat constructor | intros y Hy; discriminate Hy]. }
    destruct Hc as [H|H].
    + left. exact H.
    + right. right. rewrite pick_app, Sm, H. reflexivity.
  - inversion E10; subst. right. left. exact Om.
Qed.

(** X3.  With the shutter in use, once the run is opened the shutter is
    told to close after it was told to open, whatever then fails or is
    aborted, unless the scan stays in its loop for ever. *)
Theorem shutter_closed_however_the_run_ends r e st :
  shutter r = true ->
  pick opened (trace (run (scan_and_fly_base r) e st)) <> [] ->
  outcome (run (scan_and_fly_base r) e st) <> Spin ->
  pick shutter_set (trace (run (scan_and_fly_base r) e st)) = ["Open"; "Close"].
Proof.
  unfold run, trace, outcome.
  destruct (scan_and_fly_base r {| env := e; monitored := [] |} st) as [[o st'] t] eqn:E.
  cbn [fst snd]. intros Hs Ho Hn.
  destruct (scan_shut r _ _ _ _ _ Hs E) as [H|[H|H]].
  - exfalso. apply Hn. exact H.
  - exfalso. apply Ho. exact H.
  - exact H.
Qed.

(** The zebra fails to complete in the first of two rows. *)
Lemma shutter_closed_however_the_run_ends_witness :
  pick shutter_set
    (trace (run (scan_and_fly_base (request ["xs"] 0 10 11 0 1 2 0.5))
              (beamline (-2) complete_fails) (start_state pv_start)))
  = ["Open"; "Close"].
Proof.
  apply (shutter_closed_however_the_run_ends (request ["xs"] 0 10 11 0 1 2 0.5)).
  - reflexivity.
  - vm_compute. discriminate.
  - vm_compute. discriminate.
Defined.

(** ** The defaults of the stage *)

Lemma Meek_no_reset : Meek no_reset.
Proof. unfold Meek, no_reset. repeat split. Qed.

Lemma Books_no_reset : Books no_reset.
Proof. intros m _. reflexivity. Qed.

Lemma resets_bind {A B} (p : Plan A) (k : A -> Plan B) c st o st' t :
  bind p k c st = (o, st', t) -> Sane no_reset any_exception p ->
  (forall a s1 o2 s2 t2, k a c s1 = (o2, s2, t2) -> resets o2 t2) ->
  resets o t.
Proof.
  intros E Hp Hk. unfold bind in E.
  destruct (p c st) as [[o1 s1] t1] eqn:E1.
  destruct (Hp _ _ _ _ _ E1) as [F1 _].
  destruct o1 as [a|x|].
  - destruct (k a c s1) as [[o2 s2] t2] eqn:E2. inversion E; subst.
    destruct (Hk _ _ _ _ _ E2) as [(R & t0 & -> & F0)|(R & F2)].
    + left. split; [exact R|]. exists (t1 ++ t0). split.
      * rewrite app_assoc. reflexivity.
      * apply Forall_app. split; assumption.
    + right. split; [exact R | apply Forall_app; split; assumption].
  - inversion E; subst. right. split; [reflexivity | exact F1].
  - inversion E; subst. right. split; [reflexivity | exact F1].
Qed.

(** X4.  With [hf_stage] in the name of the fast axis,
    [hf_stage.reset_stage_defaults()] is called when the scan returns, as
    the last thing it does, and only then: a scan that ends with an
    exception, or in its loop, does not call it. *)
Theorem stage_defaults_reset_only_on_return r e st :
  (1 <= xnum r)%Z -> (1 <= ynum r)%Z ->
  contains "hf_stage" (motor_name (xmotor r)) = true ->
  resets (outcome (run (scan_and_fly_base r) e st))
    (trace (run (scan_and_fly_base r) e st)).
Proof.
  unfold run, trace, outcome.
  destruct (scan_and_fly_base r {| env := e; monitored := [] |} st) as [[o st'] t] eqn:E.
  cbn [fst snd]. intros Hx Hy Hn.
  set (c := {| env := e; monitored := [] |}) in *.
  unfold scan_and_fly_base in E. rewrite valid_counts in E by assumption.
  pose proof Meek_no_reset as HP. pose proof Fair_any as HX.
  pose proof Books_no_reset as HB.
  eapply resets_bind; [exact E | unfold change_retry_deadband; sane |].
  intros [ox oy] s1 o1 s1' t1 E1.
  eapply resets_bind; [exact E1 | |].
  { apply Sane_assign_detectors; [exact HP | intros; exact I]. }
  intros ? s2 o2 s2' t2 E2.
  eapply resets_bind; [exact E2 | unfold setup_merlin; sane |].
  intros dw s3 o3 s3' t3 E3.
  eapply resets_bind; [exact E3 | unfold setup_dexela; sane |].
  intros ? s4 o4 s4' t4 E4.
  eapply resets_bind; [exact E4 | |].
  { unfold derive_delta. destruct (delta r); [apply Sane_ret|].
    apply Sane_bind; [apply Sane_stage_speed; intros; exact I | intros; sane]. }
  intros dl s5 o5 s5' t5 E5.
  eapply resets_bind; [exact E5 | sane |].
  intros ? s6 o6 s6' t6 E6.
  eapply resets_bind; [exact E6 | sane |].
  intros ? s7 o7 s7' t7 E7.
  eapply resets_bind; [exact E7 | sane |].
  intros e' s8 o8 s8' t8 E8. cbv zeta in E8.
  eapply resets_bind; [exact E8 | |].
  { destruct (detectors r); [apply Sane_raise; intros; exact I | apply Sane_ret]. }
  intros xs s9 o9 s9' t9 E9.
  eapply resets_bind; [exact E9 | sane |].
  intros ? s10 o10 s10' t10 E10.
  assert (Hmv : forall s, Sane no_reset any_exception (mv [(shut_b, VStr s)])).
  { intros s. unfold mv. cbn [for_ fst snd].
    apply Sane_bind; [|intros; sane].
    apply Sane_bind; [|intros; sane].
    apply Sane_yield; [exact HP | exact HX | reflexivity]. }
  assert (Hplan : Sane no_reset any_exception
                    (plan r dw dl xs (scan_md r e' dw dl) ox oy)).
  { apply Sane_plan; [exact HP | exact HX | exact HB | intros; exact I]. }
  eapply resets_bind; [exact E10 | |].
  { destruct (shutter r); [apply Hmv | apply Sane_ret]. }
  intros ? s11 o11 s11' t11 E11.
  eapply resets_bind; [exact E11 | |].
  { destruct (shutter r); [|exact Hplan].
    apply Sane_finalize; [exact Hplan | apply Hmv]. }
  intros uid s12 o12 s12' t12 E12.
  rewrite Hn in E12.
  unfold bind, call_reset_stage_defaults, ret in E12. inversion E12; subst.
  left. split; [reflexivity|]. exists []. split; [reflexivity | constructor].
Qed.

(** The zebra fails to complete in the first of two rows: the defaults of
    the stage are not reset. *)
Lemma stage_defaults_reset_only_on_return_witness :
  resets
    (outcome (run (scan_and_fly_base (request ["xs"] 0 10 11 0 1 2 0.5))
                (beamline (-2) complete_fails) (start_state pv_start)))
    (trace (run (scan_and_fly_base (request ["xs"] 0 10 11 0 1 2 0.5))
              (beamline (-2) complete_fails) (start_state pv_start))).
Proof.
  apply (stage_defaults_reset_only_on_return (request ["xs"] 0 10 11 0 1 2 0.5)).
  - cbn. lia.
  - cbn. lia.
  - reflexivity.
Defined.

(** ** The deadbands when no run is opened *)

(** X5.  Whatever fails at a device, a scan that ends before its run is
    opened writes back no deadband: the retry deadbands it has changed stay
    at the new value. *)
Theorem deadbands_stay_changed_without_a_run r e st :
  sound e -> subs st = [] -> (1 <= xnum r)%Z -> (1 <= ynum r)%Z ->
  outcome (run (scan_and_fly_base r) e st) <> Spin ->
  pick opened (trace (run (scan_and_fly_base r) e st)) = [] ->
  pick deadband_write (trace (run (scan_and_fly_base r) e st)) = installs e r.
Proof.
  unfold run, trace, outcome.
  destruct (scan_and_fly_base r {| env := e; monitored := [] |} st) as [[o st'] t] eqn:E.
  cbn [fst snd]. intros Hs Hsubs Hx Hy Hn Ho.
  destruct (scan_good r {| env := e; monitored := [] |} st o st' t Hs Hsubs Hx Hy E)
    as (t2 & -> & G).
  cbn [env] in *.
  destruct (deadband_trace_sums e r 0) as (O1 & W1 & _).
  rewrite pick_app in Ho. rewrite O1 in Ho. cbn [app] in Ho.
  rewrite pick_app, W1.
  destruct G as [G|[(O2 & W2 & _)|(md & O2 & _)]].
  - exfalso. apply Hn. exact G.
  - rewrite W2. apply app_nil_r.
  - rewrite O2 in Ho. discriminate Ho.
Qed.

Lemma sound_no_faults x : sound (beamline x no_faults).
Proof. intros k m _. reflexivity. Qed.

(** A scan with a single fast-axis point ends with a division by zero
    before its run, and leaves both deadbands at 2e-4. *)
Lemma deadbands_stay_changed_without_a_run_witness :
  pick deadband_write
    (trace (run (scan_and_fly_base (request ["xs"] 0 10 1 0 1 2 0.5))
              (beamline 0 no_faults) (start_state pv_start)))
  = [(RETRY_DEADBAND_X, VNum NEW_RDBD_X); (RETRY_DEADBAND_Y, VNum NEW_RDBD_Y)].
Proof.
  apply (deadbands_stay_changed_without_a_run (request ["xs"] 0 10 1 0 1 2 0.5)
           (beamline 0 no_faults) (start_state pv_start)).
  - apply sound_no_faults.
  - reflexivity.
  - cbn. lia.
  - cbn. lia.
  - vm_compute. discriminate.
  - vm_compute. reflexivity.
Defined.

(** ** Scans that cannot return *)

Lemma NoRet_bind_l {A B} (p : Plan A) (k : A -> Plan B) : NoRet p -> NoRet (bind p k).
Proof.
  intros Hp c st o st' t E. unfold bind in E.
  destruct (p c st) as [[o1 s1] t1] eqn:E1.
  pose proof (Hp _ _ _ _ _ E1) as R.
  destruct o1 as [a|x|]; [discriminate R | |]; inversion E; reflexivity.
Qed.

Lemma NoRet_bind_r {A B} (p : Plan A) (k : A -> Plan B) :
  (forall a, (exists c st st1 t1, p c st = (Ret a, st1, t1)) -> NoRet (k a)) ->
  NoRet (bind p k).
Proof.
  intros Hk c st o st' t E. unfold bind in E.
  destruct (p c st) as [[o1 s1] t1] eqn:E1.
  destruct o1 as [a|x|]; [| inversion E; reflexivity | inversion E; reflexivity].
  destruct (k a c s1) as [[o2 s2] t2] eqn:E2. inversion E; subst.
  assert (Hq : NoRet (k a)) by (apply Hk; exists c, st, s1, t1; exact E1).
  apply (Hq _ _ _ _ _ E2).
Qed.

Lemma NoRet_finalize {A} (p : Plan A) (f : Plan unit) :
  NoRet p -> NoRet (finalize_wrapper p f).
Proof.
  intros Hp c st o st' t E. unfold finalize_wrapper in E.
  destruct (p c st) as [[o1 s1] t1] eqn:E1.
  pose proof (Hp _ _ _ _ _ E1) as R.
  destruct o1 as [a|x|]; [discriminate R | |].
  - destruct (f c s1) as [[o2 s2] t2]. destruct o2; inversion E; reflexivity.
  - inversion E; reflexivity.
Qed.

Lemma NoRet_contingency {A} (p : Plan A) (ex : Exn -> Plan unit) (el : Plan unit) :
  NoRet p -> NoRet (contingency_wrapper p ex el).
Proof.
  intros Hp c st o st' t E. unfold contingency_wrapper in E.
  destruct (p c st) as [[o1 s1] t1] eqn:E1.
  pose proof (Hp _ _ _ _ _ E1) as R.
  destruct o1 as [a|x|]; [discriminate R | |].
  - destruct (ex x c s1) as [[o2 s2] t2]. destruct o2; inversion E; reflexivity.
  - inversion E; reflexivity.
Qed.

Lemma NoRet_subs_wrapper {A} (p : Plan A) name func :
  NoRet p -> NoRet (subs_wrapper p name func).
Proof.
  intros Hp c st o st' t E. unfold subs_wrapper in E.
  destruct (subscribe name func c st) as [[o1 s1] t1].
  destruct o1 as [token|x|]; [| inversion E; reflexivity | inversion E; reflexivity].
  destruct (finalize_wrapper p (yield_ (Munsubscribe token)) c s1) as [[o2 s2] t2] eqn:E2.
  inversion E; subst. apply (NoRet_finalize p _ Hp _ _ _ _ _ E2).
Qed.

Lemma NoRet_stage_wrapper {A} (p : Plan A) devices :
  NoRet p -> NoRet (stage_wrapper p devices).
Proof.
  intros Hp. unfold stage_wrapper. apply NoRet_finalize.
  apply NoRet_bind_r. intros _ _. exact Hp.
Qed.

Lemma NoRet_run_wrapper {A} (body : Plan A) md : NoRet body -> NoRet (run_wrapper body md).
Proof.
  intros Hb. unfold run_wrapper. apply NoRet_bind_r. intros uid _.
  apply NoRet_bind_l. apply NoRet_contingency. exact Hb.
Qed.

Lemma NoRet_stage_speed r d : xnum r = 1%Z \/ d == 0 -> NoRet (stage_speed r d).
Proof.
  intros H c st o st' t E. unfold stage_speed, bind, py_div, raise, ret in E.
  destruct (Qeq_bool (inject_Z (xnum r - 1)) 0) eqn:E1; [inversion E; reflexivity|].
  destruct (Qeq_bool d 0) eqn:E2; [inversion E; reflexivity|].
  exfalso. destruct H as [H|H].
  - rewrite H in E1. discriminate E1.
  - apply Qeq_eq_bool in H. rewrite H in E2. discriminate E2.
Qed.

Lemma NoRet_fly_each_step r dwell delta motor step :
  xnum r = 1%Z \/ dwell == 0 -> NoRet (fly_each_step r dwell delta motor step).
Proof.
  intros H. unfold fly_each_step. apply NoRet_stage_wrapper.
  apply NoRet_bind_r. intros ? _. cbv zeta.
  apply NoRet_bind_r. intros x_dial _.
  apply NoRet_bind_r. intros e _.
  apply NoRet_bind_r. intros i _.
  apply NoRet_bind_r. intros ? _.
  apply NoRet_bind_l. apply NoRet_stage_speed. exact H.
Qed.

Lemma NoRet_plan r dwell delta xs md ox oy :
  (1 <= ynum r)%Z -> xnum r = 1%Z \/ dwell == 0 ->
  NoRet (plan r dwell delta xs md ox oy).
Proof.
  intros Hy H. unfold plan.
  do 3 apply NoRet_subs_wrapper.
  intros c st o st' t E. unfold monitor_during_wrapper in E. revert E.
  apply NoRet_stage_wrapper. apply NoRet_run_wrapper.
  unfold plan_body.
  apply NoRet_bind_r. intros ? _.
  apply NoRet_bind_r. intros ? _. cbv zeta.
  apply NoRet_bind_l.
  pose proof (length_np_linspace (ystart r) (ystop r) (ynum r)) as L.
  destruct (np_linspace (ystart r) (ystop r) (ynum r)) as [|y ys].
  { exfalso. cbn [List.length] in L. lia. }
  cbn [for_acc]. apply NoRet_bind_l.
  apply NoRet_bind_r. intros ? _. cbv zeta.
  apply NoRet_bind_r. intros ? _.
  apply NoRet_bind_l. apply NoRet_fly_each_step. exact H.
Qed.

(** X6.  A scan with a single fast-axis point, or with a dwell of zero,
    never returns, whether [delta] is given or not and whatever the devices
    do: it ends with an exception (or in its loop). *)
Theorem scan_without_a_speed_never_returns r e st :
  (1 <= xnum r)%Z -> (1 <= ynum r)%Z -> xnum r = 1%Z \/ scan_dwell r == 0 ->
  returned (outcome (run (scan_and_fly_base r) e st)) = false.
Proof.
  unfold run, outcome.
  destruct (scan_and_fly_base r {| env := e; monitored := [] |} st) as [[o st'] t] eqn:E.
  cbn [fst]. intros Hx Hy H. revert E.
  generalize {| env := e; monitored := [] |}. intros c E. revert c st o st' t E.
  change (NoRet (scan_and_fly_base r)).
  unfold scan_and_fly_base. rewrite valid_counts by assumption.
  apply NoRet_bind_r. intros [ox oy] _.
  apply NoRet_bind_r. intros ? _.
  apply NoRet_bind_r. intros dw (c0 & s0 & s1 & t1 & Edw).
  assert (dw = scan_dwell r) as ->.
  { destruct (does_setup_merlin c0 r s0) as (sx & Ex & _). rewrite Ex in Edw.
    inversion Edw. reflexivity. }
  apply NoRet_bind_r. intros ? _.
  apply NoRet_bind_r. intros dl _.
  apply NoRet_bind_r. intros ? _.
  apply NoRet_bind_r. intros ? _.
  apply NoRet_bind_r. intros e' _. cbv zeta.
  apply NoRet_bind_r. intros xs _.
  apply NoRet_bind_r. intros ? _.
  apply NoRet_bind_r. intros ? _.
  apply NoRet_bind_l.
  destruct (shutter r); [apply NoRet_finalize|]; apply NoRet_plan; assumption.
Qed.

(** A single fast-axis point with [delta] given: the division by zero is
    that of the first row. *)
Lemma scan_without_a_speed_never_returns_witness :
  returned
    (outcome (run (scan_and_fly_base (with_delta 1 (request ["xs"] 0 10 1 0 1 2 0.5)))
                (beamline (-1) no_faults) (start_state pv_start)))
  = false.
Proof.
  apply (scan_without_a_speed_never_returns
           (with_delta 1 (request ["xs"] 0 10 1 0 1 2 0.5))).
  - cbn. lia.
  - cbn. lia.
  - left. reflexivity.
Defined.

(** ** A scan without detectors *)

Lemma raises_bind_silent {A B} (p : Plan A) (k : A -> Plan B) c st a e t n :
  does p c st a [] n ->
  (forall st1, raises (k a) c st1 e t) ->
  raises (bind p k) c st e t.
Proof. intros Hp Hk. apply (raises_bind_does p k c st a e [] t n Hp Hk). Qed.

(** X7.  With an empty list of detectors (and two or more fast-axis points,
    a dwell that is not zero, nothing failing at a device) the scan ends
    with [IndexError] where it takes the first detector: after the
    deadbands are changed and both axes are moved to the start, before the
    shutter is opened and a run is opened. *)
Theorem no_detector_fails_after_the_move r e st :
  calm e -> detectors r = [] -> knows_detectors e [] = true ->
  xnum r <> 1%Z -> (1 <= xnum r)%Z -> (1 <= ynum r)%Z -> ~ scan_dwell r == 0 ->
  exists st',
    run (scan_and_fly_base r) e st
    = (Raise IndexError, st',
       deadband_trace r e
       ++ [ESetDetectors (flyer_name (flying_zebra r)) []]
       ++ merlin_trace r ++ dexela_trace r
       ++ mv_trace [(positioner (xmotor r),
                     VNum (xstart r - scan_delta r (scan_dwell r)));
                    (positioner (ymotor r), VNum (ystart r))]
       ++ (if align r then [EMsg (Mpeakup_fine (shutter r))] else [])).
Proof.
  intros Hc Hd Hk Hx1 Hx Hy Hdw.
  unfold run, scan_and_fly_base. rewrite valid_counts by assumption.
  set (c := {| env := e; monitored := [] |}).
  assert (Hcalm : calm (env c)) by exact Hc.
  change (raises
    (old <- change_retry_deadband r ;;
     (let (OLD_RDBD_X, OLD_RDBD_Y) := old in
      assign_detectors r ;;
      dwell <- setup_merlin r ;;
      setup_dexela r dwell ;;
      delta <- derive_delta r dwell ;;
      mv [(positioner (xmotor r), VNum (xstart r - delta));
          (positioner (ymotor r), VNum (ystart r))] ;;
      (if align r then yield_ (Mpeakup_fine (shutter r)) else ret tt) ;;
      e <- ask ;;
      let md := scan_md r e dwell delta in
      xs <- match detectors r with
            | [] => raise IndexError
            | d :: _ => ret d
            end ;;
      mv [(Sig xs "erase", VInt 0)] ;;
      let final_plan :=
        if shutter r then
          finalize_wrapper (plan r dwell delta xs md OLD_RDBD_X OLD_RDBD_Y)
            (mv [(shut_b, VStr "Close")])
        else plan r dwell delta xs md OLD_RDBD_X OLD_RDBD_Y in
      (if shutter r then mv [(shut_b, VStr "Open")] else ret tt) ;;
      uid <- final_plan ;;
      (if contains "hf_stage" (motor_name (xmotor r)) then call_reset_stage_defaults
       else ret tt) ;;
      ret (Some uid)))%plan c st IndexError
    (deadband_trace r e
     ++ [ESetDetectors (flyer_name (flying_zebra r)) []]
     ++ merlin_trace r ++ dexela_trace r
     ++ mv_trace [(positioner (xmotor r),
                   VNum (xstart r - scan_delta r (scan_dwell r)));
                  (positioner (ymotor r), VNum (ystart r))]
     ++ (if align r then [EMsg (Mpeakup_fine (shutter r))] else []))).
  eapply raises_bind_does; [apply does_change_retry_deadband|].
  intros st1. cbv beta iota.
  eapply raises_bind_does.
  { rewrite <- Hd. apply does_assign_detectors. rewrite Hd. exact Hk. }
  intros st2. cbv beta.
  eapply raises_bind_does; [apply does_setup_merlin|].
  intros st3. cbv beta.
  eapply raises_bind_does; [apply does_setup_dexela|].
  intros st4. cbv beta.
  eapply raises_bind_silent; [apply does_derive_delta; assumption|].
  intros st5. cbv beta.
  eapply raises_bind_does; [apply does_mv; exact Hcalm|].
  intros st6. cbv beta.
  rewrite <- (app_nil_r (if align r then _ else _)).
  eapply raises_bind_does.
  { apply does_if; [apply does_yield; [exact Hcalm | reflexivity] | apply does_ret]. }
  intros st7. cbv beta.
  eapply raises_bind_silent; [apply does_ask|].
  intros st8. cbv beta zeta.
  apply raises_bind. rewrite Hd. unfold raises, raise. eexists. reflexivity.
Qed.

Lemma no_detector_fails_after_the_move_witness :
  exists st',
    run (scan_and_fly_base (request [] 0 10 11 0 1 2 0.5)) (beamline 0 no_faults)
      (start_state pv_start)
    = (Raise IndexError, st',
       [EPut RETRY_DEADBAND_X (VNum NEW_RDBD_X); EPut RETRY_DEADBAND_Y (VNum NEW_RDBD_Y);
        ESetDetectors "flying_zebra" [];
        EMsg (Mset (Sig "hf_stage_x" "") (VNum (0 - scan_delta (request [] 0 10 11 0 1 2 0.5) 0.5))
                (GFresh "mv"));
        EMsg (Mset (Sig "hf_stage_y" "") (VNum 0) (GFresh "mv"));
        EMsg (Mwait (GFresh "mv"))]).
Proof.
  apply (no_detector_fails_after_the_move (request [] 0 10 11 0 1 2 0.5)
           (beamline 0 no_faults) (start_state pv_start)).
  - intros k m. reflexivity.
  - reflexivity.
  - reflexivity.
  - cbn. lia.
  - cbn. lia.
  - cbn. lia.
  - cbn. intros H. discriminate H.
Defined.

(** ** Scans in which nothing fails *)

Lemma smooth_run r e st :
  smooth e r -> subs st = [] ->
  exists xs ks,
    hd_error (detectors r) = Some xs /\
    List.length ks = Z.to_nat (ynum r) /\
    outcome (run (scan_and_fly_base r) e st) = Ret (Some (run_uid e)) /\
    trace (run (scan_and_fly_base r) e st)
    = scan_trace r e (pv st) (next_token st) xs ks.
Proof.
  intros Hs Hsubs.
  destruct (smooth_scan r e st Hs Hsubs) as (xs & ks & st' & Hd & Hlen & E).
  exists xs, ks. rewrite E. repeat split; assumption.
Qed.


(** The pieces of a row that have nothing of what is picked are dropped. *)
Ltac drop_row_pieces :=
  repeat match goal with
         | |- context [pick ?f ?t] =>
             let T := type of (pick f t) in
             lazymatch T with
             | list ?X =>
                 replace (pick f t) with (@nil X)
                   by (symmetry;
                       unfold move_to_start_trace, speed_trace, arm_trace, kickoff_trace,
                         before_fly, fly_trace, reset_trace, trigger_trace;
                       solve [no_pick])
             end
         end;
  cbn [app]; rewrite ?app_nil_r.

(** *** Staging *)





(** *** A fast axis that runs backwards *)





(** *** The start document *)





(** *** The time remaining *)

Lemma pick_row_remaining r e dwell delta v motor step k :
  pick remaining (row_trace r e dwell delta v motor step k) = [].
Proof.
  unfold row_trace, before_kickoff, before_fly, after_collect, speed_trace, arm_trace,
    reset_trace, trigger_trace.
  no_pick.
Qed.

Lemma pick_rows_remaining r e dwell delta v :
  forall steps ks ystep,
    List.length ks = List.length steps ->
    pick remaining (rows_trace r e dwell delta v ystep steps ks)
    = countdown r dwell ystep (List.length steps).
Proof.
  induction steps as [|step steps IH]; intros ks ystep Hlen.
  - destruct ks; reflexivity.
  - destruct ks as [|k ks]; [discriminate|].
    cbn [rows_trace List.length countdown]. rewrite !pick_app.
    rewrite pick_flat_map_none by (intros; reflexivity).
    rewrite pick_row_remaining.
    rewrite (IH ks) by (simpl in Hlen; lia). reflexivity.
Qed.

Lemma pick_scan_remaining r e pv0 token xs ks :
  List.length ks = Z.to_nat (ynum r) ->
  pick remaining (scan_trace r e pv0 token xs ks)
  = VNum (row_time r (scan_dwell r) / 3600)
    :: countdown r (scan_dwell r) 0 (Z.to_nat (ynum r)) ++ [VInt 0].
Proof.
  intros Hlen.
  unfold scan_trace, plan_trace, body_trace; cbv zeta.
  rewrite !pick_app.
  rewrite pick_rows_remaining by (rewrite length_np_linspace; exact Hlen).
  rewrite length_np_linspace.
  replace (pick remaining
             (dispatch_events e doc_start
                [(token, doc_all, livepopup r xs);
                 (S token, doc_start,
                  at_scan (scan_md r e (scan_dwell r) (scan_delta r (scan_dwell r)))
                    (scan_dwell r) (xnum r));
                 (S (S token), doc_stop,
                  finalize_scan (xmotor r) (ymotor r)
                    (old_deadband e r (hf_stage_x e) RETRY_DEADBAND_X pv0)
                    (old_deadband e r (hf_stage_y e) RETRY_DEADBAND_Y pv0))]))
    with [VNum (row_time r (scan_dwell r) / 3600)]
    by (unfold livepopup; destruct (Z.eqb (ynum r) 1); reflexivity).
  replace (pick remaining
             (dispatch_events e doc_stop
                [(token, doc_all, livepopup r xs);
                 (S token, doc_start,
                  at_scan (scan_md r e (scan_dwell r) (scan_delta r (scan_dwell r)))
                    (scan_dwell r) (xnum r));
                 (S (S token), doc_stop,
                  finalize_scan (xmotor r) (ymotor r)
                    (old_deadband e r (hf_stage_x e) RETRY_DEADBAND_X pv0)
                    (old_deadband e r (hf_stage_y e) RETRY_DEADBAND_Y pv0))]))
    with [VInt 0]
    by (unfold livepopup, old_deadband; cbn [dispatch_events listens];
        destruct (Z.eqb (ynum r) 1); cbn [callback_events app];
        destruct (motor_in (hf_stage_x e) (xmotor r) (ymotor r));
        destruct (motor_in (hf_stage_y e) (xmotor r) (ymotor r)); reflexivity).
  drop_pieces. reflexivity.
Qed.

(** X11.  In a scan in which nothing fails [scanrecord.time_remaining] is
    written [ynum + 2] times.  The start callback writes the time of one
    row, [(dwell * xnum + 3.8) / 3600], whatever the number of rows; before
    row [i] (from 0) the plan sets [(ynum - i)] times that; the stop
    callback writes 0.  The dwell is the one in use. *)
Theorem time_remaining_counts_down_by_rows r e st :
  smooth e r -> subs st = [] ->
  pick remaining (trace (run (scan_and_fly_base r) e st))
  = VNum (row_time r (scan_dwell r) / 3600)
    :: countdown r (scan_dwell r) 0 (Z.to_nat (ynum r)) ++ [VInt 0].
Proof.
  intros Hs Hsubs.
  destruct (smooth_run r e st Hs Hsubs) as (xs & ks & _ & Hlen & _ & ->).
  apply pick_scan_remaining. exact Hlen.
Qed.

(** Three rows of eleven points with a dwell of 0.5. *)
Lemma time_remaining_counts_down_by_rows_witness :
  pick remaining
    (trace (run (scan_and_fly_base (request ["xs"] 0 10 11 0 2 3 0.5))
              (beamline (-2) no_faults) (start_state pv_start)))
  = [VNum ((0.5 * 11 + 3.8) / 3600);
     VNum (inject_Z (3 - 0) * (0.5 * 11 + 3.8) / 3600);
     VNum (inject_Z (3 - (0 + 1)) * (0.5 * 11 + 3.8) / 3600);
     VNum (inject_Z (3 - (0 + 1 + 1)) * (0.5 * 11 + 3.8) / 3600);
     VInt 0].
Proof.
  apply (time_remaining_counts_down_by_rows (request ["xs"] 0 10 11 0 2 3 0.5)
           (beamline (-2) no_faults) (start_state pv_start)).
  - smooth_example.
  - reflexivity.
Defined.

(** ** The exposure of the area detectors *)

(** X12.  With the merlin among the detectors, the dwell that
    [scan_and_fly_base] goes on with is 0.0066392 or more, whatever dwell is
    asked for, and the acquire time the merlin is staged with,
    [.25 * dwell - 0.0016392], is above zero; the acquire period is half the
    dwell. *)
Theorem merlin_acquire_time_is_positive r c st :
  has_key "merlin" (dets_by_name r) = true ->
  outcome (setup_merlin r c st) = Ret (scan_dwell r) /\
  pick merlin_sig (trace (setup_merlin r c st))
  = [("cam.acquire_time", VNum (0.25 * scan_dwell r - 0.0016392));
     ("cam.acquire_period", VNum (0.5 * scan_dwell r));
     ("cam.num_images", VInt 1);
     ("total_points", VInt (xnum r));
     ("hdf5.num_capture", VInt (xnum r))] /\
  0.0066392 <= scan_dwell r /\
  0 < 0.25 * scan_dwell r - 0.0016392.
Proof.
  intros Hm.
  destruct (does_setup_merlin c r st) as (st' & E & _).
  rewrite E. cbn [outcome trace fst snd].
  assert (Hd : 0.0066392 <= scan_dwell r).
  { unfold scan_dwell. rewrite Hm. cbn [andb].
    destruct (Qle_bool 0.0066392 (dwell r)) eqn:Hq; cbn [negb].
    - apply Qle_bool_iff. exact Hq.
    - unfold Qle. cbn. lia. }
  split; [reflexivity|]. split.
  - unfold merlin_trace. rewrite Hm. rewrite pick_app.
    destruct (negb (Qle_bool 0.0066392 (dwell r))); reflexivity.
  - split; [exact Hd | lra].
Qed.

(** A dwell of 1 ms is raised to 7 ms. *)
Lemma merlin_acquire_time_is_positive_witness :
  outcome (setup_merlin (request ["xs"; "merlin"] 0 10 11 0 0 1 0.001)
             {| env := beamline 0 no_faults; monitored := [] |} (start_state pv_start))
  = Ret (scan_dwell (request ["xs"; "merlin"] 0 10 11 0 0 1 0.001)) /\
  pick merlin_sig
    (trace (setup_merlin (request ["xs"; "merlin"] 0 10 11 0 0 1 0.001)
              {| env := beamline 0 no_faults; monitored := [] |} (start_state pv_start)))
  = [("cam.acquire_time", VNum (0.25 * 0.007 - 0.0016392));
     ("cam.acquire_period", VNum (0.5 * 0.007));
     ("cam.num_images", VInt 1);
     ("total_points", VInt 11);
     ("hdf5.num_capture", VInt 11)] /\
  0.0066392 <= scan_dwell (request ["xs"; "merlin"] 0 10 11 0 0 1 0.001) /\
  0 < 0.25 * scan_dwell (request ["xs"; "merlin"] 0 10 11 0 0 1 0.001) - 0.0016392.
Proof.
  apply (merlin_acquire_time_is_positive (request ["xs"; "merlin"] 0 10 11 0 0 1 0.001)).
  reflexivity.
Defined.

(** X13.  The dexela has no such floor: it is staged with an acquire time
    of [0.50 * dwell - 0.050], which is below zero for a dwell below 0.1,
    and with an acquire period 0.03 above the acquire time. *)
Theorem dexela_acquire_time_has_no_floor r d c st :
  has_key "dexela" (dets_by_name r) = true -> d < 0.1 ->
  setup_dexela r d c st
  = (Ret tt, st,
     [EStageSig "dexela" "cam.acquire_time" (VNum (0.50 * d - 0.050));
      EStageSig "dexela" "cam.acquire_period" (VNum (0.50 * d - 0.020))]) /\
  0.50 * d - 0.050 < 0 /\
  (0.50 * d - 0.020) - (0.50 * d - 0.050) == 0.03.
Proof.
  intros Hk Hd. unfold setup_dexela. rewrite Hk.
  split; [reflexivity|]. split; [lra | ring].
Qed.

Lemma dexela_acquire_time_has_no_floor_witness :
  setup_dexela (request ["xs"; "dexela"] 0 10 11 0 0 1 0.05) 0.05
    {| env := beamline 0 no_faults; monitored := [] |} (start_state pv_start)
  = (Ret tt, start_state pv_start,
     [EStageSig "dexela" "cam.acquire_time" (VNum (0.50 * 0.05 - 0.050));
      EStageSig "dexela" "cam.acquire_period" (VNum (0.50 * 0.05 - 0.020))]) /\
  0.50 * 0.05 - 0.050 < 0 /\
  (0.50 * 0.05 - 0.020) - (0.50 * 0.05 - 0.050) == 0.03.
Proof.
  apply (dexela_acquire_time_has_no_floor (request ["xs"; "dexela"] 0 10 11 0 0 1 0.05)).
  - reflexivity.
  - reflexivity.
Defined.

(** * The entry points *)

Lemma bind_ask {B} (k : Env -> Plan B) c st : bind ask k c st = k (env c) c st.
Proof. unfold bind, ask. destruct (k (env c) c st) as [[o s] t]. reflexivity. Qed.

Lemma bind_print {B} s (k : unit -> Plan B) c st :
  bind (print s) k c st
  = (outcome (k tt c st), final_state (k tt c st), EPrint s :: trace (k tt c st)).
Proof.
  unfold bind, print, emit, outcome, final_state, trace.
  destruct (k tt c st) as [[o s2] t]. reflexivity.
Qed.

Lemma bind_abs_set {B} s v g (k : unit -> Plan B) c st :
  calm (env c) ->
  bind (abs_set s v g) k c st
  = (outcome (k tt c (with_pv (upd s v) (count_msg st))),
     final_state (k tt c (with_pv (upd s v) (count_msg st))),
     EMsg (Mset s v g) :: trace (k tt c (with_pv (upd s v) (count_msg st)))).
Proof.
  intros Hc. unfold bind, abs_set, yield_, outcome, final_state, trace.
  rewrite Hc. cbn [process].
  destruct (k tt c (with_pv (upd s v) (count_msg st))) as [[o s2] t]. reflexivity.
Qed.

Lemma base_dropped r c st :
  (scan_and_fly_base r ;; ret tt)%plan c st
  = (dropped (outcome (scan_and_fly_base r c st)),
     final_state (scan_and_fly_base r c st),
     trace (scan_and_fly_base r c st)).
Proof.
  unfold bind, ret, outcome, final_state, trace.
  destruct (scan_and_fly_base r c st) as [[o s2] t2]. cbn [fst snd dropped].
  destruct o; [rewrite app_nil_r|..]; reflexivity.
Qed.

Lemma after_axes_books n g st :
  subs (after_axes n g st) = subs st /\
  next_token (after_axes n g st) = next_token st /\
  reads (after_axes n g st) = reads st.
Proof. destruct n; repeat split. Qed.

(** An entry point in which the axis names are set without a failure is
    [scan_and_fly_base] on its request, after its preamble. *)
Lemma entry_runs n g a extra kw c st :
  calm (env c) ->
  entry n g a extra kw c st
  = (dropped (outcome (scan_and_fly_base (entry_request n g (env c) a extra kw) c
                         (after_axes n g st))),
     final_state (scan_and_fly_base (entry_request n g (env c) a extra kw) c
                    (after_axes n g st)),
     preamble n g (env c) a extra kw
     ++ trace (scan_and_fly_base (entry_request n g (env c) a extra kw) c
                 (after_axes n g st))).
Proof.
  intros Hc.
  destruct n; cbn [entry];
    unfold nano_scan_and_fly, nano_y_scan_and_fly, nano_z_scan_and_fly, scan_and_fly,
      y_scan_and_fly, y_scan_and_fly_xs2, y_scan_and_fly_xs2_yz, scan_and_fly_xs2,
      scan_and_fly_xs2_xz;
    unfold entry_request, preamble, entry_axes, entry_defaults, after_axes, entry_axes;
    cbv zeta;
    rewrite ?bind_ask;
    repeat (rewrite bind_print; cbn [outcome final_state trace fst snd]);
    repeat (rewrite bind_abs_set by exact Hc; cbn [outcome final_state trace fst snd]);
    rewrite base_dropped; reflexivity.
Qed.

Lemma invalid_counts_base r c st :
  (xnum r < 1)%Z \/ (ynum r < 1)%Z ->
  scan_and_fly_base r c st
  = (Ret None, st, [EPrint "Error: Number of points is negative."]).
Proof.
  intros H. unfold scan_and_fly_base.
  assert (Hb : Z.ltb (xnum r) 1 || Z.ltb (ynum r) 1 = true).
  { apply orb_true_iff. destruct H as [H|H]; [left|right]; apply Z.ltb_lt; exact H. }
  rewrite Hb. reflexivity.
Qed.

Lemma entry_request_counts n g e a extra kw :
  xnum (entry_request n g e a extra kw) = Args.xnum a /\
  ynum (entry_request n g e a extra kw) = Args.ynum a.
Proof. destruct n; split; reflexivity. Qed.

(** X14.  An entry point called with a number of points below 1 has
    already done what it does before [scan_and_fly_base]: the names of the
    axes are set on the flyer ([scan_and_fly], [y_scan_and_fly] and the three
    [nano_...] entry points; [nano_scan_and_fly] also prints the names of
    the motors).  Only then is the error printed, and the entry point
    returns. *)
Theorem entry_point_names_the_axes_before_the_check n g a extra kw e st :
  calm e -> (Args.xnum a < 1)%Z \/ (Args.ynum a < 1)%Z ->
  outcome (run (entry n g a extra kw) e st) = Ret tt /\
  trace (run (entry n g a extra kw) e st)
  = preamble n g e a extra kw ++ [EPrint "Error: Number of points is negative."].
Proof.
  intros Hc H. unfold run.
  rewrite entry_runs by exact Hc. cbn [env outcome trace fst snd].
  destruct (entry_request_counts n g e a extra kw) as [Ex Ey].
  rewrite invalid_counts_base by (rewrite Ex, Ey; exact H).
  split; reflexivity.
Qed.

(** [scan_and_fly] with no fast-axis point. *)
Lemma entry_point_names_the_axes_before_the_check_witness :
  outcome (run (entry Escan_and_fly profile (args 0 10 0 0 0 1 0.5) None no_kwargs)
             (beamline 0 no_faults) (start_state pv_start))
  = Ret tt /\
  trace (run (entry Escan_and_fly profile (args 0 10 0 0 0 1 0.5) None no_kwargs)
           (beamline 0 no_faults) (start_state pv_start))
  = [EMsg (Mset (Sig "flying_zebra" "fast_axis") (VStr "HOR") GNone);
     EPrint "Error: Number of points is negative."].
Proof.
  apply (entry_point_names_the_axes_before_the_check Escan_and_fly profile
           (args 0 10 0 0 0 1 0.5) None no_kwargs (beamline 0 no_faults)
           (start_state pv_start)).
  - intros k m. reflexivity.
  - left. cbn. lia.
Defined.

Lemma pick_row_flyer_use r e dwell delta v motor step k :
  pick flyer_use (row_trace r e dwell delta v motor step k)
  = [KicksOff (flyer_name (flying_zebra r))].
Proof.
  unfold row_trace, before_kickoff, before_fly, after_collect, speed_trace, arm_trace,
    reset_trace, trigger_trace.
  no_pick.
Qed.

Lemma pick_scan_flyer_use r e pv0 token xs ks :
  List.length ks = Z.to_nat (ynum r) ->
  pick flyer_use (scan_trace r e pv0 token xs ks)
  = repeat (KicksOff (flyer_name (flying_zebra r))) (Z.to_nat (ynum r)).
Proof.
  intros Hlen.
  rewrite <- (length_np_linspace (ystart r) (ystop r) (ynum r)).
  replace (repeat (KicksOff (flyer_name (flying_zebra r)))
             (List.length (np_linspace (ystart r) (ystop r) (ynum r))))
    with (flat_map (fun _ : Q => [KicksOff (flyer_name (flying_zebra r))])
            (np_linspace (ystart r) (ystop r) (ynum r)))
    by (induction (np_linspace (ystart r) (ystop r) (ynum r)); simpl; congruence).
  pick_scan pick_row_flyer_use.
  reflexivity.
Qed.

Lemma pick_preamble n g e a extra kw :
  pick flyer_use (preamble n g e a extra kw)
  = map (fun sv => NamesAxis (fst sv) (snd sv)) (entry_axes n g).
Proof. destruct n; reflexivity. Qed.

(** X15.  An entry point sets the names of the axes on the flyer of the
    profile ([flying_zebra] or [nano_flying_zebra]), whatever flyer is given
    by keyword; the flyer that is kicked off in each row of the scan is the
    one given by keyword, where one is given. *)
Theorem axes_named_on_the_flyer_of_the_profile n g a extra kw e st :
  smooth e (entry_request n g e a extra kw) -> subs st = [] ->
  pick flyer_use (trace (run (entry n g a extra kw) e st))
  = map (fun sv => NamesAxis (fst sv) (snd sv)) (entry_axes n g)
    ++ repeat
         (KicksOff (flyer_name
            (setdefault (Kwargs.flying_zebra kw) (snd (fst (entry_defaults n g e))))))
         (Z.to_nat (Args.ynum a)).
Proof.
  intros Hs Hsubs. unfold run.
  rewrite entry_runs by apply Hs. cbn [env trace snd].
  destruct (after_axes_books n g st) as (S1 & _).
  destruct (smooth_run (entry_request n g e a extra kw) e (after_axes n g st) Hs)
    as (xs & ks & _ & Hlen & _ & Ht).
  { rewrite S1. exact Hsubs. }
  unfold run in Ht. rewrite Ht.
  rewrite pick_app, pick_preamble, pick_scan_flyer_use by exact Hlen.
  destruct n; reflexivity.
Qed.

(** [scan_and_fly] with the flyer of the nano stage given by keyword. *)
Lemma axes_named_on_the_flyer_of_the_profile_witness :
  pick flyer_use
    (trace (run (entry Escan_and_fly profile (args 0 10 11 0 1 2 0.5) None
                   {| Kwargs.xmotor := None; Kwargs.ymotor := None;
                      Kwargs.flying_zebra := Some nano_zebra;
                      Kwargs.xs := None; Kwargs.delta := None; Kwargs.shutter := None;
                      Kwargs.align := None; Kwargs.md := None |})
              (beamline (-2) no_faults) (start_state pv_start)))
  = [NamesAxis (Sig "flying_zebra" "fast_axis") (VStr "HOR");
     KicksOff "nano_flying_zebra"; KicksOff "nano_flying_zebra"].
Proof.
  apply (axes_named_on_the_flyer_of_the_profile Escan_and_fly profile
           (args 0 10 11 0 1 2 0.5) None
           {| Kwargs.xmotor := None; Kwargs.ymotor := None;
              Kwargs.flying_zebra := Some nano_zebra;
              Kwargs.xs := None; Kwargs.delta := None; Kwargs.shutter := None;
              Kwargs.align := None; Kwargs.md := None |}
           (beamline (-2) no_faults) (start_state pv_start)).
  - smooth_example.
  - reflexivity.
Defined.








(** * The live grids *)

(** ** [RowBasedLiveGrid] *)

Lemma row_grid_events_app s h l1 l2 :
  RowBasedLiveGrid.events s h (l1 ++ l2)
  = match RowBasedLiveGrid.events s h l1 with
    | Done s1 shown1 =>
        match RowBasedLiveGrid.events s1 h l2 with
        | Done s2 shown2 => Done s2 (shown1 ++ shown2)
        | Failed s2 x => Failed s2 x
        end
    | Failed s1 x => Failed s1 x
    end.
Proof.
  revert s. induction l1 as [|doc l1 IH]; intros s; cbn [app RowBasedLiveGrid.events].
  - destruct (RowBasedLiveGrid.events s h l2); reflexivity.
  - destruct (RowBasedLiveGrid.event s h doc) as [s1 o1|s1 x]; [|reflexivity].
    rewrite IH.
    destruct (RowBasedLiveGrid.events s1 h l1) as [s2 o2|s2 x]; [|reflexivity].
    destruct (RowBasedLiveGrid.events s2 h l2) as [s3 o3|s3 x]; [|reflexivity].
    rewrite app_assoc. reflexivity.
Qed.

Ltac grid_fields :=
  cbn [RowBasedLiveGrid.with_row RowBasedLiveGrid._row_key RowBasedLiveGrid.I
       RowBasedLiveGrid._last_row RowBasedLiveGrid._column_counter
       RowBasedLiveGrid._pad RowBasedLiveGrid._desired_columns
       RowBasedLiveGrid.raster_shape].

Lemma row_grid_tile s h y c p doc :
  RowBasedLiveGrid.has_tile s h doc ->
  RowBasedLiveGrid.event (RowBasedLiveGrid.with_row (Some y) (Some c) (Some p) s) h doc
  = Done (RowBasedLiveGrid.with_row (Some y) (Some (c + 1)%Z) (Some p) s)
      [SuperEvent (seq_num doc + p) (h (data doc))].
Proof.
  intros [Hk Hi]. unfold RowBasedLiveGrid.event, RowBasedLiveGrid.row_of. grid_fields.
  rewrite Hk. unfold RowBasedLiveGrid.plot. grid_fields. rewrite Hi. reflexivity.
Qed.

Lemma row_grid_next_row s h y c p doc y' :
  RowBasedLiveGrid.tells_row s h doc y' -> py_eq y' y = false ->
  RowBasedLiveGrid.event (RowBasedLiveGrid.with_row (Some y) (Some c) (Some p) s) h doc
  = Done (RowBasedLiveGrid.with_row (Some y') (Some 0%Z)
            (Some (p + (RowBasedLiveGrid._desired_columns s - c))%Z) s) [].
Proof.
  intros [Hk Hi] Hne. unfold RowBasedLiveGrid.event, RowBasedLiveGrid.row_of. grid_fields.
  rewrite Hk, Hne. cbn [negb]. unfold RowBasedLiveGrid.plot. grid_fields.
  rewrite Hi. reflexivity.
Qed.

Lemma row_grid_first_row s h c p doc y :
  RowBasedLiveGrid.tells_row s h doc y ->
  RowBasedLiveGrid.event (RowBasedLiveGrid.with_row None c p s) h doc
  = Done (RowBasedLiveGrid.with_row (Some y) c p s) [].
Proof.
  intros [Hk Hi]. unfold RowBasedLiveGrid.event, RowBasedLiveGrid.row_of. grid_fields.
  rewrite Hk. reflexivity.
Qed.

(** The tiles of a row, in a run that is at its row [y] with [c] tiles seen
    and a pad of [p]. *)
Lemma row_grid_tiles s h y p tiles :
  Forall (RowBasedLiveGrid.has_tile s h) tiles ->
  forall c,
    RowBasedLiveGrid.events (RowBasedLiveGrid.with_row (Some y) (Some c) (Some p) s) h tiles
    = Done (RowBasedLiveGrid.with_row (Some y)
              (Some (c + Z.of_nat (List.length tiles))%Z) (Some p) s)
        (map (fun d => SuperEvent (seq_num d + p) (h (data d))) tiles).
Proof.
  induction 1 as [|doc tiles [Hk Hi] _ IH]; intros c.
  - cbn [RowBasedLiveGrid.events List.length map]. rewrite Z.add_0_r. reflexivity.
  - cbn [RowBasedLiveGrid.events].
    rewrite (row_grid_tile s h y c p doc (conj Hk Hi)).
    rewrite IH. cbn [List.length map app].
    replace (c + 1 + Z.of_nat (List.length tiles))%Z
      with (c + Z.of_nat (S (List.length tiles)))%Z by lia.
    reflexivity.
Qed.

Lemma shown_seq_app l1 l2 : shown_seq (l1 ++ l2) = shown_seq l1 ++ shown_seq l2.
Proof. unfold shown_seq. apply flat_map_app. Qed.

Lemma shown_seq_tiles (h : Docs) p tiles :
  shown_seq (map (fun d => SuperEvent (seq_num d + p) (h (data d))) tiles)
  = map (fun d => (seq_num d + p)%Z) tiles.
Proof. induction tiles as [|d tiles IH]; [reflexivity|]. cbn. rewrite <- IH. reflexivity. Qed.

Lemma numbered_cells columns i p tiles :
  forall n,
    RowBasedLiveGrid.numbered n tiles ->
    (p + Z.of_nat n = i * columns)%Z ->
    map (fun d => (seq_num d + p)%Z) tiles
    = map (fun j => (i * columns + Z.of_nat j)%Z) (seq 1 (List.length tiles)).
Proof.
  intros n Hn Hp.
  assert (G : forall k tiles' m,
            RowBasedLiveGrid.numbered m tiles' -> (m = n + k)%nat ->
            map (fun d => (seq_num d + p)%Z) tiles'
            = map (fun j => (i * columns + Z.of_nat j)%Z)
                (seq (S k) (List.length tiles'))).
  { intros k tiles'. revert k.
    induction tiles' as [|d tiles' IH]; intros k m Hm Hk; [reflexivity|].
    destruct Hm as [Hd Hm]. cbn [map List.length seq]. f_equal.
    - rewrite Hd. lia.
    - apply (IH (S k) (S m) Hm). lia. }
  apply (G 0%nat tiles n Hn). lia.
Qed.

(** The rows after the first, in a run at its row [y] with [c] tiles seen
    of [n] in all so far, and a pad of [p]. *)
Lemma row_grid_rows s h rows :
  forall y c p n i,
    RowBasedLiveGrid.rows_ok s h (Some y) rows ->
    RowBasedLiveGrid.rows_numbered n rows ->
    (p + (RowBasedLiveGrid._desired_columns s - c) + Z.of_nat n
     = i * RowBasedLiveGrid._desired_columns s)%Z ->
    exists s' shown,
      RowBasedLiveGrid.events (RowBasedLiveGrid.with_row (Some y) (Some c) (Some p) s) h
        (RowBasedLiveGrid.stream rows)
      = Done s' shown /\
      shown_seq shown
      = RowBasedLiveGrid.cells (RowBasedLiveGrid._desired_columns s) i
          (map (fun row => List.length (snd row)) rows).
Proof.
  induction rows as [|[[doc y'] tiles] rows IH]; intros y c p n i Hok Hnum Hinv.
  - eexists _, []. split; reflexivity.
  - destruct Hok as ([Hk Hi] & Ht & Hne & Hok). destruct Hnum as [Hn Hnum].
    cbn [RowBasedLiveGrid.stream flat_map fst snd app].
    change (flat_map (fun row => fst (fst row) :: snd row) rows)
      with (RowBasedLiveGrid.stream rows).
    cbn [RowBasedLiveGrid.events].
    rewrite (row_grid_next_row s h y c p doc y' (conj Hk Hi) Hne).
    set (D := RowBasedLiveGrid._desired_columns s) in *.
    rewrite row_grid_events_app.
    rewrite (row_grid_tiles s h y' (p + (D - c))%Z tiles Ht 0%Z).
    destruct (IH y' (0 + Z.of_nat (List.length tiles))%Z (p + (D - c))%Z
                (n + List.length tiles)%nat (i + 1)%Z Hok Hnum)
      as (s' & shown & E & Hs).
    { fold D. lia. }
    rewrite E. eexists _, _. split; [reflexivity|].
    cbn [app map snd RowBasedLiveGrid.cells]. rewrite shown_seq_app, Hs.
    rewrite shown_seq_tiles.
    rewrite (numbered_cells D i (p + (D - c))%Z tiles n Hn) by lia.
    reflexivity.
Qed.

(** X17.  In a run of a [RowBasedLiveGrid] (after [start], whatever went
    before) in which each row is told by a document of its own, each row
    differs from the one before, and the documents with the values to plot
    are numbered from 1 on: the sequence numbers handed to [LiveGrid] are
    those of the cells of a grid with [raster_shape[1]] columns filled from
    the left of each row, so that row [i] starts at [i * columns + 1]
    however short the rows before it fell. *)
Theorem row_grid_starts_each_row_at_its_cell s h rows :
  RowBasedLiveGrid.rows_ok s h None rows ->
  RowBasedLiveGrid.rows_numbered 0 rows ->
  exists s' shown,
    RowBasedLiveGrid.run_of s h (RowBasedLiveGrid.stream rows)
    = Done s' (SuperStart :: shown) /\
    shown_seq shown
    = RowBasedLiveGrid.cells (RowBasedLiveGrid._desired_columns s) 0
        (map (fun row => List.length (snd row)) rows).
Proof.
  intros Hok Hnum. unfold RowBasedLiveGrid.run_of, RowBasedLiveGrid.start.
  destruct rows as [|[[doc y] tiles] rows].
  - eexists _, []. split; reflexivity.
  - destruct Hok as ([Hk Hi] & Ht & _ & Hok). destruct Hnum as [Hn Hnum].
    cbn [RowBasedLiveGrid.stream flat_map fst snd app].
    change (flat_map (fun row => fst (fst row) :: snd row) rows)
      with (RowBasedLiveGrid.stream rows).
    cbn [RowBasedLiveGrid.events].
    rewrite (row_grid_first_row s h (Some 0%Z) (Some 0%Z) doc y (conj Hk Hi)).
    set (D := RowBasedLiveGrid._desired_columns s) in *.
    rewrite row_grid_events_app.
    rewrite (row_grid_tiles s h y 0%Z tiles Ht 0%Z).
    destruct (row_grid_rows s h rows y (0 + Z.of_nat (List.length tiles))%Z 0%Z
                (0 + List.length tiles)%nat 1%Z Hok Hnum)
      as (s' & shown & E & Hs).
    { fold D. lia. }
    rewrite E. eexists _, _. split; [reflexivity|].
    cbn [app map snd RowBasedLiveGrid.cells]. rewrite shown_seq_app, Hs.
    rewrite shown_seq_tiles.
    rewrite (numbered_cells D 0 0%Z tiles 0 Hn) by lia.
    reflexivity.
Qed.

(** A row that falls one tile short: the next row starts at the cell 4. *)
Lemma row_grid_starts_each_row_at_its_cell_witness :
  exists s' shown,
    RowBasedLiveGrid.run_of example_grid example_dicts
      (RowBasedLiveGrid.stream example_rows)
    = Done s' (SuperStart :: shown) /\
    shown_seq shown = [1; 2; 4; 5; 6]%Z.
Proof.
  apply (row_grid_starts_each_row_at_its_cell example_grid example_dicts example_rows).
  - cbn. repeat split; repeat constructor.
  - cbn. repeat split.
Defined.

(** X18.  Outside a run (before the first [start], or after [stop]) a
    document with a value to plot and no row makes [event] end with
    [TypeError], the count of the columns being [None]; the object is left
    as it was. *)
Theorem tile_outside_a_run_is_a_type_error s s1 h d :
  s1 = RowBasedLiveGrid.init (RowBasedLiveGrid.raster_shape s) (RowBasedLiveGrid.I s)
         (RowBasedLiveGrid._row_key s)
  \/ (exists shown, RowBasedLiveGrid.stop s = Done s1 shown) ->
  RowBasedLiveGrid.has_tile s h d ->
  RowBasedLiveGrid.event s1 h d = Failed s1 TypeError.
Proof.
  intros Hs [Hk Hi].
  assert (H1 : RowBasedLiveGrid._row_key s1 = RowBasedLiveGrid._row_key s /\
               RowBasedLiveGrid.I s1 = RowBasedLiveGrid.I s /\
               RowBasedLiveGrid._column_counter s1 = None).
  { destruct Hs as [->|(shown & Hs)]; [repeat split|].
    unfold RowBasedLiveGrid.stop in Hs. inversion Hs; subst. repeat split. }
  destruct H1 as (Hkey & HI & Hc).
  unfold RowBasedLiveGrid.event, RowBasedLiveGrid.row_of. rewrite Hkey, Hk.
  unfold RowBasedLiveGrid.plot. rewrite HI, Hi, Hc. reflexivity.
Qed.

Lemma tile_outside_a_run_is_a_type_error_witness :
  RowBasedLiveGrid.event (RowBasedLiveGrid.with_row None None None example_grid)
    example_dicts (doc 1 1)
  = Failed (RowBasedLiveGrid.with_row None None None example_grid) TypeError.
Proof.
  apply (tile_outside_a_run_is_a_type_error example_grid).
  - right. exists []. reflexivity.
  - split; reflexivity.
Defined.

(** ** [ArrayCounterLiveGrid] *)

(** X19.  An [ArrayCounterLiveGrid] hands every event document on to
    [LiveGrid], once, in the order of arrival and with its sequence number
    unchanged, whatever the documents hold. *)
Theorem array_counter_grid_hands_on_every_document docs :
  forall s h,
    shown_seq (snd (ArrayCounterLiveGrid.events s h docs)) = map seq_num docs.
Proof.
  induction docs as [|d docs IH]; intros s h; [reflexivity|].
  cbn [ArrayCounterLiveGrid.events map].
  destruct (ArrayCounterLiveGrid.event s h d) as [[s1 h1] shown1] eqn:E1.
  specialize (IH s1 h1).
  destruct (ArrayCounterLiveGrid.events s1 h1 docs) as [[s2 h2] shown2].
  cbn [snd] in *. rewrite shown_seq_app, IH. f_equal.
  unfold ArrayCounterLiveGrid.event in E1.
  destruct (dict_get (ArrayCounterLiveGrid.I s) (h (data d))).
  - inversion E1; subst. reflexivity.
  - destruct (dict_has (ArrayCounterLiveGrid._array_counter_key s) (h (data d)));
      inversion E1; subst; reflexivity.
Qed.

Lemma dict_get_set k v d : dict_get k (dict_set k v d) = Some v.
Proof.
  induction d as [|[k' v'] d IH]; cbn [dict_set dict_get].
  - rewrite String.eqb_refl. reflexivity.
  - destruct (String.eqb k k') eqn:E; cbn [dict_get].
    + rewrite String.eqb_refl. reflexivity.
    + rewrite E. exact IH.
Qed.

Lemma dict_get_set_other k k' v d :
  String.eqb k' k = false -> dict_get k' (dict_set k v d) = dict_get k' d.
Proof.
  intros Hne. induction d as [|[k0 v0] d IH]; cbn [dict_set dict_get].
  - rewrite Hne. reflexivity.
  - destruct (String.eqb k k0) eqn:E; cbn [dict_get].
    + apply String.eqb_eq in E. subst k0. rewrite Hne. reflexivity.
    + rewrite IH. reflexivity.
Qed.

(** X20.  After a document with a value of the region of interest, a
    document that has the count of arrays and no such value is handed on
    with that value filled in.  The dict that is filled is the ['data'] of
    the document that came in, which [doc.copy()] does not copy: whoever
    holds the document sees the value too; its other entries and the other
    documents stay as they are. *)
Theorem array_counter_grid_fills_the_document_itself s h d1 d2 roi :
  dict_get (ArrayCounterLiveGrid.I s) (h (data d1)) = Some roi ->
  dict_get (ArrayCounterLiveGrid.I s) (h (data d2)) = None ->
  dict_has (ArrayCounterLiveGrid._array_counter_key s) (h (data d2)) = true ->
  snd (ArrayCounterLiveGrid.events s h [d1; d2])
  = [SuperEvent (seq_num d1) (h (data d1));
     SuperEvent (seq_num d2) (dict_set (ArrayCounterLiveGrid.I s) roi (h (data d2)))] /\
  dict_get (ArrayCounterLiveGrid.I s)
    (snd (fst (ArrayCounterLiveGrid.events s h [d1; d2])) (data d2)) = Some roi /\
  (forall k, String.eqb k (ArrayCounterLiveGrid.I s) = false ->
     dict_get k (snd (fst (ArrayCounterLiveGrid.events s h [d1; d2])) (data d2))
     = dict_get k (h (data d2))) /\
  (forall ref, Nat.eqb (data d2) ref = false ->
     snd (fst (ArrayCounterLiveGrid.events s h [d1; d2])) ref = h ref).
Proof.
  intros H1 H2 H3.
  assert (E : ArrayCounterLiveGrid.events s h [d1; d2]
              = (ArrayCounterLiveGrid.with_previous_roi roi s,
                 set_data h (data d2)
                   (dict_set (ArrayCounterLiveGrid.I s) roi (h (data d2))),
                 [SuperEvent (seq_num d1) (h (data d1));
                  SuperEvent (seq_num d2)
                    (dict_set (ArrayCounterLiveGrid.I s) roi (h (data d2)))])).
  { cbn [ArrayCounterLiveGrid.events]. unfold ArrayCounterLiveGrid.event at 1.
    rewrite H1. unfold ArrayCounterLiveGrid.event.
    cbn [ArrayCounterLiveGrid.with_previous_roi ArrayCounterLiveGrid.I
         ArrayCounterLiveGrid._array_counter_key ArrayCounterLiveGrid._previous_roi].
    rewrite H2, H3. cbn [fst snd app seq_num data].
    unfold set_data. rewrite Nat.eqb_refl. reflexivity. }
  rewrite E. cbn [fst snd]. unfold set_data. rewrite Nat.eqb_refl.
  split; [reflexivity|]. split; [apply dict_get_set|]. split.
  - intros k Hk. apply dict_get_set_other. exact Hk.
  - intros ref Hr. rewrite Hr. reflexivity.
Qed.

(** A value of 5, then a count of arrays. *)
Lemma array_counter_grid_fills_the_document_itself_witness :
  snd (ArrayCounterLiveGrid.events (ArrayCounterLiveGrid.init "roi" "array_counter")
         example_dicts [doc 1 1; doc 2 3])
  = [SuperEvent 1 [("roi", VInt 5)];
     SuperEvent 2 [("array_counter", VInt 7); ("roi", VInt 5)]] /\
  dict_get "roi"
    (snd (fst (ArrayCounterLiveGrid.events
                 (ArrayCounterLiveGrid.init "roi" "array_counter")
                 example_dicts [doc 1 1; doc 2 3])) 3%nat)
  = Some (VInt 5) /\
  (forall k, String.eqb k "roi" = false ->
     dict_get k
       (snd (fst (ArrayCounterLiveGrid.events
                    (ArrayCounterLiveGrid.init "roi" "array_counter")
                    example_dicts [doc 1 1; doc 2 3])) 3%nat)
     = dict_get k (example_dicts 3%nat)) /\
  (forall ref, Nat.eqb 3 ref = false ->
     snd (fst (ArrayCounterLiveGrid.events
                 (ArrayCounterLiveGrid.init "roi" "array_counter")
                 example_dicts [doc 1 1; doc 2 3])) ref
     = example_dicts ref).
Proof.
  apply (array_counter_grid_fills_the_document_itself
           (ArrayCounterLiveGrid.init "roi" "array_counter") example_dicts
           (doc 1 1) (doc 2 3) (VInt 5)).
  - reflexivity.
  - reflexivity.
  - reflexivity.
Defined.

(** * The run and its subscriptions, whatever fails *)

Lemma Meek_no_booking : Meek no_booking.
Proof.
  unfold Meek, no_booking. repeat split.
  intros m Hp _. destruct m; try reflexivity; discriminate Hp.
Qed.

Lemma no_booking_opened ev : no_booking ev -> opened ev = None.
Proof.
  unfold no_booking. destruct ev as [m| | | | |]; try reflexivity.
  destruct m; try reflexivity. intros H. discriminate H.
Qed.

Lemma no_booking_picks t :
  Forall no_booking t -> pick booking t = [] /\ pick opened t = [].
Proof.
  intros H. split; apply pick_none; [exact H|].
  eapply Forall_impl; [|exact H]. apply no_booking_opened.
Qed.

Lemma booked_bind_before {A B} pre post (p : Plan A) (k : A -> Plan B) c st o st' t :
  bind p k c st = (o, st', t) -> Sane no_booking any_exception p ->
  (forall a s1 o2 s2 t2, k a c s1 = (o2, s2, t2) -> booked pre post o2 t2) ->
  booked pre post o t.
Proof.
  intros E Hp Hk. unfold bind in E.
  destruct (p c st) as [[o1 s1] t1] eqn:E1.
  destruct (Hp _ _ _ _ _ E1) as [F1 _].
  destruct (no_booking_picks t1 F1) as [P1 P2].
  destruct o1 as [a|x|].
  - destruct (k a c s1) as [[o2 s2] t2] eqn:E2. inversion E; subst.
    destruct (Hk _ _ _ _ _ E2) as [H|[H|(status & H & Hr)]].
    + left. exact H.
    + right. left. rewrite pick_app, P2, H. reflexivity.
    + right. right. exists status. split; [|exact Hr].
      rewrite pick_app, P1, H. reflexivity.
  - inversion E; subst. right. left. exact P2.
  - inversion E; subst. left. reflexivity.
Qed.

Lemma booked_bind_after {A B} pre post (p : Plan A) (k : A -> Plan B) c st o st' t :
  bind p k c st = (o, st', t) ->
  (forall o1 s1 t1, p c st = (o1, s1, t1) -> booked pre post o1 t1) ->
  (forall a, Sane no_booking any_exception (k a)) ->
  booked pre post o t.
Proof.
  intros E Hp Hk. unfold bind in E.
  destruct (p c st) as [[o1 s1] t1] eqn:E1.
  pose proof (Hp _ _ _ eq_refl) as H1.
  destruct o1 as [a|x|].
  - destruct (k a c s1) as [[o2 s2] t2] eqn:E2. inversion E; subst.
    destruct (Hk a _ _ _ _ _ E2) as [F2 _].
    destruct (no_booking_picks t2 F2) as [P1 P2].
    destruct H1 as [H|[H|(status & H & Hr)]]; [discriminate H | |].
    + right. left. rewrite pick_app, P2, H. reflexivity.
    + right. right. exists status. split.
      * rewrite pick_app, P1, H, app_nil_r. reflexivity.
      * intros _. apply Hr. reflexivity.
  - inversion E; subst.
    destruct H1 as [H|[H|(status & H & Hr)]]; [discriminate H | |].
    + right. left. exact H.
    + right. right. exists status. split; [exact H|].
      intros Hret. discriminate Hret.
  - inversion E; subst. left. reflexivity.
Qed.

Lemma booked_finalize {A} pre post (p : Plan A) (f : Plan unit) c st o st' t :
  finalize_wrapper p f c st = (o, st', t) ->
  (forall o1 s1 t1, p c st = (o1, s1, t1) -> booked pre post o1 t1) ->
  Sane no_booking any_exception f ->
  booked pre post o t.
Proof.
  intros E Hp Hf. unfold finalize_wrapper in E.
  destruct (p c st) as [[o1 s1] t1] eqn:E1.
  pose proof (Hp _ _ _ eq_refl) as H1.
  destruct o1 as [a|x|].
  - destruct (f c s1) as [[o2 s2] t2] eqn:E2.
    destruct (Hf _ _ _ _ _ E2) as [F2 _].
    destruct (no_booking_picks t2 F2) as [P1 P2].
    destruct H1 as [H|[H|(status & H & Hr)]]; [discriminate H | |].
    + destruct o2; inversion E; subst; right; left; rewrite pick_app, P2, H; reflexivity.
    + destruct o2; inversion E; subst; [| |left; reflexivity];
        right; right; exists status;
        (split; [rewrite pick_app, P1, H, app_nil_r; reflexivity|]);
        intros _; apply Hr; reflexivity.
  - destruct (f c s1) as [[o2 s2] t2] eqn:E2.
    destruct (Hf _ _ _ _ _ E2) as [F2 _].
    destruct (no_booking_picks t2 F2) as [P1 P2].
    destruct H1 as [H|[H|(status & H & Hr)]]; [discriminate H | |].
    + destruct o2; inversion E; subst; right; left; rewrite pick_app, P2, H; reflexivity.
    + destruct o2; inversion E; subst; [| |left; reflexivity];
        right; right; exists status;
        (split; [rewrite pick_app, P1, H, app_nil_r; reflexivity|]);
        intros Hret; discriminate Hret.
  - inversion E; subst. left. reflexivity.
Qed.

Lemma booked_run_wrapper {A} (body : Plan A) md c st o st' t :
  sound (env c) -> Sane no_booking any_exception body ->
  run_wrapper body md c st = (o, st', t) -> booked [] [] o t.
Proof.
  intros Hs Hb E. unfold run_wrapper, bind in E.
  destruct (open_run_sound md c st Hs) as (s1 & E1 & S1). rewrite E1 in E.
  unfold contingency_wrapper in E.
  destruct (body c s1) as [[ob sb] tb] eqn:Eb.
  destruct (Hb _ _ _ _ _ Eb) as [Fb _].
  destruct (no_booking_picks tb Fb) as [Pb _].
  destruct ob as [a|x|].
  - destruct (close_run_sound success c sb Hs) as (s3 & E3).
    rewrite E3 in E. unfold ret in E. inversion E; subst.
    right. right. exists success. split; [|reflexivity].
    repeat (rewrite ?pick_cons, ?pick_app). rewrite Pb.
    rewrite !pick_dispatch_none by (intros; reflexivity).
    rewrite !pick_map_none by (intros; reflexivity). reflexivity.
  - destruct (close_run_sound (exit_status_of x) c sb Hs) as (s3 & E3).
    rewrite E3 in E. inversion E; subst.
    right. right. exists (exit_status_of x). split.
    + repeat (rewrite ?pick_cons, ?pick_app). rewrite Pb.
      rewrite !pick_dispatch_none by (intros; reflexivity).
      rewrite !pick_map_none by (intros; reflexivity). reflexivity.
    + intros H. discriminate H.
  - inversion E; subst. left. reflexivity.
Qed.

Lemma booked_subs_wrapper {A} pre post (p : Plan A) name func c st o st' t :
  sound (env c) -> subs_wrapper p name func c st = (o, st', t) ->
  (forall st1 o1 st1' t1, p c st1 = (o1, st1', t1) -> booked pre post o1 t1) ->
  booked (Subscribed name :: pre) (post ++ [Unsubscribed]) o t.
Proof.
  intros Hs E Hp. unfold subs_wrapper, subscribe in E.
  rewrite yield_sound in E by (auto; reflexivity). cbn [process fst snd] in E.
  unfold finalize_wrapper in E.
  match type of E with
  | context [p c ?s] => destruct (p c s) as [[o1 s1] t1] eqn:E1
  end.
  pose proof (Hp _ _ _ _ E1) as H1.
  destruct o1 as [a|x|].
  - rewrite yield_sound in E by (auto; reflexivity). cbn [process fst snd] in E.
    inversion E; subst.
    destruct H1 as [H|[H|(status & H & Hr)]]; [discriminate H | |].
    + right. left. cbn [app]. rewrite pick_cons, pick_app, H. reflexivity.
    + right. right. exists status. split; [|exact Hr].
      cbn [app]. rewrite pick_cons, pick_app, H. cbn [booking app pick flat_map].
      rewrite <- !app_assoc. reflexivity.
  - rewrite yield_sound in E by (auto; reflexivity). cbn [process fst snd] in E.
    inversion E; subst.
    destruct H1 as [H|[H|(status & H & Hr)]]; [discriminate H | |].
    + right. left. cbn [app]. rewrite pick_cons, pick_app, H. reflexivity.
    + right. right. exists status. split; [|exact Hr].
      cbn [app]. rewrite pick_cons, pick_app, H. cbn [booking app pick flat_map].
      rewrite <- !app_assoc. reflexivity.
  - inversion E; subst. left. reflexivity.
Qed.

Lemma plan_booked r dwell delta xs md ox oy c st o st' t :
  sound (env c) ->
  plan r dwell delta xs md ox oy c st = (o, st', t) ->
  booked [Subscribed doc_all; Subscribed doc_start; Subscribed doc_stop]
    [Unsubscribed; Unsubscribed; Unsubscribed] o t.
Proof.
  intros Hs E. unfold plan in E.
  pose proof Meek_no_booking as HP. pose proof Fair_any as HX.
  apply (booked_subs_wrapper [Subscribed doc_start; Subscribed doc_stop]
           [Unsubscribed; Unsubscribed] _ _ _ _ _ _ _ _ Hs E).
  intros sa oa sa' ta Ea.
  apply (booked_subs_wrapper [Subscribed doc_stop] [Unsubscribed] _ _ _ _ _ _ _ _ Hs Ea).
  intros sb ob sb' tb Eb.
  apply (booked_subs_wrapper [] [] _ _ _ _ _ _ _ _ Hs Eb).
  intros sc oc sc' tc Ec.
  unfold monitor_during_wrapper, stage_wrapper in Ec.
  eapply booked_finalize; [exact Ec | | sane].
  intros o1 s1 t1 E1.
  eapply booked_bind_before; [exact E1 | sane |].
  intros a s2 o3 s3 t3 E3.
  eapply booked_run_wrapper; [| |exact E3].
  - exact Hs.
  - apply Sane_plan_body; [exact HP | exact HX | intros; exact I].
Qed.

(** The scan, whatever fails at a device. *)
Lemma scan_booked r c st o st' t :
  sound (env c) -> scan_and_fly_base r c st = (o, st', t) ->
  booked [Subscribed doc_all; Subscribed doc_start; Subscribed doc_stop]
    [Unsubscribed; Unsubscribed; Unsubscribed] o t.
Proof.
  intros Hs E. unfold scan_and_fly_base in E.
  pose proof Meek_no_booking as HP. pose proof Fair_any as HX.
  destruct (Z.ltb (xnum r) 1 || Z.ltb (ynum r) 1).
  { unfold bind, print, emit, ret in E. inversion E; subst. right. left. reflexivity. }
  eapply booked_bind_before; [exact E | unfold change_retry_deadband; sane |].
  intros [ox oy] s1 o1 s1' t1 E1.
  eapply booked_bind_before; [exact E1 | |].
  { apply Sane_assign_detectors; [exact HP | intros; exact I]. }
  intros ? s2 o2 s2' t2 E2.
  eapply booked_bind_before; [exact E2 | unfold setup_merlin; sane |].
  intros dw s3 o3 s3' t3 E3.
  eapply booked_bind_before; [exact E3 | unfold setup_dexela; sane |].
  intros ? s4 o4 s4' t4 E4.
  eapply booked_bind_before; [exact E4 | |].
  { unfold derive_delta. destruct (delta r); [apply Sane_ret|].
    apply Sane_bind; [apply Sane_stage_speed; intros; exact I | intros; sane]. }
  intros dl s5 o5 s5' t5 E5.
  eapply booked_bind_before; [exact E5 | sane |].
  intros ? s6 o6 s6' t6 E6.
  eapply booked_bind_before; [exact E6 | sane |].
  intros ? s7 o7 s7' t7 E7.
  eapply booked_bind_before; [exact E7 | sane |].
  intros e s8 o8 s8' t8 E8. cbv zeta in E8.
  eapply booked_bind_before; [exact E8 | |].
  { destruct (detectors r); [apply Sane_raise; intros; exact I | apply Sane_ret]. }
  intros xs s9 o9 s9' t9 E9.
  eapply booked_bind_before; [exact E9 | sane |].
  intros ? s10 o10 s10' t10 E10.
  assert (Hmv : forall s, Sane no_booking any_exception (mv [(shut_b, VStr s)])).
  { intros s. unfold mv. cbn [for_ fst snd].
    apply Sane_bind; [|intros; sane].
    apply Sane_bind; [|intros; sane].
    apply Sane_yield; [exact HP | exact HX | reflexivity]. }
  eapply booked_bind_before; [exact E10 | |].
  { destruct (shutter r); [apply Hmv | apply Sane_ret]. }
  intros ? s11 o11 s11' t11 E11.
  eapply booked_bind_after; [exact E11 | |].
  - intros o1' s1'' t1' Ep. destruct (shutter r).
    + eapply booked_finalize; [exact Ep | | apply Hmv].
      intros o2' s2'' t2' Eq. eapply plan_booked; [exact Hs | exact Eq].
    + eapply plan_booked; [exact Hs | exact Ep].
  - intros uid. apply Sane_bind; [|intros; apply Sane_ret].
    destruct (contains "hf_stage" (motor_name (xmotor r))); [|apply Sane_ret].
    intros c0 st0 o0 st0' t0 E0. unfold call_reset_stage_defaults in E0.
    inversion E0; subst. split; [repeat constructor | intros y Hy; discriminate Hy].
Qed.

(** X21.  Whatever fails at a device or is aborted by the user (the
    RunEngine's own messages being processed), a scan that opens its run and
    does not stay in its loop for ever opens one run and closes it once,
    between the subscribing of its three callbacks (the live plot to all
    documents, [at_scan] to the start and [finalize_scan] to the stop
    document) and their unsubscribing; the run is closed with [success] if
    the scan returns. *)
Theorem run_closed_and_callbacks_unsubscribed r e st :
  sound e ->
  outcome (run (scan_and_fly_base r) e st) <> Spin ->
  pick opened (trace (run (scan_and_fly_base r) e st)) <> [] ->
  exists status,
    pick booking (trace (run (scan_and_fly_base r) e st))
    = [Subscribed doc_all; Subscribed doc_start; Subscribed doc_stop;
       Opened; Closed status;
       Unsubscribed; Unsubscribed; Unsubscribed] /\
    (returned (outcome (run (scan_and_fly_base r) e st)) = true -> status = success).
Proof.
  unfold run, trace, outcome.
  destruct (scan_and_fly_base r {| env := e; monitored := [] |} st) as [[o st'] t] eqn:E.
  cbn [fst snd]. intros Hs Hn Ho.
  destruct (scan_booked r {| env := e; monitored := [] |} st o st' t Hs E) as [H|[H|H]].
  - exfalso. apply Hn. exact H.
  - exfalso. apply Ho. exact H.
  - exact H.
Qed.

(** The user aborts during the sleep before the fly of the first row: the
    run is closed with [abort]. *)
Lemma run_closed_and_callbacks_unsubscribed_witness :
  exists status,
    pick booking
      (trace (run (scan_and_fly_base (request ["xs"] 0 10 11 0 1 2 0.5))
                (beamline (-2) abort_before_fly) (start_state pv_start)))
    = [Subscribed doc_all; Subscribed doc_start; Subscribed doc_stop;
       Opened; Closed status;
       Unsubscribed; Unsubscribed; Unsubscribed] /\
    (returned
       (outcome (run (scan_and_fly_base (request ["xs"] 0 10 11 0 1 2 0.5))
                   (beamline (-2) abort_before_fly) (start_state pv_start)))
     = true -> status = success).
Proof.
  apply (run_closed_and_callbacks_unsubscribed (request ["xs"] 0 10 11 0 1 2 0.5)
           (beamline (-2) abort_before_fly) (start_state pv_start)).
  - intros k m Hm. destruct m; try discriminate Hm; reflexivity.
  - vm_compute. discriminate.
  - vm_compute. discriminate.
Defined.

(** * A scan that stays in its loop *)

Lemma NoSpin_ret {A} (a : A) : NoSpin (ret a).
Proof. intros c st o st' t E. inversion E. discriminate. Qed.

Lemma NoSpin_raise {A} x : NoSpin (@raise A x).
Proof. intros c st o st' t E. inversion E. discriminate. Qed.

Lemma NoSpin_ask : NoSpin ask.
Proof. intros c st o st' t E. inversion E. discriminate. Qed.

Lemma NoSpin_get s : NoSpin (get s).
Proof. intros c st o st' t E. inversion E. discriminate. Qed.

Lemma NoSpin_put s v : NoSpin (put s v).
Proof. intros c st o st' t E. unfold put, do_put in E. inversion E. discriminate. Qed.

Lemma NoSpin_emit ev : NoSpin (emit ev).
Proof. intros c st o st' t E. inversion E. discriminate. Qed.

Lemma NoSpin_yield m : NoSpin (yield_ m).
Proof.
  intros c st o st' t E. unfold yield_ in E.
  destruct (fault (env c) (nmsgs st) m); [inversion E; discriminate|].
  destruct (process (env c) m (count_msg st)). inversion E. discriminate.
Qed.

Lemma NoSpin_bind {A B} (p : Plan A) (k : A -> Plan B) :
  NoSpin p -> (forall a, NoSpin (k a)) -> NoSpin (bind p k).
Proof.
  intros Hp Hk c st o st' t E. unfold bind in E.
  destruct (p c st) as [[o1 s1] t1] eqn:E1.
  pose proof (Hp _ _ _ _ _ E1) as N1.
  destruct o1 as [a|x|]; [| inversion E; discriminate | exfalso; apply N1; reflexivity].
  destruct (k a c s1) as [[o2 s2] t2] eqn:E2. inversion E; subst.
  apply (Hk a _ _ _ _ _ E2).
Qed.

Lemma NoSpin_if {A} (b : bool) (p q : Plan A) :
  NoSpin p -> NoSpin q -> NoSpin (if b then p else q).
Proof. destruct b; auto. Qed.

Lemma NoSpin_for {X} (l : list X) (body : X -> Plan unit) :
  (forall x, NoSpin (body x)) -> NoSpin (for_ l body).
Proof.
  intros H. induction l as [|x l IH]; cbn [for_].
  - apply NoSpin_ret.
  - apply NoSpin_bind; [apply H | intros _; exact IH].
Qed.

Ltac nospin :=
  cbv beta zeta;
  lazymatch goal with
  | |- NoSpin (bind _ _) => apply NoSpin_bind; [ nospin | intros; nospin ]
  | |- NoSpin (ret _) => apply NoSpin_ret
  | |- NoSpin (raise _) => apply NoSpin_raise
  | |- NoSpin ask => apply NoSpin_ask
  | |- NoSpin (get _) => apply NoSpin_get
  | |- NoSpin (put _ _) => apply NoSpin_put
  | |- NoSpin (if _ then _ else _) => apply NoSpin_if; nospin
  | |- NoSpin (match ?l with [] => _ | _ :: _ => _ end) => destruct l; nospin
  | |- NoSpin (yield_ _) => apply NoSpin_yield
  | |- NoSpin (emit _) => apply NoSpin_emit
  | |- NoSpin (print _) => apply NoSpin_emit
  | |- NoSpin (mv _) => unfold mv; cbn [for_ fst snd]; nospin
  | |- NoSpin (for_ _ _) => apply NoSpin_for; intros; nospin
  | |- _ => idtac
  end.

Lemma NoSpin_stage_speed r d : NoSpin (stage_speed r d).
Proof.
  unfold stage_speed, py_div. apply NoSpin_bind.
  - destruct (Qeq_bool (inject_Z (xnum r - 1)) 0); nospin.
  - intros q. destruct (Qeq_bool d 0); nospin.
Qed.

(** A part of a plan that stays in its loop has done what came before. *)
Lemma spin_bind {A B} (p : Plan A) (k : A -> Plan B) c st st' t :
  bind p k c st = (Spin, st', t) -> NoSpin p ->
  exists a s1 t1 t2,
    p c st = (Ret a, s1, t1) /\ k a c s1 = (Spin, st', t2) /\ t = t1 ++ t2.
Proof.
  intros E Hp. unfold bind in E.
  destruct (p c st) as [[o1 s1] t1] eqn:E1.
  pose proof (Hp _ _ _ _ _ E1) as N1.
  destruct o1 as [a|x|]; [| discriminate E | exfalso; apply N1; reflexivity].
  destruct (k a c s1) as [[o2 s2] t2] eqn:E2. inversion E; subst.
  exists a, s1, t1, t2. split; [reflexivity | split; [exact E2 | reflexivity]].
Qed.

Lemma spin_first {A B} (p : Plan A) (k : A -> Plan B) c st st' t :
  bind p k c st = (Spin, st', t) -> (forall a, NoSpin (k a)) ->
  p c st = (Spin, st', t).
Proof.
  intros E Hk. unfold bind in E.
  destruct (p c st) as [[o1 s1] t1] eqn:E1.
  destruct o1 as [a|x|]; [| discriminate E | inversion E; reflexivity].
  destruct (k a c s1) as [[o2 s2] t2] eqn:E2.
  pose proof (Hk a _ _ _ _ _ E2) as N2.
  inversion E; subst. exfalso. apply N2. reflexivity.
Qed.

Lemma spin_finalize {A} (p : Plan A) (f : Plan unit) c st st' t :
  finalize_wrapper p f c st = (Spin, st', t) -> NoSpin f ->
  p c st = (Spin, st', t).
Proof.
  intros E Hf. unfold finalize_wrapper in E.
  destruct (p c st) as [[o1 s1] t1] eqn:E1.
  destruct o1 as [a|x|]; [| |inversion E; reflexivity];
    destruct (f c s1) as [[o2 s2] t2] eqn:E2;
    pose proof (Hf _ _ _ _ _ E2) as N2;
    destruct o2; try discriminate E; exfalso; apply N2; reflexivity.
Qed.

(** The events of a part with no booking and no word to the shutter. *)
Definition idle (ev : Event) : Prop := booking ev = None /\ shutter_set ev = None.

Lemma Meek_idle : Meek idle.
Proof.
  unfold Meek, idle.
  split; [intros; split; reflexivity|].
  split; [split; reflexivity|].
  split; [intros; split; reflexivity|].
  split; [intros; split; reflexivity|].
  split; [intros; split; reflexivity|].
  intros m Hp H. split.
  - destruct m; try reflexivity; discriminate Hp.
  - destruct m; try reflexivity.
    destruct obj as [d a]. destruct val; try reflexivity. discriminate H.
Qed.

Lemma idle_picks t :
  Forall idle t -> pick booking t = [] /\ pick shutter_set t = [].
Proof.
  intros H. split; apply pick_none; eapply Forall_impl; [|exact H| |exact H];
    intros ev [H1 H2]; assumption.
Qed.

Lemma spin_subs_wrapper {A} (p : Plan A) name func c st st' t :
  sound (env c) -> subs_wrapper p name func c st = (Spin, st', t) ->
  exists s1 t1, p c s1 = (Spin, st', t1) /\ t = EMsg (Msubscribe name func) :: t1.
Proof.
  intros Hs E. unfold subs_wrapper, subscribe in E.
  rewrite yield_sound in E by (auto; reflexivity). cbn [process fst snd] in E.
  match type of E with
  | context [finalize_wrapper p ?f c ?s] =>
      destruct (finalize_wrapper p f c s) as [[o2 s2] t2] eqn:E2
  end.
  inversion E; subst.
  apply spin_finalize in E2; [|apply NoSpin_yield].
  eexists _, t2. split; [exact E2 | reflexivity].
Qed.

Lemma spin_run_wrapper {A} (body : Plan A) md c st st' t :
  sound (env c) -> Sane idle any_exception body ->
  run_wrapper body md c st = (Spin, st', t) ->
  pick booking t = [Opened] /\ pick shutter_set t = [].
Proof.
  intros Hs Hb E. unfold run_wrapper, bind in E.
  destruct (open_run_sound md c st Hs) as (s1 & E1 & S1). rewrite E1 in E.
  unfold contingency_wrapper in E.
  destruct (body c s1) as [[ob sb] tb] eqn:Eb.
  destruct (Hb _ _ _ _ _ Eb) as [Fb _].
  destruct (idle_picks tb Fb) as [Pb Sb].
  destruct ob as [a|x|].
  - destruct (close_run_sound success c sb Hs) as (s3 & E3).
    rewrite E3 in E. unfold ret in E. discriminate E.
  - destruct (close_run_sound (exit_status_of x) c sb Hs) as (s3 & E3).
    rewrite E3 in E. discriminate E.
  - inversion E; subst. split.
    + repeat (rewrite ?pick_cons, ?pick_app). rewrite Pb.
      rewrite !pick_dispatch_none by (intros; reflexivity).
      rewrite !pick_map_none by (intros; reflexivity). reflexivity.
    + repeat (rewrite ?pick_cons, ?pick_app). rewrite Sb.
      rewrite !pick_dispatch_none by (intros; reflexivity).
      rewrite !pick_map_none by (intros; reflexivity). reflexivity.
Qed.

Lemma spin_plan r dwell delta xs md ox oy c st st' t :
  sound (env c) ->
  plan r dwell delta xs md ox oy c st = (Spin, st', t) ->
  pick booking t
  = [Subscribed doc_all; Subscribed doc_start; Subscribed doc_stop; Opened] /\
  pick shutter_set t = [].
Proof.
  intros Hs E. unfold plan in E.
  pose proof Meek_idle as HP. pose proof Fair_any as HX.
  apply spin_subs_wrapper in E; [|exact Hs]. destruct E as (sa & ta & E & ->).
  apply spin_subs_wrapper in E; [|exact Hs]. destruct E as (sb & tb & E & ->).
  apply spin_subs_wrapper in E; [|exact Hs]. destruct E as (sc & tc & E & ->).
  unfold monitor_during_wrapper, stage_wrapper in E.
  apply spin_finalize in E; [|nospin].
  apply spin_bind in E; [|nospin].
  destruct E as (u & s1 & t1 & t2 & E1 & E2 & ->).
  assert (H1 : Sane idle any_exception
                 (for_ [flyer_name (flying_zebra r)] (fun d => yield_ (Mstage d))))
    by sane.
  destruct (H1 _ _ _ _ _ E1) as [F1 _]. destruct (idle_picks t1 F1) as [B1 S1].
  eapply spin_run_wrapper in E2;
    [| exact Hs | apply Sane_plan_body; [exact HP | exact HX | intros; exact I]].
  destruct E2 as [B2 S2].
  split.
  - rewrite !pick_cons, pick_app, B1, B2. reflexivity.
  - rewrite !pick_cons, pick_app, S1, S2. reflexivity.
Qed.

Lemma spin_prefix {A B} (p : Plan A) (k : A -> Plan B) c st st' t :
  bind p k c st = (Spin, st', t) -> NoSpin p -> Sane idle any_exception p ->
  exists a s1 t2,
    k a c s1 = (Spin, st', t2) /\
    pick booking t = pick booking t2 /\ pick shutter_set t = pick shutter_set t2.
Proof.
  intros E Hn Hp. apply spin_bind in E; [|exact Hn].
  destruct E as (a & s1 & t1 & t2 & E1 & E2 & ->).
  destruct (Hp _ _ _ _ _ E1) as [F1 _]. destruct (idle_picks t1 F1) as [B1 S1].
  exists a, s1, t2. split; [exact E2|].
  rewrite !pick_app, B1, S1. split; reflexivity.
Qed.

(** X22.  A scan that stays in the loop that waits for the fast axis (the
    RunEngine's own messages being processed) has its three callbacks
    subscribed and its run opened, and none of them undone: the run is not
    closed and nothing is unsubscribed; with the shutter in use, the shutter
    has been told to open and is not told to close. *)
Theorem scan_in_its_loop_holds_the_run_open r e st :
  sound e ->
  outcome (run (scan_and_fly_base r) e st) = Spin ->
  pick booking (trace (run (scan_and_fly_base r) e st))
  = [Subscribed doc_all; Subscribed doc_start; Subscribed doc_stop; Opened] /\
  pick shutter_set (trace (run (scan_and_fly_base r) e st))
  = (if shutter r then ["Open"] else []).
Proof.
  unfold run, trace, outcome.
  destruct (scan_and_fly_base r {| env := e; monitored := [] |} st) as [[o st'] t] eqn:E.
  cbn [fst snd]. intros Hs ->.
  set (c := {| env := e; monitored := [] |}) in *.
  assert (Hsc : sound (env c)) by exact Hs.
  unfold scan_and_fly_base in E.
  pose proof Meek_idle as HP. pose proof Fair_any as HX.
  destruct (Z.ltb (xnum r) 1 || Z.ltb (ynum r) 1).
  { unfold bind, print, emit, ret in E. discriminate E. }
  apply spin_prefix in E;
    [| unfold change_retry_deadband; nospin | unfold change_retry_deadband; sane].
  destruct E as ([ox oy] & s1 & t1 & E & -> & ->).
  apply spin_prefix in E;
    [| unfold assign_detectors; nospin
     | apply Sane_assign_detectors; [exact HP | intros; exact I]].
  destruct E as (? & s2 & t2 & E & -> & ->).
  apply spin_prefix in E; [| unfold setup_merlin; nospin | unfold setup_merlin; sane].
  destruct E as (dw & s3 & t3 & E & -> & ->).
  apply spin_prefix in E; [| unfold setup_dexela; nospin | unfold setup_dexela; sane].
  destruct E as (? & s4 & t4 & E & -> & ->).
  apply spin_prefix in E.
  2: { unfold derive_delta. destruct (delta r); [apply NoSpin_ret|].
       apply NoSpin_bind; [apply NoSpin_stage_speed | intros; nospin]. }
  2: { unfold derive_delta. destruct (delta r); [apply Sane_ret|].
       apply Sane_bind; [apply Sane_stage_speed; intros; exact I | intros; sane]. }
  destruct E as (dl & s5 & t5 & E & -> & ->).
  apply spin_prefix in E; [| nospin | sane].
  destruct E as (? & s6 & t6 & E & -> & ->).
  apply spin_prefix in E; [| nospin | sane].
  destruct E as (? & s7 & t7 & E & -> & ->).
  apply spin_prefix in E; [| nospin | sane].
  destruct E as (e' & s8 & t8 & E & -> & ->). cbv zeta in E.
  apply spin_prefix in E.
  2: { destruct (detectors r); nospin. }
  2: { destruct (detectors r); [apply Sane_raise; intros; exact I | apply Sane_ret]. }
  destruct E as (xs & s9 & t9 & E & -> & ->).
  apply spin_prefix in E; [| nospin | sane].
  destruct E as (? & s10 & t10 & E & -> & ->).
  apply spin_bind in E; [| destruct (shutter r); nospin].
  destruct E as (? & s11 & t11 & t12 & Eo & E & ->).
  apply spin_first in E.
  2: { intros uid. apply NoSpin_bind; [|intros; nospin].
       destruct (contains "hf_stage" (motor_name (xmotor r))); [|nospin].
       intros c0 st0 o0 st0' t0 E0. unfold call_reset_stage_defaults in E0.
       inversion E0. discriminate. }
  rewrite !pick_app.
  destruct (shutter r).
  - apply spin_finalize in E; [|nospin].
    destruct (spin_plan _ _ _ _ _ _ _ _ _ _ _ Hsc E) as [B S].
    destruct (mv_shutter _ _ _ _ _ _ Eo) as (_ & So & _).
    assert (Bo : pick booking t11 = []).
    { assert (Hmv : Sane no_booking any_exception (mv [(shut_b, VStr "Open")])).
      { unfold mv. cbn [for_ fst snd].
        apply Sane_bind; [|intros; apply Sane_yield;
                            [exact Meek_no_booking | exact HX | reflexivity]].
        apply Sane_bind; [|intros; apply Sane_ret].
        apply Sane_yield; [exact Meek_no_booking | exact HX | reflexivity]. }
      destruct (Hmv _ _ _ _ _ Eo) as [Fo _]. apply pick_none. exact Fo. }
    rewrite Bo, So, B, S. split; reflexivity.
  - destruct (spin_plan _ _ _ _ _ _ _ _ _ _ _ Hsc E) as [B S].
    unfold ret in Eo. inversion Eo; subst. rewrite B, S. split; reflexivity.
Qed.

(** An axis that stays at 0 when it should start at -2. *)
Lemma scan_in_its_loop_holds_the_run_open_witness :
  pick booking
    (trace (run (scan_and_fly_base (request ["xs"] 0 10 11 0 1 2 0.5))
              (beamline 0 no_faults) (start_state pv_start)))
  = [Subscribed doc_all; Subscribed doc_start; Subscribed doc_stop; Opened] /\
  pick shutter_set
    (trace (run (scan_and_fly_base (request ["xs"] 0 10 11 0 1 2 0.5))
              (beamline 0 no_faults) (start_state pv_start)))
  = ["Open"].
Proof.
  apply (scan_in_its_loop_holds_the_run_open (request ["xs"] 0 10 11 0 1 2 0.5)
           (beamline 0 no_faults) (start_state pv_start)).
  - apply sound_no_faults.
  - vm_compute. reflexivity.
Defined.

(** * What the detectors are told *)

Lemma pick_flat_map {X Y} (f : Event -> option X) (g : Y -> list Event) l :
  pick f (flat_map g l) = flat_map (fun y => pick f (g y)) l.
Proof.
  induction l as [|y l IH]; [reflexivity|].
  cbn [flat_map]. rewrite pick_app, IH. reflexivity.
Qed.

Lemma flat_map_ext_map {X Y} (g : X -> list Y) (h : X -> Y) l :
  (forall x, g x = [h x]) -> flat_map g l = map h l.
Proof.
  intros H. induction l as [|x l IH]; [reflexivity|].
  cbn [flat_map map]. rewrite H, IH. reflexivity.
Qed.

Lemma pick_row_detector_step r e dwell delta v motor step k :
  pick detector_step (row_trace r e dwell delta v motor step k)
  = map Triggered (detectors r).
Proof.
  unfold row_trace, before_kickoff, before_fly, after_collect. rewrite !pick_app.
  replace (pick detector_step (trigger_trace r)) with (map Triggered (detectors r)).
  2: { unfold trigger_trace. rewrite pick_flat_map. symmetry.
       apply flat_map_ext_map. intros d.
       destruct (String.eqb d "dexela"); reflexivity. }
  drop_row_pieces. reflexivity.
Qed.

Lemma pick_rows_detector_step r e dwell delta v :
  forall steps ks ystep,
    List.length ks = List.length steps ->
    pick detector_step (rows_trace r e dwell delta v ystep steps ks)
    = List.concat
        (repeat (map (fun d => FlyNext d (VBool true)) (detectors r)
                 ++ map Triggered (detectors r))
           (List.length steps)).
Proof.
  induction steps as [|step steps IH]; intros ks ystep Hlen.
  - destruct ks; reflexivity.
  - destruct ks as [|k ks]; [discriminate|].
    cbn [rows_trace List.length repeat List.concat]. rewrite !pick_app.
    rewrite pick_flat_map.
    rewrite (flat_map_ext_map _ (fun d => FlyNext d (VBool true)))
      by (intros; reflexivity).
    rewrite pick_row_detector_step.
    rewrite (IH ks) by (simpl in Hlen; lia).
    cbn [pick flat_map detector_step scanrecord String.eqb Ascii.eqb Bool.eqb app].
    rewrite app_assoc. reflexivity.
Qed.

Lemma pick_scan_detector_step r e pv0 token xs ks :
  List.length ks = Z.to_nat (ynum r) ->
  pick detector_step (scan_trace r e pv0 token xs ks)
  = map (fun d => TotalPoints d (VInt (xnum r))) (detectors r)
    ++ List.concat
         (repeat (map (fun d => FlyNext d (VBool true)) (detectors r)
                  ++ map Triggered (detectors r))
            (Z.to_nat (ynum r))).
Proof.
  intros Hlen.
  unfold scan_trace, plan_trace, body_trace; cbv zeta.
  rewrite !pick_app.
  rewrite pick_rows_detector_step by (rewrite length_np_linspace; exact Hlen).
  rewrite length_np_linspace.
  rewrite pick_flat_map.
  rewrite (flat_map_ext_map _ (fun d => TotalPoints d (VInt (xnum r))))
    by (intros; reflexivity).
  drop_pieces. reflexivity.
Qed.

(** X23.  In a scan in which nothing fails each detector given is told its
    number of points, [xnum], once before the first row; in each of the
    [ynum] rows each detector is told that the next row is a fly and is then
    triggered once, in the group of the row, in the order of the list. *)
Theorem detectors_armed_and_triggered_in_each_row r e st :
  smooth e r -> subs st = [] ->
  pick detector_step (trace (run (scan_and_fly_base r) e st))
  = map (fun d => TotalPoints d (VInt (xnum r))) (detectors r)
    ++ List.concat
         (repeat (map (fun d => FlyNext d (VBool true)) (detectors r)
                  ++ map Triggered (detectors r))
            (Z.to_nat (ynum r))).
Proof.
  intros Hs Hsubs.
  destruct (smooth_run r e st Hs Hsubs) as (xs & ks & _ & Hlen & _ & ->).
  apply pick_scan_detector_step. exact Hlen.
Qed.

(** Two detectors and two rows. *)
Lemma detectors_armed_and_triggered_in_each_row_witness :
  pick detector_step
    (trace (run (scan_and_fly_base (request ["xs"; "dexela"] 0 10 11 0 1 2 0.5))
              (beamline (-2) no_faults) (start_state pv_start)))
  = [TotalPoints "xs" (VInt 11); TotalPoints "dexela" (VInt 11);
     FlyNext "xs" (VBool true); FlyNext "dexela" (VBool true);
     Triggered "xs"; Triggered "dexela";
     FlyNext "xs" (VBool true); FlyNext "dexela" (VBool true);
     Triggered "xs"; Triggered "dexela"].
Proof.
  apply (detectors_armed_and_triggered_in_each_row
           (request ["xs"; "dexela"] 0 10 11 0 1 2 0.5)
           (beamline (-2) no_faults) (start_state pv_start)).
  - smooth_example.
  - reflexivity.
Defined.
